(** * Weather station (Raspberry Pi Pico W): a shallow embedding of [main.py]

    The program polls a BME280 sensor, draws the readings on an LCD and
    serves them as a small web page.  Everything it does goes through
    device drivers (sensor, display, radio, sockets), so the embedding is
    a state-and-exception monad over a [World]: the module globals, the
    two locals of the service loop, and the chronological trace of driver
    calls and console output.  The devices themselves are an [Env] of
    oracles; the k-th answer a driver gives is [oracle k]. *)

From Stdlib Require Import String Ascii List ZArith Lia Bool Arith.
From Stdlib Require Import DecimalString.
Import ListNotations.
Open Scope string_scope.

(** ** Python values that reach the console or the drivers *)

(** The exception classes the handlers of [main.py] tell apart:
    [except OSError], [except Exception] (every other subclass of
    Exception, named), and [KeyboardInterrupt], which is a BaseException
    and so escapes [except Exception] but not a bare [except:]. *)
Inductive exn : Type :=
| OSError (errno : Z)
| Exception_ (name : string)
| KeyboardInterrupt.

Inductive result (A : Type) : Type :=
| Ok (a : A)
| Raise (e : exn).
Arguments Ok {A} a.
Arguments Raise {A} e.

(** A connection socket returned by [server.accept()]. *)
Definition Conn := nat.

(** Arguments of [print]. *)
Inductive pyval : Type :=
| VStr (s : string)
| VInt (z : Z)
| VBytes (b : string)   (* str() of a bytes object *)
| VAddr                 (* the address from getaddrinfo *)
| VExn (e : exn).

(** Driver calls and console lines, in the order the program makes them. *)
Inductive event : Type :=
| Print (args : list pyval)
| Sleep (seconds : Z)
| SensorInit
| SensorValues
| DrawText (x y : Z) (msg : string)
| WlanDisconnect
| WlanConnect (ssid password : string)
| WlanStatus (status : Z)
| WlanIsConnected (up : bool)
| WlanIfconfig
| WlanActive (on : bool)
| GetAddrInfo
| ServerSocket
| ServerSetSockOpt
| ServerBind (port : Z)
| ServerListen (backlog : Z)
| ServerSetTimeout (seconds : Z)
| ServerAccept
| ServerClose
| ConnSetTimeout (c : Conn) (seconds : Z)
| ConnRecv (c : Conn) (bufsize : Z)
| ConnSend (c : Conn) (data : string)
| ConnSendAll (c : Conn) (data : string)
| ConnClose (c : Conn).

(** ** The world *)

Record World : Type := mkWorld {
  (* module globals: "data for screen and web" *)
  temperature : string;
  pressure : string;
  humidity : string;
  (* locals of run_display_and_webserver *)
  stay_in_loop : bool;
  conn : option Conn;
  (* number of driver answers consumed so far, and what happened so far *)
  clock : nat;
  trace : list event
}.

(** The state after the module-level assignments
    [temperature = ''], [pressure = ''], [humidity = '']. *)
Definition initial_world : World :=
  mkWorld "" "" "" true None 0 [].

(** The [wlan.connect(ssid, password)] calls of a trace, oldest first. *)
Fixpoint joins (evs : list event) : list (string * string) :=
  match evs with
  | [] => []
  | WlanConnect ssid password :: rest => (ssid, password) :: joins rest
  | _ :: rest => joins rest
  end.

(** ** The devices

    Each oracle is asked with the current [clock]; a deterministic
    program sees any device behaviour as such a function.  The sensor
    calls and the calls on an accepted connection or on [accept] may
    raise.  The radio queries return a value, which may also depend on
    the networks the radio was told to join so far.  Every other driver
    call (display, radio commands, setting up and closing the listening
    socket, [time.sleep], [print]) is taken to return normally. *)
Record Env : Type := mkEnv {
  bme_init : nat -> result unit;              (* bme280.BME280(i2c=i2c) *)
  bme_values : nat -> result (list string);   (* bme.values *)
  wlan_status : list (string * string) -> nat -> Z;         (* wlan.status() *)
  wlan_isconnected : list (string * string) -> nat -> bool; (* wlan.isconnected() *)
  wlan_ifconfig : list (string * string) -> nat -> string;  (* wlan.ifconfig()[0] *)
  srv_accept : nat -> result (Conn * string); (* server.accept() *)
  conn_settimeout : nat -> result unit;       (* conn.settimeout(3.0) *)
  conn_recv : nat -> result string;           (* conn.recv(1024) *)
  conn_send : nat -> result unit;             (* conn.send(...) *)
  conn_sendall : nat -> result unit;          (* conn.sendall(...) *)
  conn_close : nat -> result unit             (* conn.close() *)
}.

(** ** The monad *)

Definition M (A : Type) : Type := World -> result A * World.

Definition ret {A : Type} (a : A) : M A := fun w => (Ok a, w).

Definition bind {A B : Type} (m : M A) (k : A -> M B) : M B :=
  fun w =>
    match m w with
    | (Ok a, w') => k a w'
    | (Raise e, w') => (Raise e, w')
    end.

Definition raise {A : Type} (e : exn) : M A := fun w => (Raise e, w).

(** [try: body / except ... as e: handler e].  The writes [body] made
    before raising stay; an exception raised by the handler leaves the
    statement. *)
Definition try_except {A : Type} (body : M A) (handler : exn -> M A) : M A :=
  fun w =>
    match body w with
    | (Ok a, w') => (Ok a, w')
    | (Raise e, w') => handler e w'
    end.

Declare Scope py_scope.
Delimit Scope py_scope with py.
Notation "x <- m ;; k" := (bind m (fun x => k))
  (at level 61, m at next level, right associativity) : py_scope.
Notation "m ;; k" := (bind m (fun _ => k))
  (at level 61, right associativity) : py_scope.
Open Scope py_scope.

Definition emit (e : event) : M unit :=
  fun w => (Ok tt, mkWorld (temperature w) (pressure w) (humidity w)
                     (stay_in_loop w) (conn w) (clock w) (trace w ++ [e])).

Definition tick : M nat :=
  fun w => (Ok (clock w), mkWorld (temperature w) (pressure w) (humidity w)
                            (stay_in_loop w) (conn w) (S (clock w)) (trace w)).

Definition gets {A : Type} (f : World -> A) : M A := fun w => (Ok (f w), w).

Definition set_temperature (s : string) : M unit :=
  fun w => (Ok tt, mkWorld s (pressure w) (humidity w)
                     (stay_in_loop w) (conn w) (clock w) (trace w)).
Definition set_pressure (s : string) : M unit :=
  fun w => (Ok tt, mkWorld (temperature w) s (humidity w)
                     (stay_in_loop w) (conn w) (clock w) (trace w)).
Definition set_humidity (s : string) : M unit :=
  fun w => (Ok tt, mkWorld (temperature w) (pressure w) s
                     (stay_in_loop w) (conn w) (clock w) (trace w)).
Definition set_stay_in_loop (b : bool) : M unit :=
  fun w => (Ok tt, mkWorld (temperature w) (pressure w) (humidity w)
                     b (conn w) (clock w) (trace w)).
Definition set_conn (c : Conn) : M unit :=
  fun w => (Ok tt, mkWorld (temperature w) (pressure w) (humidity w)
                     (stay_in_loop w) (Some c) (clock w) (trace w)).

(** A driver call that may raise: logged, then answered by the oracle. *)
Definition call {A : Type} (ev : event) (oracle : nat -> result A) : M A :=
  emit ev ;;
  t <- tick ;;
  match oracle t with
  | Ok a => ret a
  | Raise e => raise e
  end.

(** A radio query: answered by the oracle, logged with its answer. *)
Definition query {A : Type} (oracle : list (string * string) -> nat -> A)
    (ev : A -> event) : M A :=
  h <- gets (fun w => joins (trace w)) ;;
  t <- tick ;;
  emit (ev (oracle h t)) ;;
  ret (oracle h t).

Definition print (args : list pyval) : M unit := emit (Print args).
Definition sleep (seconds : Z) : M unit := emit (Sleep seconds).

(** [str(n)] for a Python int. *)
Definition str_int (z : Z) : string := NilZero.string_of_int (Z.to_int z).

(** ** Literals *)

Definition dq : string := String "034"%char EmptyString.
Definition lf : string := String "010"%char EmptyString.
Definition crlf : string := String "013"%char lf.
Definition unlines (ls : list string) : string := String.concat lf ls.

(** The value stored when the sensor cannot be read. *)
Definition sentinel : string := "n/a".

(** wifi networks to try (WIFI NAME : WIFI PWD), in iteration order. *)
Definition wifiNetworks : list (string * string) :=
  [ ("SM-S918W0938", "xxxxx"); ("TLA Student", "yyyy") ].

(** The four literal pieces of the page in [web_page]. *)
Definition html_0 : string :=
  unlines
    [ "";
      "<html>";
      "<head>";
      "    <meta name=" ++ dq ++ "viewport" ++ dq ++ " content=" ++ dq ++ "width=device-width, initial-scale=1" ++ dq ++ ">";
      "    <link rel=" ++ dq ++ "icon" ++ dq ++ " href=" ++ dq ++ "data:," ++ dq ++ ">";
      "    <style>";
      "        body { text-align: center; font-family: " ++ dq ++ "Helvetica" ++ dq ++ ", Arial;}";
      "        table { border-collapse: collapse; width:55%; margin-left:auto; margin-right:auto; }";
      "        th { padding: 12px; background-color: #87034F; color: white; }";
      "        tr { border: 2px solid #000556; padding: 12px; }";
      "        tr:hover { background-color: #bcbcbc; }";
      "        td { border: none; padding: 14px; }";
      "        .sensor { color:DarkBlue; font-weight: bold; background-color: #ffffff; padding: 1px;  ";
      "        ";
      "        img{display: block; margin-left: auto; margin-right: auto;}";
      "    </style>";
      "    <meta http-equiv=" ++ dq ++ "refresh" ++ dq ++ " content=" ++ dq ++ "60" ++ dq ++ ">";
      "    <meta name=" ++ dq ++ "viewport" ++ dq ++ " content=" ++ dq ++ "width=device-width, initial-scale=1" ++ dq ++ ">";
      "</head>";
      "<body>";
      "    <h1>";
      "        Welcome to Evan's Weather Station";
      "    </h1>";
      "    Want to know the temperature, check it here! <br>";
      "    <br>";
      "    ";
      "    <img src=" ++ dq ++ "https://static.wikia.nocookie.net/legobatman/images/a/af/Batman1_Robin.png" ++ dq ++ " height=" ++ dq ++ "200" ++ dq ++ " />";
      "";
      "    <table>";
      "    <tr>";
      "        <th>Parameters</th><th>Value</th>";
      "    </tr>";
      "    <tr>";
      "        <td>";
      "            Temperature";
      "        </td>";
      "        <td>";
      "            <span class=" ++ dq ++ "sensor" ++ dq ++ ">" ].

Definition html_1 : string :=
  unlines
    [ "</span>";
      "        </td>";
      "    </tr>";
      "    <tr>";
      "        <td>";
      "            Pressure</td><td><span class=" ++ dq ++ "sensor" ++ dq ++ ">" ].

Definition html_2 : string :=
  unlines
    [ "</span>";
      "        </td>";
      "    </tr>";
      "    <tr>";
      "        <td>Humidity</td>";
      "        <td><span class=" ++ dq ++ "sensor" ++ dq ++ ">" ].

Definition html_3 : string :=
  unlines
    [ "</span></td>";
      "    </tr> ";
      "    </table>";
      "</body>";
      "</html>" ].

(** [web_page()]: the template with the three globals spliced in. *)
Definition web_page (w : World) : string :=
  html_0 ++ temperature w ++ html_1 ++ pressure w ++ html_2 ++ humidity w ++ html_3.

(** The bytes handed to [conn.send] before the page. *)
Definition http_header : string :=
  "HTTP/1.1 200 OK" ++ crlf ++ "Content-type: text/html" ++ crlf ++ crlf.

Section Program.

Variable env : Env.

(** ** Sensor *)

(** [t[i]] on the tuple returned by [bme.values]. *)
Definition subscript (t : list string) (i : nat) : M string :=
  match nth_error t i with
  | Some s => ret s
  | None => raise (Exception_ "IndexError")
  end.

(** The body of the [try] in [refresh_weatherData]: the driver object is
    built, then [bme.values] is evaluated once per assignment. *)
Definition sensor_transaction : M unit :=
  call SensorInit (bme_init env) ;;
  v0 <- call SensorValues (bme_values env) ;;
  t <- subscript v0 0 ;;
  set_temperature t ;;
  v1 <- call SensorValues (bme_values env) ;;
  p <- subscript v1 1 ;;
  set_pressure p ;;
  v2 <- call SensorValues (bme_values env) ;;
  h <- subscript v2 2 ;;
  set_humidity h.

(** The bare [except:] of [refresh_weatherData]. *)
Definition sensor_unavailable : M unit :=
  set_temperature "n/a" ;;
  set_pressure "n/a" ;;
  set_humidity "n/a".

Definition refresh_weatherData : M unit :=
  try_except sensor_transaction (fun _ => sensor_unavailable).

(** ** Display *)

(** [dprint(x, y, foreColor, backColor, font, msg)] calls
    [display.draw_text(y, 320-x, msg, ...)]; colours and fonts are left
    out of the trace. *)
Definition dprint (x y : Z) (msg : string) : M unit :=
  emit (DrawText y (320 - x) msg).

Definition display_weatherData : M unit :=
  print [VStr "updating display..."] ;;
  refresh_weatherData ;;
  t <- gets temperature ;;
  dprint 175 65 (t ++ "  ") ;;
  p <- gets pressure ;;
  dprint 175 107 (p ++ "  ") ;;
  h <- gets humidity ;;
  dprint 175 150 (h ++ "  ").

(** ** Joining a network *)

(** The [while] of [connect_to_wifi]:
    [while wlan.status() >= 0 and wlan.status() < 3 and wait < 10:].
    The guard asks the radio up to twice before it looks at [wait], and
    the body asks once more for the console line.  [fuel] bounds the
    recursion; [wait_loop_fuel] shows that 11 is enough from [wait = 0]. *)
Fixpoint wait_loop (fuel : nat) (wait : Z) : M unit :=
  match fuel with
  | O => ret tt
  | S fuel' =>
      s1 <- query (wlan_status env) WlanStatus ;;
      if (s1 >=? 0)%Z then
        s2 <- query (wlan_status env) WlanStatus ;;
        if (s2 <? 3)%Z then
          if (wait <? 10)%Z then
            s3 <- query (wlan_status env) WlanStatus ;;
            print [VStr "waiting for connection... status = "; VInt s3] ;;
            sleep 1 ;;
            wait_loop fuel' (wait + 1)
          else ret tt
        else ret tt
      else ret tt
  end.

(** One pass of the body of [for i in range(2)]; the result says whether
    the function returns [True] from here. *)
Definition connect_attempt (ssid password : string) : M bool :=
  print [VStr "connecting to network"; VStr ssid; VStr ","; VStr password;
         VStr "..."] ;;
  emit (WlanConnect ssid password) ;;
  wait_loop 11 0 ;;
  up <- query (wlan_isconnected env) WlanIsConnected ;;
  if up then
    ip <- query (wlan_ifconfig env) (fun _ => WlanIfconfig) ;;
    print [VStr ("connected. IP: " ++ ip)] ;;
    ret true
  else
    s <- query (wlan_status env) WlanStatus ;;
    print [VStr ("connection to " ++ ssid ++ " failed. status = " ++ str_int s)] ;;
    ret false.

(** [for i in range(n): ...] around a body that may return [True]. *)
Fixpoint for_range (n : nat) (body : M bool) : M bool :=
  match n with
  | O => ret false
  | S n' =>
      returned <- body ;;
      if returned then ret true else for_range n' body
  end.

(** [for ssid, password in wifiNetworks.items(): for i in range(2): ...] *)
Fixpoint for_networks (nets : list (string * string)) : M bool :=
  match nets with
  | [] => ret false
  | (ssid, password) :: rest =>
      returned <- for_range 2 (connect_attempt ssid password) ;;
      if returned then ret true else for_networks rest
  end.

Definition connect_to_wifi (nets : list (string * string)) : M bool :=
  emit WlanDisconnect ;;
  sleep 1 ;;
  for_networks nets.

(** ** Display and web server *)

(** [conn.close()] on the local [conn], which is unbound until the first
    [accept] has returned. *)
Definition close_conn : M unit :=
  c <- gets conn ;;
  match c with
  | Some c => call (ConnClose c) (conn_close env)
  | None => raise (Exception_ "NameError")
  end.

(** The inner [try] around [conn.recv(1024)], with its bare [except:]. *)
Definition receive_request (c : Conn) : M unit :=
  try_except
    (print [VStr "receiving request..."] ;;
     request <- call (ConnRecv c 1024) (conn_recv env) ;;
     print [VBytes request])
    (fun _ => print [VStr "receiving request timed out"]).

(** The body of the outer [try] of the service loop. *)
Definition serve_connection : M unit :=
  print [VStr "waiting for connection..."] ;;
  a <- call ServerAccept (srv_accept env) ;;
  set_conn (fst a) ;;
  print [VStr ("connection from " ++ snd a)] ;;
  call (ConnSetTimeout (fst a) 3) (conn_settimeout env) ;;
  receive_request (fst a) ;;
  print [VStr "getting web page"] ;;
  returnHTML <- gets web_page ;;
  print [VStr (substring 0 100 returnHTML)] ;;
  print [VStr "sending header..."] ;;
  call (ConnSend (fst a) http_header) (conn_send env) ;;
  print [VStr "sending html..."] ;;
  call (ConnSendAll (fst a) returnHTML) (conn_sendall env) ;;
  print [VStr "closing connection"] ;;
  call (ConnClose (fst a)) (conn_close env).

(** The three [except] clauses of the service loop, in source order.
    The assignment [keepListening = False] of the last clause writes a
    name nothing reads and is left out. *)
Definition on_exception (e : exn) : M unit :=
  match e with
  | OSError errno =>
      if (errno =? 110)%Z then display_weatherData
      else print [VStr "OSError"; VExn e]
  | Exception_ _ =>
      print [VStr "Exception"; VExn e] ;;
      close_conn ;;
      print [VStr "connection closed"]
  | KeyboardInterrupt =>
      print [VStr "KeyboardInterrupt"] ;;
      print [VStr "connection closed"] ;;
      set_stay_in_loop false
  end.

(** One pass of the body of [while stay_in_loop:]. *)
Definition loop_iteration : M unit :=
  try_except serve_connection on_exception.

(** [while stay_in_loop: ...]; [None] when [fuel] passes do not reach the
    end of the loop. *)
Fixpoint service_loop (fuel : nat) (w : World) : option (result unit * World) :=
  if stay_in_loop w then
    match fuel with
    | O => None
    | S fuel' =>
        match loop_iteration w with
        | (Ok _, w') => service_loop fuel' w'
        | (Raise e, w') => Some (Raise e, w')
        end
    end
  else Some (Ok tt, w).

(** What [run_display_and_webserver] does before the loop. *)
Definition launch_server : M unit :=
  display_weatherData ;;
  print [VStr "launching web server..."] ;;
  emit GetAddrInfo ;;
  emit ServerSocket ;;
  emit ServerSetSockOpt ;;
  emit (ServerBind 80) ;;
  emit (ServerListen 5) ;;
  print [VStr "listening on"; VAddr] ;;
  set_stay_in_loop true ;;
  emit (ServerSetTimeout 30).

(** What [run_display_and_webserver] does after the loop. *)
Definition shutdown : M unit :=
  print [VStr "closing server..."] ;;
  emit ServerClose ;;
  sleep 1 ;;
  print [VStr "disconnecting wifi..."] ;;
  emit WlanDisconnect ;;
  sleep 1 ;;
  print [VStr "cleaning up..."] ;;
  emit (WlanActive false) ;;
  print [VStr "web server ended."].

Definition run_display_and_webserver (fuel : nat) (w : World)
    : option (result unit * World) :=
  match launch_server w with
  | (Ok _, w1) =>
      match service_loop fuel w1 with
      | Some (Ok _, w2) => Some (shutdown w2)
      | Some (Raise e, w2) => Some (Raise e, w2)
      | None => None
      end
  | (Raise e, w1) => Some (Raise e, w1)
  end.

End Program.
(** * Reading traces and states *)

(** ** The page *)

(** [needle] occurs in [hay] as a contiguous run of characters. *)
Definition occurs_in (needle hay : string) : Prop :=
  exists pre post, hay = pre ++ needle ++ post.

(** The three data rows of the table as the template writes them: the
    text from [<tr>] up to the value, and from the value to [</tr>]. *)
Definition temperature_open : string :=
  unlines
    [ "    <tr>";
      "        <td>";
      "            Temperature";
      "        </td>";
      "        <td>";
      "            <span class=" ++ dq ++ "sensor" ++ dq ++ ">" ].
Definition temperature_close : string :=
  unlines [ "</span>"; "        </td>"; "    </tr>" ].
Definition pressure_open : string :=
  unlines
    [ "    <tr>";
      "        <td>";
      "            Pressure</td><td><span class=" ++ dq ++ "sensor" ++ dq ++ ">" ].
Definition pressure_close : string :=
  unlines [ "</span>"; "        </td>"; "    </tr>" ].
Definition humidity_open : string :=
  unlines
    [ "    <tr>";
      "        <td>Humidity</td>";
      "        <td><span class=" ++ dq ++ "sensor" ++ dq ++ ">" ].
Definition humidity_close : string :=
  unlines [ "</span></td>"; "    </tr> " ].

Definition table_row (open value close : string) : string :=
  open ++ value ++ close.

(** What the template has before the first data row and after the last. *)
Definition page_top : string :=
  substring 0 (String.length html_0 - String.length temperature_open) html_0.
Definition page_bottom : string :=
  unlines [ ""; "    </table>"; "</body>"; "</html>" ].

(** The header row, which is the last thing in [page_top]. *)
Definition table_head : string :=
  unlines
    [ "    <table>";
      "    <tr>";
      "        <th>Parameters</th><th>Value</th>";
      "    </tr>";
      "" ].

Definition meta_refresh : string :=
  "<meta http-equiv=" ++ dq ++ "refresh" ++ dq ++ " content=" ++ dq ++ "60" ++ dq ++ ">".

(** ** The Reading Set *)

Definition same_readings (w w' : World) : Prop :=
  temperature w' = temperature w /\
  pressure w' = pressure w /\
  humidity w' = humidity w.

(** The globals and loop locals are the same in both worlds. *)
Definition same_data (w w' : World) : Prop :=
  temperature w' = temperature w /\
  pressure w' = pressure w /\
  humidity w' = humidity w /\
  stay_in_loop w' = stay_in_loop w /\
  conn w' = conn w.

Definition all_empty (w : World) : Prop :=
  temperature w = "" /\ pressure w = "" /\ humidity w = "".

Definition all_sentinel (w : World) : Prop :=
  temperature w = sentinel /\ pressure w = sentinel /\ humidity w = sentinel.

(** The values a successful transaction started in [w] stores: element
    [i] of the i-th tuple the sensor returned, the first read being
    answered at [1 + clock w]. *)
Definition fresh_readings (env : Env) (w w' : World) : Prop :=
  exists v0 v1 v2,
    bme_values env (1 + clock w) = Ok v0 /\
    bme_values env (2 + clock w) = Ok v1 /\
    bme_values env (3 + clock w) = Ok v2 /\
    nth_error v0 0 = Some (temperature w') /\
    nth_error v1 1 = Some (pressure w') /\
    nth_error v2 2 = Some (humidity w').

(** The three shapes the Reading Set takes between operations. *)
Inductive settled (env : Env) (w : World) : Prop :=
| settled_empty : all_empty w -> settled env w
| settled_sentinel : all_sentinel w -> settled env w
| settled_fresh (w0 : World) : fresh_readings env w0 w -> settled env w.

(** ** Traces *)

(** Events of a display refresh: console lines, sensor calls, drawing. *)
Definition refresh_event (ev : event) : bool :=
  match ev with
  | Print _ | SensorInit | SensorValues | DrawText _ _ _ => true
  | _ => false
  end.

Definition sensor_event (ev : event) : bool :=
  match ev with
  | SensorInit | SensorValues => true
  | _ => false
  end.

(** Events of the [except] clauses: console lines, a display refresh, and
    closing the connection. *)
Definition handler_event (ev : event) : bool :=
  match ev with
  | Print _ | SensorInit | SensorValues | DrawText _ _ _ | ConnClose _ => true
  | _ => false
  end.

(** What the [try] block may do while the page is [page]: console lines
    and calls on the sockets, the only payloads being the header and
    [page]. *)
Definition serving_event (page : string) (ev : event) : Prop :=
  match ev with
  | Print _ | ServerAccept | ConnSetTimeout _ _ | ConnRecv _ _ | ConnClose _ => True
  | ConnSend _ data => data = http_header
  | ConnSendAll _ data => data = page
  | _ => False
  end.

Definition is_conn_close (ev : event) : bool :=
  match ev with
  | ConnClose _ => true
  | _ => false
  end.

(** Payloads written to connection [c], in order. *)
Fixpoint wire (c : Conn) (evs : list event) : list string :=
  match evs with
  | [] => []
  | ConnSend c' data :: rest =>
      if Nat.eqb c' c then data :: wire c rest else wire c rest
  | ConnSendAll c' data :: rest =>
      if Nat.eqb c' c then data :: wire c rest else wire c rest
  | _ :: rest => wire c rest
  end.

(** One poll is one round of the wait loop: a status line on the console
    and [time.sleep(1)].  [polls] counts the sleeps of a trace. *)
Fixpoint polls (evs : list event) : nat :=
  match evs with
  | [] => 0
  | Sleep _ :: rest => S (polls rest)
  | _ :: rest => polls rest
  end.

(** The [wlan.status()] calls of a trace. *)
Fixpoint status_queries (evs : list event) : nat :=
  match evs with
  | [] => 0
  | WlanStatus _ :: rest => S (status_queries rest)
  | _ :: rest => status_queries rest
  end.

(** A try: one [connect] call, to the candidate, and at most 10 polls
    (which takes at most 33 status queries). *)
Definition is_try (seg : list event) (c : string * string) : Prop :=
  joins seg = [c] /\ polls seg <= 10 /\ status_queries seg <= 33.

(** The console and radio events that end a successful try. *)
Definition success_tail (ip : string) : list event :=
  [WlanIsConnected true; WlanIfconfig; Print [VStr ("connected. IP: " ++ ip)]].

(** The tries the two nested loops make when none succeeds: every
    candidate twice, in list order. *)
Definition schedule (nets : list (string * string)) : list (string * string) :=
  flat_map (fun c => [c; c]) nets.

(** The nested loops, flattened: one try after the other until one
    returns [True]. *)
Fixpoint run_tries (env : Env) (tries : list (string * string)) : M bool :=
  match tries with
  | [] => ret false
  | (ssid, password) :: rest =>
      returned <- connect_attempt env ssid password ;;
      if returned then ret true else run_tries env rest
  end.

(** The shutdown sequence, from the interrupt handler on. *)
Definition interrupt_shutdown_events : list event :=
  [ Print [VStr "KeyboardInterrupt"];
    Print [VStr "connection closed"];
    Print [VStr "closing server..."];
    ServerClose;
    Sleep 1;
    Print [VStr "disconnecting wifi..."];
    WlanDisconnect;
    Sleep 1;
    Print [VStr "cleaning up..."];
    WlanActive false;
    Print [VStr "web server ended."] ].

(** ** Sample devices *)

(** A bench set-up where everything answers: the sensor reads, a browser
    is always waiting, and the radio never associates. *)
Definition bench_env : Env :=
  {| bme_init := fun _ => Ok tt;
     bme_values := fun _ => Ok ["21.4C"; "998.1hPa"; "35.2%"];
     wlan_status := fun _ _ => 1%Z;
     wlan_isconnected := fun _ _ => false;
     wlan_ifconfig := fun _ _ => "192.168.4.1";
     srv_accept := fun _ => Ok (1, "('192.168.4.2', 51234)");
     conn_settimeout := fun _ => Ok tt;
     conn_recv := fun _ => Ok "GET / HTTP/1.1";
     conn_send := fun _ => Ok tt;
     conn_sendall := fun _ => Ok tt;
     conn_close := fun _ => Ok tt |}.

Definition with_sensor (init : nat -> result unit)
    (values : nat -> result (list string)) (env : Env) : Env :=
  {| bme_init := init;
     bme_values := values;
     wlan_status := wlan_status env;
     wlan_isconnected := wlan_isconnected env;
     wlan_ifconfig := wlan_ifconfig env;
     srv_accept := srv_accept env;
     conn_settimeout := conn_settimeout env;
     conn_recv := conn_recv env;
     conn_send := conn_send env;
     conn_sendall := conn_sendall env;
     conn_close := conn_close env |}.

Definition with_radio (status : list (string * string) -> nat -> Z)
    (up : list (string * string) -> nat -> bool) (env : Env) : Env :=
  {| bme_init := bme_init env;
     bme_values := bme_values env;
     wlan_status := status;
     wlan_isconnected := up;
     wlan_ifconfig := wlan_ifconfig env;
     srv_accept := srv_accept env;
     conn_settimeout := conn_settimeout env;
     conn_recv := conn_recv env;
     conn_send := conn_send env;
     conn_sendall := conn_sendall env;
     conn_close := conn_close env |}.

Definition with_accept (accept : nat -> result (Conn * string)) (env : Env) : Env :=
  {| bme_init := bme_init env;
     bme_values := bme_values env;
     wlan_status := wlan_status env;
     wlan_isconnected := wlan_isconnected env;
     wlan_ifconfig := wlan_ifconfig env;
     srv_accept := accept;
     conn_settimeout := conn_settimeout env;
     conn_recv := conn_recv env;
     conn_send := conn_send env;
     conn_sendall := conn_sendall env;
     conn_close := conn_close env |}.

Definition with_recv (recv : nat -> result string) (env : Env) : Env :=
  {| bme_init := bme_init env;
     bme_values := bme_values env;
     wlan_status := wlan_status env;
     wlan_isconnected := wlan_isconnected env;
     wlan_ifconfig := wlan_ifconfig env;
     srv_accept := srv_accept env;
     conn_settimeout := conn_settimeout env;
     conn_recv := recv;
     conn_send := conn_send env;
     conn_sendall := conn_sendall env;
     conn_close := conn_close env |}.

Definition with_send (send : nat -> result unit) (env : Env) : Env :=
  {| bme_init := bme_init env;
     bme_values := bme_values env;
     wlan_status := wlan_status env;
     wlan_isconnected := wlan_isconnected env;
     wlan_ifconfig := wlan_ifconfig env;
     srv_accept := srv_accept env;
     conn_settimeout := conn_settimeout env;
     conn_recv := conn_recv env;
     conn_send := send;
     conn_sendall := conn_sendall env;
     conn_close := conn_close env |}.

(** The sensor is not wired: building the driver object fails with EIO. *)
Definition unplugged_env : Env :=
  with_sensor (fun _ => Raise (OSError 5)) (fun _ => Raise (OSError 5)) bench_env.

(** The sensor answers the first read and then drops off the bus. *)
Definition dropout_env : Env :=
  with_sensor (fun _ => Ok tt)
    (fun t => if Nat.eqb t 1 then Ok ["21.4C"; "998.1hPa"; "35.2%"]
              else Raise (OSError 5))
    bench_env.

(** The radio associates on the fourth [connect] call, at once. *)
Definition fourth_try_env : Env :=
  with_radio (fun h _ => if Nat.eqb (List.length h) 4 then 3%Z else (-2)%Z)
    (fun h _ => Nat.eqb (List.length h) 4) bench_env.

(** No browser calls: [accept] times out (ETIMEDOUT is 110). *)
Definition idle_env : Env :=
  with_accept (fun _ => Raise (OSError 110)) bench_env.

(** The browser connects and never sends its request. *)
Definition silent_client_env : Env :=
  with_recv (fun _ => Raise (OSError 110)) bench_env.

(** The browser goes away before the header is written (ECONNRESET). *)
Definition reset_env : Env :=
  with_send (fun _ => Raise (OSError 104)) bench_env.

(** Ctrl-C arrives while the header is being written. *)
Definition interrupted_env : Env :=
  with_send (fun _ => Raise KeyboardInterrupt) bench_env.

(** The loop has just been entered, on a board whose display shows the
    bench readings. *)
Definition serving_world : World :=
  mkWorld "21.4C" "998.1hPa" "35.2%" true None 4 [].

(** * Further observations *)

(** The [display.draw_text] calls of a trace. *)
Fixpoint draws (evs : list event) : list event :=
  match evs with
  | [] => []
  | DrawText x y msg :: rest => DrawText x y msg :: draws rest
  | _ :: rest => draws rest
  end.

(** The sensor calls of a trace. *)
Fixpoint sensor_calls (evs : list event) : list event :=
  match evs with
  | [] => []
  | SensorInit :: rest => SensorInit :: sensor_calls rest
  | SensorValues :: rest => SensorValues :: sensor_calls rest
  | _ :: rest => sensor_calls rest
  end.

(** The readings move a little between two reads of the sensor. *)
Definition drifting_env : Env :=
  with_sensor (fun _ => Ok tt)
    (fun t =>
       if Nat.eqb t 1 then Ok ["21.4C"; "998.1hPa"; "35.2%"]
       else if Nat.eqb t 2 then Ok ["21.5C"; "998.0hPa"; "35.1%"]
       else Ok ["21.6C"; "997.9hPa"; "35.0%"])
    bench_env.

(** How often [wlan.isconnected()] answered [True] in a trace. *)
Fixpoint link_ups (evs : list event) : nat :=
  match evs with
  | [] => 0
  | WlanIsConnected true :: rest => S (link_ups rest)
  | _ :: rest => link_ups rest
  end.

(** The radio refuses at once: every status is a failure code. *)
Definition refusing_env : Env :=
  with_radio (fun _ _ => (-2)%Z) (fun _ _ => false) bench_env.

(** What a pass of the service loop can put in the trace. *)
Definition loop_event (ev : event) : bool :=
  match ev with
  | Print _ | ServerAccept | ConnSetTimeout _ _ | ConnRecv _ _
  | ConnSend _ _ | ConnSendAll _ _ | ConnClose _
  | SensorInit | SensorValues | DrawText _ _ _ => true
  | _ => false
  end.

(** What [run_display_and_webserver] can put in the trace before its
    shutdown steps: the launch of the server and passes of the loop. *)
Definition running_event (ev : event) : bool :=
  match ev with
  | GetAddrInfo | ServerSocket | ServerSetSockOpt | ServerBind _
  | ServerListen _ | ServerSetTimeout _ => true
  | _ => loop_event ev
  end.

(** The Reading Set holds what some refresh left: three sentinels or the
    values of a complete transaction. *)
Definition refreshed (env : Env) (w : World) : Prop :=
  all_sentinel w \/ exists w0, fresh_readings env w0 w.

(** [w'] is reached from [w] by passes of the service loop that returned
    normally. *)
Inductive passes (env : Env) (w : World) : World -> Prop :=
| passes_none : passes env w w
| passes_more w1 w2 :
    passes env w w1 -> loop_iteration env w1 = (Ok tt, w2) -> passes env w w2.

(** The board runs out of heap: [accept] cannot allocate the socket. *)
Definition starved_env : Env :=
  with_accept (fun _ => Raise (Exception_ "MemoryError")) bench_env.

(** * The display-only loop

    [run_display_only] spends its time in [time.sleep(30)], so that is
    where an interrupt or any other exception reaches it: the sleep is a
    driver call answered by an oracle [nap], asked like the others with
    the current [clock]. *)

(** The two [except] clauses of [run_display_only], in source order; an
    OSError is an Exception and lands in the first. *)
Definition on_display_exception (e : exn) : M unit :=
  match e with
  | OSError _ | Exception_ _ => print [VStr "Exception"; VExn e]
  | KeyboardInterrupt =>
      print [VStr "Keyboard interrupt"] ;;
      set_stay_in_loop false
  end.

(** One pass of the body of [while stay_in_loop:] in [run_display_only]. *)
Definition display_iteration (env : Env) (nap : nat -> result unit) : M unit :=
  try_except
    (display_weatherData env ;;
     call (Sleep 30) nap)
    on_display_exception.

(** [while stay_in_loop: ...]; [None] when [fuel] passes do not reach the
    end of the loop. *)
Fixpoint display_loop (env : Env) (nap : nat -> result unit) (fuel : nat)
    (w : World) : option (result unit * World) :=
  if stay_in_loop w then
    match fuel with
    | O => None
    | S fuel' =>
        match display_iteration env nap w with
        | (Ok _, w') => display_loop env nap fuel' w'
        | (Raise e, w') => Some (Raise e, w')
        end
    end
  else Some (Ok tt, w).

Definition run_display_only (env : Env) (nap : nat -> result unit) (fuel : nat)
    (w : World) : option (result unit * World) :=
  match (print [VStr "launching display loop..."] ;; set_stay_in_loop true) w with
  | (Ok _, w1) =>
      match display_loop env nap fuel w1 with
      | Some (Ok _, w2) => Some (print [VStr "display loop ended."] w2)
      | Some (Raise e, w2) => Some (Raise e, w2)
      | None => None
      end
  | (Raise e, w1) => Some (Raise e, w1)
  end.

(** What the display-only loop can put in the trace. *)
Definition display_only_event (ev : event) : bool :=
  match ev with
  | Print _ | SensorInit | SensorValues | DrawText _ _ _ | Sleep _ => true
  | _ => false
  end.

(** Ctrl-C during the third sleep. *)
Definition third_nap_interrupted (t : nat) : result unit :=
  if Nat.leb 14 t then Raise KeyboardInterrupt else Ok tt.

(** * The main sequence

    The start-up screens and the end of the program also clear the
    display, fill rectangles, read the network name and switch the LED
    off.  These calls are logged beside the trace, each with the length
    of the trace when it was made, so that the order of all calls can be
    read back. *)

Inductive colour : Type :=
| backgroundColor
| headerColor
| headerBackground
| footerColor
| footerBackground
| textColor
| shadowColor.

Inductive panel_op : Type :=
| DisplayClear (c : option colour)          (* display.clear(c), display.clear() *)
| FillRectangle (x y w h : Z) (c : colour)  (* display.fill_rectangle(x, y, w, h, c) *)
| WlanConfigEssid                           (* wlan.config('essid') *)
| LedOff.                                   (* led.off() *)

Record Board : Type := mkBoard {
  world : World;
  panel : list (nat * panel_op)
}.

Definition B (A : Type) : Type := Board -> result A * Board.

Definition retB {A : Type} (a : A) : B A := fun b => (Ok a, b).

Definition bindB {A C : Type} (m : B A) (k : A -> B C) : B C :=
  fun b =>
    match m b with
    | (Ok a, b') => k a b'
    | (Raise e, b') => (Raise e, b')
    end.

(** A computation on the world, run on the board. *)
Definition lift {A : Type} (m : M A) : B A :=
  fun b =>
    match m (world b) with
    | (r, w') => (r, mkBoard w' (panel b))
    end.

(** A call logged beside the trace. *)
Definition on_panel (op : panel_op) : B unit :=
  fun b =>
    (Ok tt, mkBoard (world b) (panel b ++ [(List.length (trace (world b)), op)])).

Declare Scope board_scope.
Delimit Scope board_scope with board.
Notation "x <- m ;; k" := (bindB m (fun x => k))
  (at level 61, m at next level, right associativity) : board_scope.
Notation "m ;; k" := (bindB m (fun _ => k))
  (at level 61, right associativity) : board_scope.

Section Main.

Variable env : Env.

(** [wlan.config('essid')], answered like the other radio queries. *)
Variable essid : list (string * string) -> nat -> string.

(** [time.sleep(30)] in the display-only loop. *)
Variable nap : nat -> result unit.

Definition ask_essid : M string :=
  h <- gets (fun w => joins (trace w)) ;;
  t <- tick ;;
  ret (essid h t).

Definition wlan_config_essid : B string :=
  (name <- lift ask_essid ;;
   on_panel WlanConfigEssid ;;
   retB name)%board.

(** draw title and show "connecting to wifi" message *)
Definition initialize_display : B unit :=
  (lift (print [VStr "initializing display..."]) ;;
   on_panel (DisplayClear (Some backgroundColor)) ;;
   on_panel (FillRectangle 0 0 40 320 headerBackground) ;;
   on_panel (FillRectangle 41 0 1 320 shadowColor) ;;
   lift (dprint 35 10 "Evan`s Weather Station") ;;
   lift (dprint 54 96 "Connecting to WIFI") ;;
   lift (dprint 90 144 "Please wait..."))%board.

(** show wifi info at bottom of screen *)
Definition setup_display : B unit :=
  (on_panel (FillRectangle 43 0 197 320 backgroundColor) ;;
   on_panel (FillRectangle 200 0 40 320 footerBackground) ;;
   on_panel (FillRectangle 199 0 1 320 shadowColor) ;;
   up <- lift (query (wlan_isconnected env) WlanIsConnected) ;;
   (if up : bool then
      name <- wlan_config_essid ;;
      lift (dprint 5 204 ("To view online, use WIFI: [" ++ name ++ "]")) ;;
      lift (dprint 33 222 "and go to ") ;;
      ip <- lift (query (wlan_ifconfig env) (fun _ => WlanIfconfig)) ;;
      lift (dprint 110 221 ("http://" ++ ip))
    else
      lift (dprint 96 215 "WIFI not available")) ;;
   lift (dprint 20 65 "Temperature") ;;
   lift (dprint 20 107 "Air Pressure") ;;
   lift (dprint 20 150 "Rel. Humidity") ;;
   lift (dprint 160 63 ":") ;;
   lift (dprint 160 104 ":") ;;
   lift (dprint 160 148 ":"))%board.

(** The module's main section up to the choice of the loop; the result is
    the answer to [if wlan.isconnected():].  The value returned by
    [connect_to_wifi()] is dropped, as in the source. *)
Definition startup : B bool :=
  (initialize_display ;;
   lift (connect_to_wifi env wifiNetworks) ;;
   setup_display ;;
   lift (query (wlan_isconnected env) WlanIsConnected))%board.

(** The last five statements of the module. *)
Definition cleanup : B unit :=
  (lift (print [VStr "clearing display..."]) ;;
   on_panel (DisplayClear None) ;;
   lift (print [VStr "turning off LED..."]) ;;
   on_panel LedOff ;;
   lift (print [VStr "done."]))%board.

(** The main section; [None] when [fuel] passes do not reach the end of
    the loop it runs. *)
Definition main (fuel : nat) (b : Board) : option (result unit * Board) :=
  match startup b with
  | (Ok up, b1) =>
      match (if up then run_display_and_webserver env fuel (world b1)
             else run_display_only env nap fuel (world b1)) with
      | Some (Ok _, w2) => Some (cleanup (mkBoard w2 (panel b1)))
      | Some (Raise e, w2) => Some (Raise e, mkBoard w2 (panel b1))
      | None => None
      end
  | (Raise e, b1) => Some (Raise e, b1)
  end.

End Main.

(** The calls logged beside the trace, without their positions. *)
Definition panel_ops (b : Board) : list panel_op := map snd (panel b).

(** Socket calls: the listening socket and the accepted connections. *)
Definition socket_event (ev : event) : bool :=
  match ev with
  | GetAddrInfo | ServerSocket | ServerSetSockOpt | ServerBind _
  | ServerListen _ | ServerSetTimeout _ | ServerAccept | ServerClose
  | ConnSetTimeout _ _ | ConnRecv _ _ | ConnSend _ _ | ConnSendAll _ _
  | ConnClose _ => true
  | _ => false
  end.

(** The board as the module prelude leaves it. *)
Definition initial_board : Board := mkBoard initial_world [].

(** What the start-up phase can put in the trace: console lines, drawing,
    sleeps and radio calls. *)
Definition startup_event (ev : event) : bool :=
  match ev with
  | Print _ | Sleep _ | DrawText _ _ _ | WlanDisconnect | WlanConnect _ _
  | WlanStatus _ | WlanIsConnected _ | WlanIfconfig => true
  | _ => false
  end.

(** The display calls of the two start-up screens. *)
Definition startup_panel_op (op : panel_op) : bool :=
  match op with
  | DisplayClear (Some _) | FillRectangle _ _ _ _ _ | WlanConfigEssid => true
  | _ => false
  end.

(** The radio is associated from the first question on. *)
Definition online_env : Env :=
  with_radio (fun _ _ => 3%Z) (fun _ _ => true) bench_env.

(** Ctrl-C while the second page is being written. *)
Definition second_send_interrupted_env : Env :=
  with_send (fun t => if Nat.leb 14 t then Raise KeyboardInterrupt else Ok tt)
    online_env.

Definition bench_essid (h : list (string * string)) (t : nat) : string :=
  match last h ("", "") with
  | (ssid, _) => ssid
  end.

(** Associated, but out of heap when the first browser calls. *)
Definition starved_online_env : Env :=
  with_accept (fun _ => Raise (Exception_ "MemoryError")) online_env.

(** * Program points

    The states the program is in between two of its steps, a sensor
    refresh counting as one step.  Outside [refresh_weatherData] the
    program is made of five kinds of step: it logs a console line, a
    drawing, a sleep, a radio or a socket call ([emit], with an event
    that is not a sensor call); it consumes a device answer ([tick]); it
    binds [conn]; it assigns [stay_in_loop].  Every state reached from
    the start by such steps and by whole refreshes is a program point. *)
Inductive program_point (env : Env) : World -> Prop :=
| at_start : program_point env initial_world
| after_emit ev w r w' :
    program_point env w ->
    sensor_event ev = false ->
    emit ev w = (r, w') -> program_point env w'
| after_tick w r w' :
    program_point env w ->
    tick w = (r, w') -> program_point env w'
| after_set_conn c w r w' :
    program_point env w ->
    set_conn c w = (r, w') -> program_point env w'
| after_set_stay_in_loop b w r w' :
    program_point env w ->
    set_stay_in_loop b w = (r, w') -> program_point env w'
| after_refresh w r w' :
    program_point env w ->
    refresh_weatherData env w = (r, w') -> program_point env w'.

(** The program points reached while no sensor transaction has completed
    yet: the same steps, with only refreshes whose transaction raised. *)
Inductive before_first_read (env : Env) : World -> Prop :=
| unread_at_start : before_first_read env initial_world
| unread_after_emit ev w r w' :
    before_first_read env w ->
    sensor_event ev = false ->
    emit ev w = (r, w') -> before_first_read env w'
| unread_after_tick w r w' :
    before_first_read env w ->
    tick w = (r, w') -> before_first_read env w'
| unread_after_set_conn c w r w' :
    before_first_read env w ->
    set_conn c w = (r, w') -> before_first_read env w'
| unread_after_set_stay_in_loop b w r w' :
    before_first_read env w ->
    set_stay_in_loop b w = (r, w') -> before_first_read env w'
| unread_after_refresh w e w1 r w' :
    before_first_read env w ->
    sensor_transaction env w = (Raise e, w1) ->
    refresh_weatherData env w = (r, w') -> before_first_read env w'.

(** A computation that, started at a program point, ends at one,
    whether it returns or raises. *)
Definition keeps (env : Env) {A : Type} (m : M A) : Prop :=
  forall w r w', program_point env w -> m w = (r, w') -> program_point env w'.

(** The same for the loops, when they end. *)
Definition keeps_run (env : Env) (run : World -> option (result unit * World))
    : Prop :=
  forall w r w', program_point env w -> run w = Some (r, w') -> program_point env w'.

(** The same for the computations on the board. *)
Definition keeps_board (env : Env) {A : Type} (m : B A) : Prop :=
  forall b r b',
    program_point env (world b) -> m b = (r, b') -> program_point env (world b').

(** * More observations on the loops *)

(** The exceptions a trace shows on the console: the [e] of every
    [print(tag, e)]. *)
Fixpoint logged (evs : list event) : list exn :=
  match evs with
  | [] => []
  | Print [VStr _; VExn e] :: rest => e :: logged rest
  | _ :: rest => logged rest
  end.

(** The state in which [run_display_only] enters its loop. *)
Definition display_loop_entry (w : World) : World :=
  snd ((print [VStr "launching display loop..."] ;; set_stay_in_loop true) w).

(** [w'] is reached from [w] by passes of the display-only loop. *)
Inductive display_passes (env : Env) (nap : nat -> result unit) (w : World)
    : World -> Prop :=
| display_passes_none : display_passes env nap w w
| display_passes_more w1 w2 :
    display_passes env nap w w1 ->
    display_iteration env nap w1 = (Ok tt, w2) ->
    display_passes env nap w w2.

(** The browser stops reading: writing the header times out (ETIMEDOUT
    is 110), while the readings drift. *)
Definition stalled_client_env : Env :=
  with_send (fun _ => Raise (OSError 110)) drifting_env.

(** The page does not fit into the heap, and the connection is gone by
    the time the handler closes it (EBADF is 9). *)
Definition broken_client_env : Env :=
  {| bme_init := bme_init bench_env;
     bme_values := bme_values bench_env;
     wlan_status := wlan_status bench_env;
     wlan_isconnected := wlan_isconnected bench_env;
     wlan_ifconfig := wlan_ifconfig bench_env;
     srv_accept := srv_accept bench_env;
     conn_settimeout := conn_settimeout bench_env;
     conn_recv := conn_recv bench_env;
     conn_send := conn_send bench_env;
     conn_sendall := fun _ => Raise (Exception_ "MemoryError");
     conn_close := fun _ => Raise (OSError 9) |}.

(** * Properties *)

(** ** The page *)

Lemma append_assoc (a b c : string) : (a ++ b) ++ c = a ++ b ++ c.
Proof.
  induction a as [| ch a IH]; simpl; [reflexivity | now rewrite IH].
Qed.

Lemma html_0_split : html_0 = page_top ++ temperature_open.
Proof. vm_compute. reflexivity. Qed.

Lemma html_1_split : html_1 = temperature_close ++ lf ++ pressure_open.
Proof. vm_compute. reflexivity. Qed.

Lemma html_2_split : html_2 = pressure_close ++ lf ++ humidity_open.
Proof. vm_compute. reflexivity. Qed.

Lemma html_3_split : html_3 = humidity_close ++ page_bottom.
Proof. vm_compute. reflexivity. Qed.

(** The page is the fixed top, the three rows carrying the three globals
    unchanged, and the fixed bottom. *)
Lemma web_page_rows (w : World) :
  web_page w =
    page_top
    ++ table_row temperature_open (temperature w) temperature_close ++ lf
    ++ table_row pressure_open (pressure w) pressure_close ++ lf
    ++ table_row humidity_open (humidity w) humidity_close
    ++ page_bottom.
Proof.
  unfold web_page, table_row.
  rewrite html_0_split, html_1_split, html_2_split, html_3_split.
  repeat rewrite append_assoc. reflexivity.
Qed.

Lemma page_top_refresh : occurs_in meta_refresh page_top.
Proof.
  exists (substring 0 708 page_top),
         (substring (708 + String.length meta_refresh) 1000 page_top).
  vm_compute. reflexivity.
Qed.

Lemma page_top_table : exists pre, page_top = pre ++ table_head.
Proof.
  exists (substring 0 (String.length page_top - String.length table_head) page_top).
  vm_compute. reflexivity.
Qed.

(** [web_page] reads the three globals and nothing else. *)
Lemma web_page_ext (w w' : World) :
  temperature w' = temperature w ->
  pressure w' = pressure w ->
  humidity w' = humidity w ->
  web_page w' = web_page w.
Proof. intros Ht Hp Hh. unfold web_page. now rewrite Ht, Hp, Hh. Qed.

(** ** Sensor reader *)

(** Unfolds the monad so that a run becomes a term of nested matches on
    the oracle answers. *)
Ltac unfold_monad :=
  cbn [bind ret raise try_except call query print sleep emit tick gets
       set_temperature set_pressure set_humidity set_stay_in_loop set_conn
       temperature pressure humidity stay_in_loop conn clock trace fst snd];
  cbv beta iota zeta delta
    [bind ret raise try_except call query print sleep emit tick gets
     set_temperature set_pressure set_humidity set_stay_in_loop set_conn];
  cbn [temperature pressure humidity stay_in_loop conn clock trace fst snd].

(** Splits on the first oracle answer (or other scrutinee) still in the
    way of the goal. *)
Ltac split_answer :=
  match goal with
  | |- context [match ?x with _ => _ end] =>
      lazymatch x with
      | context [match _ with _ => _ end] => fail
      | _ =>
          let E := fresh "E" in
          destruct x eqn:E;
          cbn [temperature pressure humidity stay_in_loop conn clock trace fst snd] in *
      end
  end.

(** [refresh_weatherData] always returns, and leaves either the values
    of a complete transaction or three sentinels. *)
Lemma refresh_weatherData_cases (env : Env) (w : World) :
  exists w',
    refresh_weatherData env w = (Ok tt, w') /\
    stay_in_loop w' = stay_in_loop w /\
    conn w' = conn w /\
    (exists evs, trace w' = (trace w ++ evs)%list /\
                 forallb refresh_event evs = true /\ In SensorInit evs) /\
    ((sensor_transaction env w = (Ok tt, w') /\ fresh_readings env w w') \/
     (exists e w1, sensor_transaction env w = (Raise e, w1) /\ all_sentinel w')).
Proof.
  unfold refresh_weatherData, sensor_transaction, sensor_unavailable, subscript,
    fresh_readings, all_sentinel, sentinel.
  unfold_monad. simpl.
  repeat split_answer;
    eexists; (split; [reflexivity |]); simpl;
    (split; [reflexivity |]); (split; [reflexivity |]);
    (split;
     [ eexists; split;
       [ repeat rewrite <- app_assoc; simpl; reflexivity
       | split; [reflexivity | simpl; tauto] ]
     | ]);
    first
      [ right; do 2 eexists; split; [reflexivity | auto]
      | left; split; [destruct a; reflexivity |];
        do 3 eexists; repeat split; eauto ].
Qed.

(** ** Network joiner *)

Lemma same_data_refl (w : World) : same_data w w.
Proof. repeat split. Qed.

Lemma same_data_trans (w1 w2 w3 : World) :
  same_data w1 w2 -> same_data w2 w3 -> same_data w1 w3.
Proof.
  unfold same_data. intros (A1 & A2 & A3 & A4 & A5) (B1 & B2 & B3 & B4 & B5).
  repeat split; congruence.
Qed.

Lemma joins_app (a b : list event) : joins (a ++ b) = (joins a ++ joins b)%list.
Proof.
  induction a as [| ev a IH]; simpl; [reflexivity |].
  destruct ev; simpl; rewrite IH; reflexivity.
Qed.

Lemma polls_app (a b : list event) : polls (a ++ b) = polls a + polls b.
Proof.
  induction a as [| ev a IH]; simpl; [reflexivity |].
  destruct ev; simpl; rewrite IH; reflexivity.
Qed.

Lemma status_queries_app (a b : list event) :
  status_queries (a ++ b) = status_queries a + status_queries b.
Proof.
  induction a as [| ev a IH]; simpl; [reflexivity |].
  destruct ev; simpl; rewrite IH; reflexivity.
Qed.

(** The wait loop returns after at most [10 - wait] polls, whatever the
    radio answers, and makes no [connect] call. *)
Lemma wait_loop_spec (env : Env) (fuel : nat) :
  forall (wait : Z) (w : World),
    exists w' evs,
      wait_loop env fuel wait w = (Ok tt, w') /\
      trace w' = (trace w ++ evs)%list /\
      joins evs = [] /\
      polls evs <= Z.to_nat (10 - wait) /\
      status_queries evs <= 3 * polls evs + 2 /\
      same_data w w'.
Proof.
  induction fuel as [| fuel IH]; intros wait w.
  - exists w, []. simpl. rewrite app_nil_r.
    repeat split; lia.
  - remember (Z.to_nat (10 - wait)) as bound eqn:Hbound.
    simpl. unfold_monad.
    destruct (wlan_status env (joins (trace w)) (clock w) >=? 0)%Z.
    2:{ eexists; eexists. split; [reflexivity |]. simpl.
        split; [reflexivity |]. repeat split; simpl; lia. }
    simpl. rewrite joins_app. simpl. rewrite app_nil_r.
    destruct (wlan_status env (joins (trace w)) (S (clock w)) <? 3)%Z.
    2:{ eexists; eexists. split; [reflexivity |]. simpl.
        split; [rewrite <- app_assoc; reflexivity |].
        repeat split; simpl; lia. }
    destruct (Z.ltb_spec wait 10).
    2:{ eexists; eexists. split; [reflexivity |]. simpl.
        split; [rewrite <- app_assoc; reflexivity |].
        repeat split; simpl; lia. }
    simpl.
    match goal with
    | |- context [wait_loop env fuel (wait + 1) ?w1] =>
        destruct (IH (wait + 1)%Z w1) as (w' & evs & Hrun & Htr & Hj & Hp & Hs & Hd)
    end.
    rewrite Hrun. simpl.
    eexists; eexists. split; [reflexivity |].
    split.
    { rewrite Htr. simpl. repeat rewrite <- app_assoc. simpl. reflexivity. }
    cbn [joins polls status_queries].
    split; [exact Hj |].
    split; [lia |].
    split; [lia |].
    exact Hd.
Qed.

(** Fuel is never what stops the wait loop: any two budgets above
    [10 - wait] give the same run. *)
Lemma wait_loop_fuel (env : Env) (n : nat) :
  forall (m : nat) (wait : Z) (w : World),
    Z.to_nat (10 - wait) < n ->
    Z.to_nat (10 - wait) < m ->
    wait_loop env n wait w = wait_loop env m wait w.
Proof.
  induction n as [| n IH]; intros m wait w Hn Hm; [lia |].
  destruct m as [| m]; [lia |].
  simpl. unfold_monad.
  destruct (_ >=? 0)%Z; [| reflexivity].
  destruct (_ <? 3)%Z; [| reflexivity].
  destruct (Z.ltb_spec wait 10); [| reflexivity].
  simpl. rewrite (IH m (wait + 1)%Z); [reflexivity | lia | lia].
Qed.

#[local] Arguments wait_loop : simpl never.

(** One try never raises; its result is the radio's answer to the single
    [isconnected()] asked after the wait loop. *)
Lemma connect_attempt_spec (env : Env) (ssid password : string) (w : World) :
  exists w' seg up t,
    connect_attempt env ssid password w = (Ok up, w') /\
    trace w' = (trace w ++ seg)%list /\
    is_try seg (ssid, password) /\
    same_data w w' /\
    up = wlan_isconnected env (joins (trace w) ++ [(ssid, password)])%list t /\
    (up = true -> exists pre ip, seg = (pre ++ success_tail ip)%list).
Proof.
  unfold connect_attempt. unfold_monad.
  match goal with
  | |- context [wait_loop env 11 0 ?w1] =>
      destruct (wait_loop_spec env 11 0 w1) as (w2 & evs & Hrun & Htr & Hj & Hp & Hs & Hd)
  end.
  rewrite Hrun. simpl in Htr |- *.
  assert (Hh : joins (trace w2) = (joins (trace w) ++ [(ssid, password)])%list).
  { rewrite Htr. repeat rewrite joins_app. simpl. rewrite Hj.
    repeat rewrite app_nil_r. reflexivity. }
  rewrite Hh.
  destruct Hd as (D1 & D2 & D3 & D4 & D5). simpl in D1, D2, D3, D4, D5.
  change (Z.to_nat (10 - 0)) with 10 in Hp.
  destruct (wlan_isconnected env (joins (trace w) ++ [(ssid, password)])%list (clock w2))
    eqn:Hup; simpl.
  - eexists; eexists; exists true; exists (clock w2).
    split; [reflexivity |]. simpl.
    split.
    { rewrite Htr. repeat rewrite <- app_assoc. simpl. reflexivity. }
    split.
    { unfold is_try. cbn [joins polls status_queries].
      rewrite joins_app, polls_app, status_queries_app. cbn [joins polls status_queries].
      rewrite Hj. split; [reflexivity |]. split; lia. }
    split; [repeat split; assumption |].
    split; [symmetry; exact Hup |].
    intros _. eexists (_ :: _ :: evs); eexists.
    unfold success_tail. simpl. reflexivity.
  - eexists; eexists; exists false; exists (clock w2).
    split; [reflexivity |]. simpl.
    split.
    { rewrite Htr. repeat rewrite <- app_assoc. simpl. reflexivity. }
    split.
    { unfold is_try. cbn [joins polls status_queries].
      rewrite joins_app, polls_app, status_queries_app. cbn [joins polls status_queries].
      rewrite Hj. split; [reflexivity |]. split; lia. }
    split; [repeat split; assumption |].
    split; [symmetry; exact Hup |].
    intros H; discriminate H.
Qed.

Lemma for_networks_flat (env : Env) (nets : list (string * string)) :
  forall w, for_networks env nets w = run_tries env (schedule nets) w.
Proof.
  induction nets as [| [ssid password] nets IH]; intros w; [reflexivity |].
  cbn [for_networks schedule flat_map app run_tries for_range].
  unfold bind.
  destruct (connect_attempt env ssid password w) as [[[|] | e] w1];
    try reflexivity.
  destruct (connect_attempt env ssid password w1) as [[[|] | e] w2];
    try reflexivity.
  apply IH.
Qed.

Lemma schedule_app (a b : list (string * string)) :
  schedule (a ++ b) = (schedule a ++ schedule b)%list.
Proof. unfold schedule. apply flat_map_app. Qed.

Lemma schedule_length (nets : list (string * string)) :
  List.length (schedule nets) = 2 * List.length nets.
Proof.
  induction nets as [| c nets IH]; simpl; [reflexivity | rewrite IH; lia].
Qed.

Section Tries.

Variable env : Env.

(** While the radio stays down, every scheduled try is made. *)
Lemma run_tries_fail (tries : list (string * string)) :
  forall w,
    (forall j t, 0 < j <= List.length tries ->
       wlan_isconnected env (joins (trace w) ++ firstn j tries)%list t = false) ->
    exists w' segs,
      run_tries env tries w = (Ok false, w') /\
      trace w' = (trace w ++ concat segs)%list /\
      Forall2 is_try segs tries /\
      same_data w w'.
Proof.
  induction tries as [| [ssid password] tries IH]; intros w Hdown.
  - exists w, []. simpl. rewrite app_nil_r.
    repeat split. constructor.
  - destruct (connect_attempt_spec env ssid password w)
      as (w1 & seg & up & t & Hrun & Htr & Htry & Hd & Hup & _).
    assert (up = false) as ->.
    { rewrite Hup. apply (Hdown 1 t). simpl. lia. }
    assert (Hh : joins (trace w1) = (joins (trace w) ++ [(ssid, password)])%list).
    { rewrite Htr, joins_app. destruct Htry as (-> & _). reflexivity. }
    destruct (IH w1) as (w' & segs & Hrest & Htr' & Hall & Hd').
    { intros j t' Hj. rewrite Hh, <- app_assoc.
      apply (Hdown (S j) t'). simpl. lia. }
    exists w', (seg :: segs).
    cbn [run_tries]. unfold bind. rewrite Hrun.
    split; [exact Hrest |].
    split; [rewrite Htr', Htr; simpl; rewrite app_assoc; reflexivity |].
    split; [constructor; assumption |].
    eapply same_data_trans; eassumption.
Qed.

(** The first try the radio answers is the last one made. *)
Lemma run_tries_success (pre : list (string * string)) :
  forall (c : string * string) (post : list (string * string)) (w : World),
    (forall j t, 0 < j <= List.length pre ->
       wlan_isconnected env (joins (trace w) ++ firstn j pre)%list t = false) ->
    (forall t, wlan_isconnected env (joins (trace w) ++ pre ++ [c])%list t = true) ->
    exists w' segs before ip,
      run_tries env (pre ++ c :: post) w = (Ok true, w') /\
      trace w' = (trace w ++ concat segs)%list /\
      Forall2 is_try segs (pre ++ [c]) /\
      concat segs = (before ++ success_tail ip)%list /\
      same_data w w'.
Proof.
  induction pre as [| [ssid password] pre IH]; intros c post w Hdown Hup.
  - destruct c as [ssid password].
    destruct (connect_attempt_spec env ssid password w)
      as (w1 & seg & up & t & Hrun & Htr & Htry & Hd & Hans & Htail).
    assert (up = true) as ->.
    { rewrite Hans. apply Hup. }
    destruct (Htail eq_refl) as (before & ip & Hseg).
    exists w1, [seg], before, ip.
    cbn [app run_tries]. unfold bind. rewrite Hrun.
    split; [reflexivity |].
    split; [simpl; rewrite app_nil_r; exact Htr |].
    split; [constructor; [assumption | constructor] |].
    split; [simpl; rewrite app_nil_r; exact Hseg |].
    exact Hd.
  - destruct (connect_attempt_spec env ssid password w)
      as (w1 & seg & up & t & Hrun & Htr & Htry & Hd & Hans & _).
    assert (up = false) as ->.
    { rewrite Hans. apply (Hdown 1 t). simpl. lia. }
    assert (Hh : joins (trace w1) = (joins (trace w) ++ [(ssid, password)])%list).
    { rewrite Htr, joins_app. destruct Htry as (-> & _). reflexivity. }
    destruct (IH c post w1) as (w' & segs & before & ip & Hrest & Htr' & Hall & Hend & Hd').
    { intros j t' Hj. rewrite Hh, <- app_assoc.
      apply (Hdown (S j) t'). simpl. lia. }
    { intros t'. rewrite Hh, <- app_assoc. apply Hup. }
    exists w', (seg :: segs), (seg ++ before)%list, ip.
    cbn [app run_tries]. unfold bind. rewrite Hrun.
    split; [exact Hrest |].
    split; [rewrite Htr', Htr; simpl; rewrite app_assoc; reflexivity |].
    split; [constructor; assumption |].
    split; [simpl; rewrite Hend, app_assoc; reflexivity |].
    eapply same_data_trans; eassumption.
Qed.

End Tries.

(** ** Service loop *)

#[local] Arguments web_page : simpl never.
#[local] Arguments refresh_weatherData : simpl never.

(** A display refresh always returns; it leaves the loop locals alone and
    stores what [refresh_weatherData] stores. *)
Lemma display_weatherData_spec (env : Env) (w : World) :
  exists w' evs,
    display_weatherData env w = (Ok tt, w') /\
    trace w' = (trace w ++ Print [VStr "updating display..."] :: evs)%list /\
    forallb refresh_event evs = true /\
    In SensorInit evs /\
    stay_in_loop w' = stay_in_loop w /\
    conn w' = conn w.
Proof.
  unfold display_weatherData, dprint. unfold_monad.
  match goal with
  | |- context [refresh_weatherData env ?w1] =>
      destruct (refresh_weatherData_cases env w1)
        as (w2 & Hrun & Hstay & Hconn & (evs & Htr & Hev & Hin) & _)
  end.
  rewrite Hrun. simpl in *.
  eexists;
    exists (evs ++ [DrawText 65 (320 - 175) (temperature w2 ++ "  ");
                    DrawText 107 (320 - 175) (pressure w2 ++ "  ");
                    DrawText 150 (320 - 175) (humidity w2 ++ "  ")])%list.
  split; [reflexivity |]. simpl.
  split.
  { rewrite Htr. repeat rewrite <- app_assoc. simpl. reflexivity. }
  split.
  { rewrite forallb_app, Hev. reflexivity. }
  split; [apply in_or_app; left; exact Hin |].
  split; assumption.
Qed.

(** The [try] block on its own: whatever the sockets answer, it leaves
    the readings and [stay_in_loop] as they were and only makes serving
    events, with the page built from the readings it started with. *)
Lemma serve_connection_frame (env : Env) (w : World) :
  exists r w' evs,
    serve_connection env w = (r, w') /\
    trace w' = (trace w ++ evs)%list /\
    Forall (serving_event (web_page w)) evs /\
    same_readings w w' /\
    stay_in_loop w' = stay_in_loop w /\
    (forall c a, srv_accept env (clock w) = Ok (c, a) -> conn w' = Some c) /\
    (forall e, srv_accept env (clock w) = Raise e -> r = Raise e /\ conn w' = conn w).
Proof.
  unfold serve_connection, receive_request. unfold_monad.
  repeat split_answer;
    do 3 eexists; (split; [reflexivity |]);
    cbn [temperature pressure humidity stay_in_loop conn clock trace fst snd];
    (split; [repeat rewrite <- app_assoc; cbn [app]; reflexivity |]);
    (split;
     [ repeat (apply Forall_cons;
               [cbn [serving_event];
                first [exact I | reflexivity | apply web_page_ext; reflexivity] |]);
       apply Forall_nil |]);
    (split; [repeat split |]);
    (split; [reflexivity |]);
    (split;
     [ intros cc aa Hc;
       first [ congruence
             | match goal with
               | p : (Conn * string)%type |- _ =>
                   assert (p = (cc, aa)) by congruence; subst p; reflexivity
               end ]
     | intros ee He;
       first [ congruence
             | match goal with
               | x : exn |- _ =>
                   assert (x = ee) by congruence; subst x; split; reflexivity
               end ] ]).
Qed.

Lemma wire_app (c : Conn) (a b : list event) :
  wire c (a ++ b) = (wire c a ++ wire c b)%list.
Proof.
  induction a as [| ev a IH]; simpl; [reflexivity |].
  destruct ev; simpl; try exact IH;
    destruct (Nat.eqb _ c); simpl; rewrite IH; reflexivity.
Qed.

Lemma refresh_is_handler_event (evs : list event) :
  forallb refresh_event evs = true -> forallb handler_event evs = true.
Proof.
  induction evs as [| ev evs IH]; simpl; [reflexivity |].
  intros H. apply andb_prop in H. destruct H as [H1 H2].
  rewrite (IH H2). destruct ev; simpl in *; try discriminate; reflexivity.
Qed.

Lemma handler_events_quiet (c : Conn) (evs : list event) :
  forallb handler_event evs = true ->
  wire c evs = [] /\ ~ In ServerClose evs.
Proof.
  induction evs as [| ev evs IH]; simpl; [intros _; split; [reflexivity | tauto] |].
  intros H. apply andb_prop in H. destruct H as [H1 H2].
  destruct (IH H2) as [Hw Hs].
  destruct ev; simpl in *; try discriminate;
    (split; [exact Hw | intros [F | F]; [discriminate F | exact (Hs F)]]).
Qed.

Lemma serving_events_facts (page : string) (evs : list event) :
  Forall (serving_event page) evs ->
  ~ In ServerClose evs /\
  existsb sensor_event evs = false /\
  (forall c data, In (ConnSendAll c data) evs -> data = page).
Proof.
  induction 1 as [| ev evs Hev _ (IH1 & IH2 & IH3)]; simpl.
  - repeat split; tauto.
  - split; [| split].
    + intros [F | F]; [subst ev; exact Hev | exact (IH1 F)].
    + rewrite IH2. destruct ev; simpl in *; try reflexivity; contradiction.
    + intros c data [F | F]; [subst ev; exact Hev | exact (IH3 c data F)].
Qed.

#[local] Arguments display_weatherData : simpl never.

(** The [except] clauses, for any exception and any state they start in. *)
Lemma on_exception_frame (env : Env) (e : exn) (w1 : World) :
  exists r w' evs,
    on_exception env e w1 = (r, w') /\
    trace w' = (trace w1 ++ evs)%list /\
    forallb handler_event evs = true /\
    conn w' = conn w1 /\
    (e <> OSError 110 -> same_readings w1 w' /\ existsb sensor_event evs = false) /\
    (e <> KeyboardInterrupt -> stay_in_loop w' = stay_in_loop w1) /\
    (e = KeyboardInterrupt ->
       r = Ok tt /\ stay_in_loop w' = false /\ same_readings w1 w' /\
       evs = [Print [VStr "KeyboardInterrupt"]; Print [VStr "connection closed"]]) /\
    (e <> OSError 110 -> e <> KeyboardInterrupt ->
       exists tag, In (Print [VStr tag; VExn e]) evs) /\
    ((forall name, e = Exception_ name ->
        exists c, conn w1 = Some c /\ conn_close env (clock w1) = Ok tt) ->
     r = Ok tt).
Proof.
  destruct e as [errno | name |].
  - cbn [on_exception]. destruct (Z.eqb_spec errno 110) as [-> | Hne].
    + destruct (display_weatherData_spec env w1)
        as (w' & evs & Hrun & Htr & Hev & Hin & Hstay & Hconn).
      exists (Ok tt), w', (Print [VStr "updating display..."] :: evs).
      split; [exact Hrun |]. split; [exact Htr |].
      split; [simpl; apply refresh_is_handler_event; exact Hev |].
      split; [exact Hconn |].
      split; [intros F; contradiction F; reflexivity |].
      split; [intros _; exact Hstay |].
      split; [intros F; discriminate F |].
      split; [intros F; contradiction F; reflexivity |].
      intros _; reflexivity.
    + unfold_monad.
      do 3 eexists. split; [reflexivity |].
      cbn [temperature pressure humidity stay_in_loop conn clock trace].
      split; [reflexivity |].
      split; [reflexivity |].
      split; [reflexivity |].
      split; [intros _; split; [repeat split | reflexivity] |].
      split; [intros _; reflexivity |].
      split; [intros F; discriminate F |].
      split; [intros _ _; exists "OSError"; left; reflexivity |].
      intros _; reflexivity.
  - cbn [on_exception]. unfold close_conn. unfold_monad.
    destruct (conn w1) as [c |] eqn:Hc;
      cbn [temperature pressure humidity stay_in_loop conn clock trace];
      [destruct (conn_close env (clock w1)) as [[] | e'] eqn:Hclose;
       cbn [temperature pressure humidity stay_in_loop conn clock trace] |];
      do 3 eexists; (split; [reflexivity |]);
      cbn [temperature pressure humidity stay_in_loop conn clock trace];
      (split; [repeat rewrite <- app_assoc; cbn [app]; reflexivity |]);
      (split; [reflexivity |]);
      (split; [first [exact Hc | reflexivity] |]);
      (split; [intros _; split; [repeat split | reflexivity] |]);
      (split; [intros _; reflexivity |]);
      (split; [intros F; discriminate F |]);
      (split; [intros _ _; exists "Exception"; left; reflexivity |]);
      intros H; destruct (H name eq_refl) as (c' & H1 & H2);
      first [reflexivity | congruence].
  - cbn [on_exception]. unfold_monad.
    do 3 eexists. split; [reflexivity |].
    cbn [temperature pressure humidity stay_in_loop conn clock trace].
    split; [repeat rewrite <- app_assoc; cbn [app]; reflexivity |].
    split; [reflexivity |].
    split; [reflexivity |].
    split; [intros _; split; [repeat split | reflexivity] |].
    split; [intros F; contradiction F; reflexivity |].
    split; [intros _; repeat split |].
    split; [intros _ F; contradiction F; reflexivity |].
    intros _; reflexivity.
Qed.

(** With [accept], [settimeout] and [send] answering normally, the bytes
    written to the connection inside the [try] block are the header and
    then the page, whatever [recv], [sendall] and [close] answer. *)
Lemma serve_connection_wire (env : Env) (w : World) (c : Conn) (addr : string) :
  srv_accept env (clock w) = Ok (c, addr) ->
  conn_settimeout env (1 + clock w) = Ok tt ->
  conn_send env (3 + clock w) = Ok tt ->
  exists r w1 evs,
    serve_connection env w = (r, w1) /\
    trace w1 = (trace w ++ evs)%list /\
    wire c evs = [http_header; web_page w].
Proof.
  intros Hacc Hto Hsend. cbn [Nat.add] in Hto, Hsend.
  unfold serve_connection, receive_request. unfold_monad.
  rewrite Hacc. cbn [temperature pressure humidity stay_in_loop conn clock trace fst snd].
  rewrite Hto. cbn [temperature pressure humidity stay_in_loop conn clock trace fst snd].
  destruct (conn_recv env (S (S (clock w)))) as [request | e];
    cbn [temperature pressure humidity stay_in_loop conn clock trace fst snd];
    rewrite Hsend;
    cbn [temperature pressure humidity stay_in_loop conn clock trace fst snd];
    repeat split_answer;
    do 3 eexists; (split; [reflexivity |]);
    cbn [temperature pressure humidity stay_in_loop conn clock trace fst snd];
    (split; [repeat rewrite <- app_assoc; cbn [app]; reflexivity |]);
    cbn [wire]; rewrite Nat.eqb_refl; f_equal; f_equal;
    apply web_page_ext; reflexivity.
Qed.

(** The pass that follows a request read that raised [e], when the rest
    of the exchange goes through. *)
Lemma loop_iteration_after_failed_recv (env : Env) (w : World) (c : Conn)
    (addr : string) (e : exn) :
  srv_accept env (clock w) = Ok (c, addr) ->
  conn_settimeout env (1 + clock w) = Ok tt ->
  conn_recv env (2 + clock w) = Raise e ->
  conn_send env (3 + clock w) = Ok tt ->
  conn_sendall env (4 + clock w) = Ok tt ->
  conn_close env (5 + clock w) = Ok tt ->
  exists w',
    loop_iteration env w = (Ok tt, w') /\
    trace w' =
      (trace w ++
       [ Print [VStr "waiting for connection..."];
         ServerAccept;
         Print [VStr ("connection from " ++ addr)];
         ConnSetTimeout c 3;
         Print [VStr "receiving request..."];
         ConnRecv c 1024;
         Print [VStr "receiving request timed out"];
         Print [VStr "getting web page"];
         Print [VStr (substring 0 100 (web_page w))];
         Print [VStr "sending header..."];
         ConnSend c http_header;
         Print [VStr "sending html..."];
         ConnSendAll c (web_page w);
         Print [VStr "closing connection"];
         ConnClose c ])%list /\
    stay_in_loop w' = stay_in_loop w /\
    same_readings w w'.
Proof.
  intros Hacc Hto Hrecv Hsend Hall Hclose.
  cbn [Nat.add] in Hto, Hrecv, Hsend, Hall, Hclose.
  unfold loop_iteration, serve_connection, receive_request. unfold_monad.
  rewrite Hacc. cbn [temperature pressure humidity stay_in_loop conn clock trace fst snd].
  rewrite Hto. cbn [temperature pressure humidity stay_in_loop conn clock trace fst snd].
  rewrite Hrecv. cbn [temperature pressure humidity stay_in_loop conn clock trace fst snd].
  rewrite Hsend. cbn [temperature pressure humidity stay_in_loop conn clock trace fst snd].
  rewrite Hall. cbn [temperature pressure humidity stay_in_loop conn clock trace fst snd].
  rewrite Hclose. cbn [temperature pressure humidity stay_in_loop conn clock trace fst snd].
  eexists. split; [reflexivity |].
  cbn [temperature pressure humidity stay_in_loop conn clock trace fst snd].
  split.
  { repeat rewrite <- app_assoc. cbn [app].
    match goal with
    | |- context [web_page ?x] =>
        lazymatch x with
        | w => fail
        | _ => rewrite (web_page_ext w x eq_refl eq_refl eq_refl)
        end
    end.
    reflexivity. }
  split; [reflexivity | repeat split].
Qed.

(** Once [stay_in_loop] is cleared the loop is over, whatever the fuel. *)
Lemma service_loop_stopped (env : Env) (fuel : nat) (w : World) :
  stay_in_loop w = false -> service_loop env fuel w = Some (Ok tt, w).
Proof. intros H. destruct fuel; simpl; rewrite H; reflexivity. Qed.

(** A pass that returns normally hands over to the next one. *)
Lemma service_loop_next (env : Env) (fuel : nat) (w w' : World) :
  stay_in_loop w = true ->
  loop_iteration env w = (Ok tt, w') ->
  service_loop env (S fuel) w = service_loop env fuel w'.
Proof. intros Hs Hit. cbn [service_loop]. rewrite Hs, Hit. reflexivity. Qed.

(** ** Frames *)

Lemma exn_eq_dec (a b : exn) : {a = b} + {a <> b}.
Proof. decide equality; [apply Z.eq_dec | apply string_dec]. Qed.

Lemma joins_of_tries (segs : list (list event)) (cs : list (string * string)) :
  Forall2 is_try segs cs ->
  joins (concat segs) = cs /\ List.length segs = List.length cs.
Proof.
  induction 1 as [| seg c segs cs (Hj & _) _ (IH1 & IH2)]; simpl.
  - split; reflexivity.
  - rewrite joins_app, Hj, IH1, IH2. split; reflexivity.
Qed.

(** Joining never raises and touches neither the readings nor the loop
    locals, whatever the radio does. *)
Lemma run_tries_frame (env : Env) (tries : list (string * string)) :
  forall w, exists b w', run_tries env tries w = (Ok b, w') /\ same_data w w'.
Proof.
  induction tries as [| [ssid password] tries IH]; intros w.
  - exists false, w. split; [reflexivity | apply same_data_refl].
  - destruct (connect_attempt_spec env ssid password w)
      as (w1 & seg & up & t & Hrun & _ & _ & Hd & _ & _).
    cbn [run_tries]. unfold bind. rewrite Hrun.
    destruct up.
    + exists true, w1. split; [reflexivity | exact Hd].
    + destruct (IH w1) as (b & w' & Hrest & Hd').
      exists b, w'. split; [exact Hrest |].
      eapply same_data_trans; eassumption.
Qed.

Lemma connect_to_wifi_frame (env : Env) (nets : list (string * string)) (w : World) :
  exists b w', connect_to_wifi env nets w = (Ok b, w') /\ same_data w w'.
Proof.
  unfold connect_to_wifi. unfold_monad.
  match goal with
  | |- context [for_networks env nets ?w1] =>
      rewrite (for_networks_flat env nets w1);
      destruct (run_tries_frame env (schedule nets) w1) as (b & w' & Hrun & Hd)
  end.
  exists b, w'. split; [exact Hrun | exact Hd].
Qed.

Lemma settled_same_readings (env : Env) (w w' : World) :
  same_readings w w' -> settled env w -> settled env w'.
Proof.
  intros (Ht & Hp & Hh) [(A & B & C) | (A & B & C) | w0 F].
  - apply settled_empty. repeat split; congruence.
  - apply settled_sentinel. repeat split; congruence.
  - apply (settled_fresh env w' w0).
    destruct F as (v0 & v1 & v2 & F1 & F2 & F3 & F4 & F5 & F6).
    exists v0, v1, v2. rewrite Ht, Hp, Hh. repeat split; assumption.
Qed.

(** A display refresh leaves what its sensor refresh leaves. *)
Lemma display_weatherData_settles (env : Env) (w : World) :
  exists w', display_weatherData env w = (Ok tt, w') /\ settled env w'.
Proof.
  unfold display_weatherData, dprint. unfold_monad.
  match goal with
  | |- context [refresh_weatherData env ?w1] =>
      destruct (refresh_weatherData_cases env w1)
        as (w2 & Hrun & _ & _ & _ & [(_ & Hf) | (e & w3 & _ & Hs)])
  end;
    rewrite Hrun; eexists; (split; [reflexivity |]).
  - apply (settled_same_readings env w2); [repeat split |].
    apply (settled_fresh env _ _ Hf).
  - apply (settled_same_readings env w2); [repeat split |].
    apply settled_sentinel. exact Hs.
Qed.

Lemma same_data_readings (w w' : World) : same_data w w' -> same_readings w w'.
Proof. intros (A & B & C & _). repeat split; assumption. Qed.

Lemma launch_server_settles (env : Env) (w : World) :
  exists w', launch_server env w = (Ok tt, w') /\ settled env w'.
Proof.
  unfold launch_server.
  destruct (display_weatherData_settles env w) as (w1 & Hrun & Hs).
  unfold bind at 1. rewrite Hrun. unfold_monad.
  eexists. split; [reflexivity |].
  apply (settled_same_readings env w1); [repeat split | exact Hs].
Qed.

(** One pass of the loop either keeps the readings or ends in a display
    refresh. *)
Lemma loop_iteration_settles (env : Env) (w : World) (r : result unit) (w' : World) :
  settled env w -> loop_iteration env w = (r, w') -> settled env w'.
Proof.
  intros Hs Hit. unfold loop_iteration, try_except in Hit.
  destruct (serve_connection_frame env w)
    as (r1 & w1 & evs & Hrun & _ & _ & Hread & _).
  rewrite Hrun in Hit.
  assert (Hs1 : settled env w1) by (apply (settled_same_readings env w); assumption).
  destruct r1 as [[] | e].
  - inversion Hit; subst. exact Hs1.
  - destruct (exn_eq_dec e (OSError 110)) as [-> | Hne].
    + cbn [on_exception Z.eqb Pos.eqb] in Hit.
      destruct (display_weatherData_settles env w1) as (w2 & Hd & Hs2).
      rewrite Hd in Hit. inversion Hit; subst. exact Hs2.
    + destruct (on_exception_frame env e w1)
        as (r2 & w2 & evs2 & Hh & _ & _ & _ & Hkeep & _).
      rewrite Hh in Hit. inversion Hit; subst.
      apply (settled_same_readings env w1); [apply (Hkeep Hne) | exact Hs1].
Qed.

(** The shutdown steps in one go. *)
Lemma shutdown_spec (w : World) :
  shutdown w =
    (Ok tt,
     mkWorld (temperature w) (pressure w) (humidity w) (stay_in_loop w) (conn w)
       (clock w)
       (trace w ++
        [ Print [VStr "closing server..."];
          ServerClose;
          Sleep 1;
          Print [VStr "disconnecting wifi..."];
          WlanDisconnect;
          Sleep 1;
          Print [VStr "cleaning up..."];
          WlanActive false;
          Print [VStr "web server ended."] ])).
Proof.
  unfold shutdown. unfold_monad.
  repeat rewrite <- app_assoc. reflexivity.
Qed.

(** * The claims *)

(** ** Sensor reader and Reading Set *)

(** C1.  Whenever the sensor transaction raises, whatever the exception
    and however far the transaction got, [refresh_weatherData] returns
    normally with temperature, pressure and humidity all set to "n/a",
    and the page built from that state carries "n/a" in the value cell of
    each of the three table rows. *)
Theorem refresh_on_sensor_failure (env : Env) (w w1 : World) (e : exn) :
  sensor_transaction env w = (Raise e, w1) ->
  exists w',
    refresh_weatherData env w = (Ok tt, w') /\
    temperature w' = "n/a" /\
    pressure w' = "n/a" /\
    humidity w' = "n/a" /\
    web_page w' =
      page_top
      ++ table_row temperature_open "n/a" temperature_close ++ lf
      ++ table_row pressure_open "n/a" pressure_close ++ lf
      ++ table_row humidity_open "n/a" humidity_close
      ++ page_bottom.
Proof.
  intros Hfail.
  destruct (refresh_weatherData_cases env w)
    as (w' & Hrun & _ & _ & _ & [(Hok & _) | (e' & w2 & _ & Ht & Hp & Hh)]).
  - rewrite Hok in Hfail. discriminate Hfail.
  - exists w'. unfold sentinel in Ht, Hp, Hh.
    repeat (split; [assumption |]).
    rewrite web_page_rows, Ht, Hp, Hh. reflexivity.
Qed.

(** The sensor drops off the bus after the first read: the temperature
    already stored is overwritten with the sentinel as well. *)
Lemma refresh_on_sensor_failure_witness :
  sensor_transaction dropout_env initial_world =
    (Raise (OSError 5),
     mkWorld "21.4C" "" "" true None 3 [SensorInit; SensorValues; SensorValues]) /\
  exists w',
    refresh_weatherData dropout_env initial_world = (Ok tt, w') /\
    temperature w' = "n/a" /\
    pressure w' = "n/a" /\
    humidity w' = "n/a" /\
    web_page w' =
      page_top
      ++ table_row temperature_open "n/a" temperature_close ++ lf
      ++ table_row pressure_open "n/a" pressure_close ++ lf
      ++ table_row humidity_open "n/a" humidity_close
      ++ page_bottom.
Proof.
  split; [reflexivity |].
  apply (refresh_on_sensor_failure dropout_env initial_world
           (mkWorld "21.4C" "" "" true None 3 [SensorInit; SensorValues; SensorValues])
           (OSError 5)).
  reflexivity.
Defined.

(** Inside a failing transaction the Reading Set is mixed for a moment:
    here the temperature is new and the other two fields are not. *)
Lemma reading_set_mixed_inside_refresh :
  let w := snd (sensor_transaction dropout_env initial_world) in
  temperature w = "21.4C" /\ pressure w = "" /\ humidity w = "".
Proof. repeat split. Qed.

(** ** Network joiner *)

(** C2.  Let the candidate list be [before ++ c :: after] and let the
    radio stay down during every try on the candidates of [before] and
    during the first [k] tries on [c] ([k] is 0 or 1), then come up on the
    next try on [c].  Then [connect_to_wifi] returns [True]; after its
    opening disconnect and one-second sleep the run is a sequence of
    tries, two for every candidate of [before] in order and [k + 1] for
    [c], each one [connect] call followed by at most 10 polls; the run
    ends with the [isconnected()] that answered [True], the address
    lookup and the console line; no [connect] call is made for a
    candidate of [after]. *)
Theorem connect_to_wifi_first_success
    (env : Env) (before after : list (string * string)) (c : string * string)
    (k : nat) (w : World) :
  k < 2 ->
  (forall j t,
     0 < j <= List.length (schedule before ++ repeat c k) ->
     wlan_isconnected env
       (joins (trace w) ++ firstn j (schedule before ++ repeat c k))%list t
     = false) ->
  (forall t,
     wlan_isconnected env
       (joins (trace w) ++ (schedule before ++ repeat c k) ++ [c])%list t
     = true) ->
  exists w' segs pre ip,
    connect_to_wifi env (before ++ c :: after) w = (Ok true, w') /\
    trace w' = (trace w ++ [WlanDisconnect; Sleep 1] ++ concat segs)%list /\
    Forall2 is_try segs (schedule before ++ repeat c (S k)) /\
    List.length segs = 2 * List.length before + k + 1 /\
    joins (concat segs) = (schedule before ++ repeat c (S k))%list /\
    concat segs = (pre ++ success_tail ip)%list /\
    same_data w w'.
Proof.
  intros Hk Hdown Hup.
  unfold connect_to_wifi. unfold_monad.
  match goal with
  | |- context [for_networks env _ ?w1] =>
      rewrite (for_networks_flat env (before ++ c :: after) w1);
      destruct (run_tries_success env (schedule before ++ repeat c k) c
                  (repeat c (1 - k) ++ schedule after) w1)
        as (w' & segs & pre & ip & Hrun & Htr & Hall & Hend & Hd)
  end.
  { cbn [trace]. intros j t Hj.
    rewrite <- app_assoc, joins_app. cbn [joins app]. rewrite app_nil_r.
    apply Hdown. exact Hj. }
  { cbn [trace]. intros t.
    rewrite <- app_assoc, joins_app. cbn [joins app]. rewrite app_nil_r.
    apply Hup. }
  assert (Hsched : schedule (before ++ c :: after)
                   = ((schedule before ++ repeat c k) ++
                      c :: repeat c (1 - k) ++ schedule after)%list).
  { rewrite schedule_app. cbn [schedule flat_map app].
    destruct k as [| [| k]]; [| | lia]; cbn [repeat Nat.sub app].
    - rewrite app_nil_r. reflexivity.
    - rewrite <- app_assoc. reflexivity. }
  assert (Hrep : ((schedule before ++ repeat c k) ++ [c])%list
                 = (schedule before ++ repeat c (S k))%list).
  { rewrite <- app_assoc. f_equal. cbn [repeat]. symmetry. apply repeat_cons. }
  rewrite Hsched, Hrun. rewrite Hrep in Hall.
  destruct (joins_of_tries segs _ Hall) as (Hj & Hlen).
  exists w', segs, pre, ip.
  split; [reflexivity |].
  split.
  { rewrite Htr. cbn [trace]. repeat rewrite <- app_assoc. reflexivity. }
  split; [exact Hall |].
  split.
  { rewrite Hlen, length_app, schedule_length, repeat_length. lia. }
  split; [exact Hj |].
  split; [exact Hend |].
  destruct Hd as (D1 & D2 & D3 & D4 & D5). repeat split; assumption.
Qed.

(** With the two configured networks and a radio that associates on the
    fourth [connect] call, the join succeeds on the second try at the
    second network. *)
Lemma connect_to_wifi_first_success_witness :
  1 < 2 /\
  (forall j t,
     0 < j <= List.length
                (schedule [("SM-S918W0938", "xxxxx")]
                 ++ repeat ("TLA Student", "yyyy") 1) ->
     wlan_isconnected fourth_try_env
       (joins (trace initial_world)
        ++ firstn j (schedule [("SM-S918W0938", "xxxxx")]
                     ++ repeat ("TLA Student", "yyyy") 1))%list t
     = false) /\
  (forall t,
     wlan_isconnected fourth_try_env
       (joins (trace initial_world)
        ++ (schedule [("SM-S918W0938", "xxxxx")]
            ++ repeat ("TLA Student", "yyyy") 1)
        ++ [("TLA Student", "yyyy")])%list t
     = true) /\
  exists w' segs pre ip,
    connect_to_wifi fourth_try_env
      ([("SM-S918W0938", "xxxxx")] ++ ("TLA Student", "yyyy") :: [])
      initial_world = (Ok true, w') /\
    trace w' = (trace initial_world ++ [WlanDisconnect; Sleep 1] ++ concat segs)%list /\
    Forall2 is_try segs
      (schedule [("SM-S918W0938", "xxxxx")] ++ repeat ("TLA Student", "yyyy") 2) /\
    List.length segs = 2 * 1 + 1 + 1 /\
    joins (concat segs)
      = (schedule [("SM-S918W0938", "xxxxx")] ++ repeat ("TLA Student", "yyyy") 2)%list /\
    concat segs = (pre ++ success_tail ip)%list /\
    same_data initial_world w'.
Proof.
  assert (Hdown : forall j t,
     0 < j <= List.length
                (schedule [("SM-S918W0938", "xxxxx")]
                 ++ repeat ("TLA Student", "yyyy") 1) ->
     wlan_isconnected fourth_try_env
       (joins (trace initial_world)
        ++ firstn j (schedule [("SM-S918W0938", "xxxxx")]
                     ++ repeat ("TLA Student", "yyyy") 1))%list t
     = false).
  { intros j t Hj. simpl in Hj.
    destruct j as [| [| [| [| j]]]]; [lia | reflexivity | reflexivity | reflexivity | lia]. }
  assert (Hup : forall t,
     wlan_isconnected fourth_try_env
       (joins (trace initial_world)
        ++ (schedule [("SM-S918W0938", "xxxxx")]
            ++ repeat ("TLA Student", "yyyy") 1)
        ++ [("TLA Student", "yyyy")])%list t
     = true).
  { intros t. reflexivity. }
  split; [lia |].
  split; [exact Hdown |].
  split; [exact Hup |].
  apply (connect_to_wifi_first_success fourth_try_env
           [("SM-S918W0938", "xxxxx")] [] ("TLA Student", "yyyy") 1 initial_world).
  - lia.
  - exact Hdown.
  - exact Hup.
Defined.

(** C8.  For the empty candidate list, and for every list on which the
    radio stays down during every try, [connect_to_wifi] returns [False]
    after making every scheduled try: two per candidate, in list order,
    each one [connect] call followed by at most 10 polls. *)
Theorem connect_to_wifi_exhausted
    (env : Env) (nets : list (string * string)) (w : World) :
  nets = [] \/
  (forall j t,
     0 < j <= List.length (schedule nets) ->
     wlan_isconnected env (joins (trace w) ++ firstn j (schedule nets))%list t
     = false) ->
  exists w' segs,
    connect_to_wifi env nets w = (Ok false, w') /\
    trace w' = (trace w ++ [WlanDisconnect; Sleep 1] ++ concat segs)%list /\
    Forall2 is_try segs (schedule nets) /\
    List.length segs = 2 * List.length nets /\
    joins (concat segs) = schedule nets /\
    same_data w w'.
Proof.
  intros Hdown.
  assert (Hdown' : forall j t,
     0 < j <= List.length (schedule nets) ->
     wlan_isconnected env (joins (trace w) ++ firstn j (schedule nets))%list t
     = false).
  { destruct Hdown as [-> | H]; [| exact H].
    intros j t Hj. simpl in Hj. lia. }
  unfold connect_to_wifi. unfold_monad.
  match goal with
  | |- context [for_networks env _ ?w1] =>
      rewrite (for_networks_flat env nets w1);
      destruct (run_tries_fail env (schedule nets) w1)
        as (w' & segs & Hrun & Htr & Hall & Hd)
  end.
  { cbn [trace]. intros j t Hj.
    rewrite <- app_assoc, joins_app. cbn [joins app]. rewrite app_nil_r.
    apply Hdown'. exact Hj. }
  rewrite Hrun.
  destruct (joins_of_tries segs _ Hall) as (Hj & Hlen).
  exists w', segs.
  split; [reflexivity |].
  split.
  { rewrite Htr. cbn [trace]. repeat rewrite <- app_assoc. reflexivity. }
  split; [exact Hall |].
  split; [rewrite Hlen; apply schedule_length |].
  split; [exact Hj |].
  destruct Hd as (D1 & D2 & D3 & D4 & D5). repeat split; assumption.
Qed.

(** The configured networks on a radio that never associates. *)
Lemma connect_to_wifi_exhausted_witness :
  (wifiNetworks = [] \/
   (forall j t,
      0 < j <= List.length (schedule wifiNetworks) ->
      wlan_isconnected bench_env
        (joins (trace initial_world) ++ firstn j (schedule wifiNetworks))%list t
      = false)) /\
  exists w' segs,
    connect_to_wifi bench_env wifiNetworks initial_world = (Ok false, w') /\
    trace w' = (trace initial_world ++ [WlanDisconnect; Sleep 1] ++ concat segs)%list /\
    Forall2 is_try segs (schedule wifiNetworks) /\
    List.length segs = 2 * List.length wifiNetworks /\
    joins (concat segs) = schedule wifiNetworks /\
    same_data initial_world w'.
Proof.
  assert (H : wifiNetworks = [] \/
   (forall j t,
      0 < j <= List.length (schedule wifiNetworks) ->
      wlan_isconnected bench_env
        (joins (trace initial_world) ++ firstn j (schedule wifiNetworks))%list t
      = false)).
  { right. intros j t _. reflexivity. }
  split; [exact H |].
  apply (connect_to_wifi_exhausted bench_env wifiNetworks initial_world H).
Defined.

(** ** Service loop *)

Lemma refresh_events_keep_listening (evs : list event) :
  forallb refresh_event evs = true -> ~ In ServerClose evs.
Proof.
  intros H. apply (handler_events_quiet 0 evs).
  apply refresh_is_handler_event. exact H.
Qed.

Lemma occurs_in_page (w : World) : occurs_in meta_refresh (web_page w).
Proof.
  destruct page_top_refresh as (pre & post & Htop).
  rewrite web_page_rows, Htop.
  exists pre. eexists.
  repeat rewrite append_assoc. reflexivity.
Qed.



(** A display refresh calls the sensor and prints no exception. *)
Lemma display_weatherData_logs_nothing (env : Env) (w : World) :
  exists w' evs,
    display_weatherData env w = (Ok tt, w') /\
    trace w' = (trace w ++ evs)%list /\
    In SensorInit evs /\
    logged evs = [].
Proof.
  unfold display_weatherData, dprint, refresh_weatherData, sensor_transaction,
    sensor_unavailable, subscript.
  unfold_monad.
  repeat split_answer;
    do 2 eexists; (split; [reflexivity |]);
    cbn [temperature pressure humidity stay_in_loop conn clock trace];
    (split; [repeat rewrite <- app_assoc; cbn [app]; reflexivity |]);
    (split; [cbn [In]; tauto | reflexivity]).
Qed.

(** C5, as stated, fails in two ways.  When writing the header on an
    accepted connection times out, the OSError has errno 110: the loop
    takes it for the idle timeout, refreshes the display and prints
    nothing about the error.  And when sending the page raises an
    exception that is not an OSError and the [conn.close()] of the
    handler raises as well, that second exception leaves the loop: the
    failure of one connection ends the service. *)
Lemma serving_error_unlogged_or_fatal :
  srv_accept stalled_client_env (clock serving_world)
    = Ok (1, "('192.168.4.2', 51234)") /\
  fst (serve_connection stalled_client_env serving_world) = Raise (OSError 110) /\
  fst (loop_iteration stalled_client_env serving_world) = Ok tt /\
  logged (trace (snd (loop_iteration stalled_client_env serving_world))) = [] /\
  sensor_calls (trace (snd (loop_iteration stalled_client_env serving_world)))
    = [SensorInit; SensorValues; SensorValues; SensorValues] /\
  srv_accept broken_client_env (clock serving_world)
    = Ok (1, "('192.168.4.2', 51234)") /\
  fst (serve_connection broken_client_env serving_world)
    = Raise (Exception_ "MemoryError") /\
  stay_in_loop serving_world = true /\
  service_loop broken_client_env 1 serving_world
    = Some (Raise (OSError 9), snd (loop_iteration broken_client_env serving_world)).
Proof. do 8 (split; [vm_compute; reflexivity |]). vm_compute. reflexivity. Qed.

(** C5, amended.  When the [try] block raises, after a connection was
    accepted, any exception other than [KeyboardInterrupt], and the
    [conn.close()] that the handler makes for an exception that is not an
    OSError returns, the pass of the loop catches the exception and
    returns normally with [stay_in_loop] still set, the listening socket
    is not closed, and the loop goes on to its next pass.  The exception
    is printed on the console unless it is an OSError with errno 110:
    that one the loop takes for the idle timeout, whichever call raised
    it, and answers with a display refresh, printing no exception. *)
Theorem serving_error_is_contained
    (env : Env) (w w1 : World) (c : Conn) (addr : string) (e : exn) :
  stay_in_loop w = true ->
  srv_accept env (clock w) = Ok (c, addr) ->
  serve_connection env w = (Raise e, w1) ->
  e <> KeyboardInterrupt ->
  (forall name, e = Exception_ name -> conn_close env (clock w1) = Ok tt) ->
  exists w' evs1 evs2,
    trace w1 = (trace w ++ evs1)%list /\
    loop_iteration env w = (Ok tt, w') /\
    trace w' = (trace w1 ++ evs2)%list /\
    ~ In ServerClose (evs1 ++ evs2) /\
    stay_in_loop w' = true /\
    (e <> OSError 110 -> exists tag, In (Print [VStr tag; VExn e]) evs2) /\
    (e = OSError 110 -> In SensorInit evs2 /\ logged evs2 = []) /\
    (forall fuel, service_loop env (S fuel) w = service_loop env fuel w').
Proof.
  intros Hstay Hacc Hserve Hne Hclose.
  destruct (serve_connection_frame env w)
    as (r1 & w1' & evs1 & Hrun & Htr1 & Hev1 & _ & Hstay1 & Hconn & _).
  rewrite Hserve in Hrun. inversion Hrun; subst r1 w1'.
  destruct (serving_events_facts _ _ Hev1) as (Hlisten1 & _).
  destruct (on_exception_frame env e w1)
    as (r2 & w' & evs2 & Hh & Htr2 & Hev2 & _ & _ & Hstay2 & _ & Hlog & Hok).
  assert (r2 = Ok tt) as ->.
  { apply Hok. intros name Hname. exists c.
    split; [exact (Hconn c addr Hacc) | exact (Hclose name Hname)]. }
  assert (Hit : loop_iteration env w = (Ok tt, w')).
  { unfold loop_iteration, try_except. rewrite Hserve. exact Hh. }
  exists w', evs1, evs2.
  split; [exact Htr1 |].
  split; [exact Hit |].
  split; [exact Htr2 |].
  split.
  { intros Hin. apply in_app_or in Hin. destruct Hin as [Hin | Hin].
    - exact (Hlisten1 Hin).
    - exact (proj2 (handler_events_quiet c evs2 Hev2) Hin). }
  split; [rewrite (Hstay2 Hne); congruence |].
  split; [intros H110; exact (Hlog H110 Hne) |].
  split.
  { intros H110. subst e. cbn [on_exception Z.eqb Pos.eqb] in Hh.
    destruct (display_weatherData_logs_nothing env w1)
      as (w2 & evs & Hd & Htr & Hin & Hquiet).
    rewrite Hd in Hh. inversion Hh; subst w2.
    rewrite Htr2 in Htr. apply app_inv_head in Htr. subst evs2.
    split; assumption. }
  intros fuel. apply service_loop_next; assumption.
Qed.

(** The browser resets the connection while the header is written. *)
Lemma serving_error_is_contained_witness :
  stay_in_loop serving_world = true /\
  srv_accept reset_env (clock serving_world) = Ok (1, "('192.168.4.2', 51234)") /\
  fst (serve_connection reset_env serving_world) = Raise (OSError 104) /\
  OSError 104 <> KeyboardInterrupt /\
  exists w' evs1 evs2,
    trace (snd (serve_connection reset_env serving_world))
      = (trace serving_world ++ evs1)%list /\
    loop_iteration reset_env serving_world = (Ok tt, w') /\
    trace w' = (trace (snd (serve_connection reset_env serving_world)) ++ evs2)%list /\
    ~ In ServerClose (evs1 ++ evs2) /\
    stay_in_loop w' = true /\
    (OSError 104 <> OSError 110 ->
     exists tag, In (Print [VStr tag; VExn (OSError 104)]) evs2) /\
    (OSError 104 = OSError 110 -> In SensorInit evs2 /\ logged evs2 = []) /\
    (forall fuel,
       service_loop reset_env (S fuel) serving_world = service_loop reset_env fuel w').
Proof.
  split; [vm_compute; reflexivity |].
  split; [vm_compute; reflexivity |].
  split; [vm_compute; reflexivity |].
  split; [discriminate |].
  apply (serving_error_is_contained reset_env serving_world
           (snd (serve_connection reset_env serving_world))
           1 "('192.168.4.2', 51234)" (OSError 104)).
  - vm_compute; reflexivity.
  - vm_compute; reflexivity.
  - vm_compute; reflexivity.
  - discriminate.
  - intros name H. discriminate H.
Defined.

(** C9.  On an accepted connection whose request read raises (a timeout
    or anything else, the bare [except:] takes all), with the later calls
    on the connection answering normally, the pass of the loop still
    builds the page, sends the header and then the page on that
    connection, closes it, and returns normally with [stay_in_loop] as it
    was. *)
Theorem failed_request_read_still_answered
    (env : Env) (w : World) (c : Conn) (addr : string) (e : exn) :
  srv_accept env (clock w) = Ok (c, addr) ->
  conn_settimeout env (1 + clock w) = Ok tt ->
  conn_recv env (2 + clock w) = Raise e ->
  conn_send env (3 + clock w) = Ok tt ->
  conn_sendall env (4 + clock w) = Ok tt ->
  conn_close env (5 + clock w) = Ok tt ->
  exists w',
    loop_iteration env w = (Ok tt, w') /\
    trace w' =
      (trace w ++
       [ Print [VStr "waiting for connection..."];
         ServerAccept;
         Print [VStr ("connection from " ++ addr)];
         ConnSetTimeout c 3;
         Print [VStr "receiving request..."];
         ConnRecv c 1024;
         Print [VStr "receiving request timed out"];
         Print [VStr "getting web page"];
         Print [VStr (substring 0 100 (web_page w))];
         Print [VStr "sending header..."];
         ConnSend c http_header;
         Print [VStr "sending html..."];
         ConnSendAll c (web_page w);
         Print [VStr "closing connection"];
         ConnClose c ])%list /\
    stay_in_loop w' = stay_in_loop w.
Proof.
  intros Hacc Hto Hrecv Hsend Hall Hclose.
  destruct (loop_iteration_after_failed_recv env w c addr e
              Hacc Hto Hrecv Hsend Hall Hclose)
    as (w' & Hit & Htr & Hstay & _).
  exists w'. repeat split; assumption.
Qed.

(** The browser connects and sends nothing: [recv] times out. *)
Lemma failed_request_read_still_answered_witness :
  srv_accept silent_client_env (clock serving_world)
    = Ok (1, "('192.168.4.2', 51234)") /\
  conn_settimeout silent_client_env (1 + clock serving_world) = Ok tt /\
  conn_recv silent_client_env (2 + clock serving_world) = Raise (OSError 110) /\
  conn_send silent_client_env (3 + clock serving_world) = Ok tt /\
  conn_sendall silent_client_env (4 + clock serving_world) = Ok tt /\
  conn_close silent_client_env (5 + clock serving_world) = Ok tt /\
  exists w',
    loop_iteration silent_client_env serving_world = (Ok tt, w') /\
    trace w' =
      (trace serving_world ++
       [ Print [VStr "waiting for connection..."];
         ServerAccept;
         Print [VStr ("connection from " ++ "('192.168.4.2', 51234)")];
         ConnSetTimeout 1 3;
         Print [VStr "receiving request..."];
         ConnRecv 1 1024;
         Print [VStr "receiving request timed out"];
         Print [VStr "getting web page"];
         Print [VStr (substring 0 100 (web_page serving_world))];
         Print [VStr "sending header..."];
         ConnSend 1 http_header;
         Print [VStr "sending html..."];
         ConnSendAll 1 (web_page serving_world);
         Print [VStr "closing connection"];
         ConnClose 1 ])%list /\
    stay_in_loop w' = stay_in_loop serving_world.
Proof.
  repeat (split; [reflexivity |]).
  apply (failed_request_read_still_answered silent_client_env serving_world
           1 "('192.168.4.2', 51234)" (OSError 110)); reflexivity.
Defined.

(** C6.  On an accepted connection, with [settimeout] and the header
    [send] answering normally, what the pass of the loop writes to the
    connection is the header "HTTP/1.1 200 OK", "Content-type: text/html",
    blank line, and then the page, whatever [recv] returned or raised.
    The page has the 60-second refresh tag in its head and, after the
    table's header row, the Temperature, Pressure and Humidity rows with
    the three globals spliced in unchanged. *)
Theorem response_is_header_and_page
    (env : Env) (w : World) (c : Conn) (addr : string) :
  srv_accept env (clock w) = Ok (c, addr) ->
  conn_settimeout env (1 + clock w) = Ok tt ->
  conn_send env (3 + clock w) = Ok tt ->
  exists r w' evs,
    loop_iteration env w = (r, w') /\
    trace w' = (trace w ++ evs)%list /\
    wire c evs = [http_header; web_page w] /\
    http_header
      = "HTTP/1.1 200 OK" ++ crlf ++ "Content-type: text/html" ++ crlf ++ crlf /\
    occurs_in meta_refresh (web_page w) /\
    (exists pre, page_top = pre ++ table_head) /\
    web_page w =
      page_top
      ++ table_row temperature_open (temperature w) temperature_close ++ lf
      ++ table_row pressure_open (pressure w) pressure_close ++ lf
      ++ table_row humidity_open (humidity w) humidity_close
      ++ page_bottom.
Proof.
  intros Hacc Hto Hsend.
  destruct (serve_connection_wire env w c addr Hacc Hto Hsend)
    as (r1 & w1 & evs1 & Hrun & Htr1 & Hwire).
  assert (Hit : exists r w' evs,
             loop_iteration env w = (r, w') /\
             trace w' = (trace w ++ evs)%list /\
             wire c evs = [http_header; web_page w]).
  { unfold loop_iteration, try_except. rewrite Hrun.
    destruct r1 as [[] | e].
    - exists (Ok tt), w1, evs1. repeat split; assumption.
    - destruct (on_exception_frame env e w1)
        as (r2 & w' & evs2 & Hh & Htr2 & Hev2 & _).
      exists r2, w', (evs1 ++ evs2)%list.
      split; [exact Hh |].
      split; [rewrite Htr2, Htr1, app_assoc; reflexivity |].
      rewrite wire_app, Hwire, (proj1 (handler_events_quiet c evs2 Hev2)).
      reflexivity. }
  destruct Hit as (r & w' & evs & Hit & Htr & Hw).
  exists r, w', evs.
  split; [exact Hit |].
  split; [exact Htr |].
  split; [exact Hw |].
  split; [reflexivity |].
  split; [apply occurs_in_page |].
  split; [apply page_top_table |].
  apply web_page_rows.
Qed.

Lemma response_is_header_and_page_witness :
  srv_accept bench_env (clock serving_world) = Ok (1, "('192.168.4.2', 51234)") /\
  conn_settimeout bench_env (1 + clock serving_world) = Ok tt /\
  conn_send bench_env (3 + clock serving_world) = Ok tt /\
  exists r w' evs,
    loop_iteration bench_env serving_world = (r, w') /\
    trace w' = (trace serving_world ++ evs)%list /\
    wire 1 evs = [http_header; web_page serving_world] /\
    http_header
      = "HTTP/1.1 200 OK" ++ crlf ++ "Content-type: text/html" ++ crlf ++ crlf /\
    occurs_in meta_refresh (web_page serving_world) /\
    (exists pre, page_top = pre ++ table_head) /\
    web_page serving_world =
      page_top
      ++ table_row temperature_open (temperature serving_world) temperature_close ++ lf
      ++ table_row pressure_open (pressure serving_world) pressure_close ++ lf
      ++ table_row humidity_open (humidity serving_world) humidity_close
      ++ page_bottom.
Proof.
  repeat (split; [reflexivity |]).
  apply (response_is_header_and_page bench_env serving_world
           1 "('192.168.4.2', 51234)"); reflexivity.
Defined.

(** C10, as stated, fails: when writing the header on an accepted
    connection times out, the OSError has errno 110 and the pass ends in
    a display refresh.  The sensor is read four times while the
    connection is open, and the Reading Set the pass leaves is not the
    one it started with. *)
Lemma serving_can_refresh_readings :
  srv_accept stalled_client_env (clock serving_world)
    = Ok (1, "('192.168.4.2', 51234)") /\
  fst (serve_connection stalled_client_env serving_world) = Raise (OSError 110) /\
  conn (snd (loop_iteration stalled_client_env serving_world)) = Some 1 /\
  existsb is_conn_close (trace (snd (loop_iteration stalled_client_env serving_world)))
    = false /\
  sensor_calls (trace (snd (loop_iteration stalled_client_env serving_world)))
    = [SensorInit; SensorValues; SensorValues; SensorValues] /\
  temperature serving_world = "21.4C" /\
  temperature (snd (loop_iteration stalled_client_env serving_world)) = "21.6C" /\
  ~ same_readings serving_world (snd (loop_iteration stalled_client_env serving_world)).
Proof.
  do 7 (split; [vm_compute; reflexivity |]).
  intros (H & _). vm_compute in H. discriminate H.
Qed.

(** C10, amended.  In every pass of the loop the [try] block leaves the
    Reading Set as it found it and makes no sensor call, and every page
    it hands to [sendall] is the page of the readings the pass started
    with.  The [except] clause that follows writes nothing to a
    connection.  It re-reads the sensor in one case only: when the block
    raised an OSError with errno 110, be it from [accept] (the idle
    timeout) or from a call on the accepted connection; the rest of the
    pass is then the display refresh, run after the block.  In every
    other case the pass leaves the Reading Set alone and makes no sensor
    call. *)
Theorem serving_leaves_readings_alone (env : Env) (w : World) :
  exists r1 w1 evs1 r w' evs2,
    serve_connection env w = (r1, w1) /\
    trace w1 = (trace w ++ evs1)%list /\
    loop_iteration env w = (r, w') /\
    trace w' = (trace w1 ++ evs2)%list /\
    same_readings w w1 /\
    existsb sensor_event evs1 = false /\
    (forall c data, In (ConnSendAll c data) evs1 -> data = web_page w) /\
    (forall c, wire c evs2 = []) /\
    (r1 <> Raise (OSError 110) ->
     same_readings w w' /\ existsb sensor_event evs2 = false) /\
    (r1 = Raise (OSError 110) ->
     display_weatherData env w1 = (r, w') /\ existsb sensor_event evs2 = true).
Proof.
  destruct (serve_connection_frame env w)
    as (r1 & w1 & evs1 & Hrun & Htr1 & Hev1 & Hread & _).
  destruct (serving_events_facts _ _ Hev1) as (_ & Hquiet & Hpage).
  assert (Hit : exists r w' evs2,
             loop_iteration env w = (r, w') /\
             trace w' = (trace w1 ++ evs2)%list /\
             (forall c, wire c evs2 = []) /\
             (r1 <> Raise (OSError 110) ->
              same_readings w1 w' /\ existsb sensor_event evs2 = false)).
  { unfold loop_iteration, try_except. rewrite Hrun.
    destruct r1 as [[] | e].
    - exists (Ok tt), w1, []. rewrite app_nil_r.
      repeat split; reflexivity.
    - destruct (on_exception_frame env e w1)
        as (r2 & w' & evs2 & Hh & Htr2 & Hev2 & _ & Hkeep & _).
      exists r2, w', evs2.
      split; [exact Hh |].
      split; [exact Htr2 |].
      split; [intros c; exact (proj1 (handler_events_quiet c evs2 Hev2)) |].
      intros Hne. apply Hkeep. congruence. }
  destruct Hit as (r & w' & evs2 & Hit & Htr2 & Hwire & Hkeep).
  exists r1, w1, evs1, r, w', evs2.
  repeat (split; [assumption |]).
  split.
  - intros Hne. destruct (Hkeep Hne) as ((A & B & C) & Hq).
    destruct Hread as (A1 & B1 & C1).
    split; [repeat split; congruence | exact Hq].
  - intros H110. subst r1.
    unfold loop_iteration, try_except in Hit. rewrite Hrun in Hit.
    cbn [on_exception Z.eqb Pos.eqb] in Hit.
    split; [exact Hit |].
    destruct (display_weatherData_logs_nothing env w1)
      as (w2 & evs & Hd & Htr & Hin & _).
    rewrite Hd in Hit. inversion Hit; subst r w2.
    rewrite Htr2 in Htr. apply app_inv_head in Htr. subst evs2.
    apply existsb_exists. exists SensorInit. split; [exact Hin | reflexivity].
Qed.

(** C3.  When the [try] block is interrupted after a connection was
    accepted, the loop ends and the shutdown runs, and from the interrupt
    on the program does exactly this: two console lines (the second says
    "connection closed"), then the listening socket is closed, the
    network is disconnected and the radio is switched off, in that order.
    No [close] is called on the connection, which stays in [conn]. *)
Theorem interrupt_while_serving_leaves_connection_open
    (env : Env) (w w1 : World) (c : Conn) (addr : string) (fuel : nat) :
  stay_in_loop w = true ->
  srv_accept env (clock w) = Ok (c, addr) ->
  serve_connection env w = (Raise KeyboardInterrupt, w1) ->
  exists w2 w',
    service_loop env (S fuel) w = Some (Ok tt, w2) /\
    shutdown w2 = (Ok tt, w') /\
    trace w' = (trace w1 ++ interrupt_shutdown_events)%list /\
    ~ In (ConnClose c) interrupt_shutdown_events /\
    conn w' = Some c.
Proof.
  intros Hstay Hacc Hserve.
  destruct (serve_connection_frame env w)
    as (r1 & w1' & evs1 & Hrun & _ & _ & _ & _ & Hconn & _).
  rewrite Hserve in Hrun. inversion Hrun; subst r1 w1'.
  destruct (on_exception_frame env KeyboardInterrupt w1)
    as (r2 & w2 & evs2 & Hh & Htr2 & _ & Hconn2 & _ & _ & Hki & _).
  destruct (Hki eq_refl) as (-> & Hstop & _ & ->).
  exists w2. eexists.
  split.
  { cbn [service_loop]. rewrite Hstay.
    unfold loop_iteration, try_except. rewrite Hserve, Hh.
    apply service_loop_stopped. exact Hstop. }
  split; [apply shutdown_spec |].
  cbn [trace conn].
  split.
  { rewrite Htr2, <- app_assoc. reflexivity. }
  split.
  { unfold interrupt_shutdown_events. cbn [In].
    intros H. repeat (destruct H as [H | H]; [discriminate H |]). exact H. }
  rewrite Hconn2. exact (Hconn c addr Hacc).
Qed.

(** Ctrl-C while the header is being written. *)
Lemma interrupt_while_serving_leaves_connection_open_witness :
  stay_in_loop serving_world = true /\
  srv_accept interrupted_env (clock serving_world)
    = Ok (1, "('192.168.4.2', 51234)") /\
  fst (serve_connection interrupted_env serving_world) = Raise KeyboardInterrupt /\
  exists w2 w',
    service_loop interrupted_env 1 serving_world = Some (Ok tt, w2) /\
    shutdown w2 = (Ok tt, w') /\
    trace w' = (trace (snd (serve_connection interrupted_env serving_world))
                ++ interrupt_shutdown_events)%list /\
    ~ In (ConnClose 1) interrupt_shutdown_events /\
    conn w' = Some 1.
Proof.
  repeat (split; [vm_compute; reflexivity |]).
  apply (interrupt_while_serving_leaves_connection_open interrupted_env
           serving_world (snd (serve_connection interrupted_env serving_world))
           1 "('192.168.4.2', 51234)" 0); vm_compute; reflexivity.
Defined.

(** The whole of [run_display_and_webserver] on that board: the server
    is launched, a browser connects, Ctrl-C arrives while the header is
    written.  The function returns, and its trace has no [close] on any
    connection, while it does end with the rest of the shutdown. *)
Lemma interrupted_run_never_closes_connection :
  exists w',
    run_display_and_webserver interrupted_env 1 initial_world = Some (Ok tt, w') /\
    existsb is_conn_close (trace w') = false /\
    conn w' = Some 1 /\
    skipn 26 (trace w') = ConnSend 1 http_header :: interrupt_shutdown_events.
Proof.
  eexists. split; [vm_compute; reflexivity |].
  split; [vm_compute; reflexivity |].
  split; [reflexivity |].
  vm_compute. reflexivity.
Qed.

(** An interrupt that arrives during [recv] is taken by the bare
    [except:] around it: the page is served and the loop goes on. *)
Lemma interrupt_during_recv_is_swallowed
    (env : Env) (w : World) (c : Conn) (addr : string) (fuel : nat) :
  stay_in_loop w = true ->
  srv_accept env (clock w) = Ok (c, addr) ->
  conn_settimeout env (1 + clock w) = Ok tt ->
  conn_recv env (2 + clock w) = Raise KeyboardInterrupt ->
  conn_send env (3 + clock w) = Ok tt ->
  conn_sendall env (4 + clock w) = Ok tt ->
  conn_close env (5 + clock w) = Ok tt ->
  exists w',
    loop_iteration env w = (Ok tt, w') /\
    stay_in_loop w' = true /\
    service_loop env (S fuel) w = service_loop env fuel w'.
Proof.
  intros Hstay Hacc Hto Hrecv Hsend Hall Hclose.
  destruct (loop_iteration_after_failed_recv env w c addr KeyboardInterrupt
              Hacc Hto Hrecv Hsend Hall Hclose)
    as (w' & Hit & _ & Hstay' & _).
  exists w'. split; [exact Hit |].
  split; [congruence |].
  apply service_loop_next; assumption.
Qed.

(** * Beyond the claims *)

(** ** Sensor reader *)

(** X1.  When the driver object is built and the three [bme.values]
    reads answer with tuples that have the element asked for, a refresh
    stores element 0 of the first read, element 1 of the second and
    element 2 of the third, makes exactly these four sensor calls, and
    changes nothing else. *)
Theorem refresh_stores_three_reads
    (env : Env) (w : World) (v0 v1 v2 : list string) (t p h : string) :
  bme_init env (clock w) = Ok tt ->
  bme_values env (1 + clock w) = Ok v0 ->
  bme_values env (2 + clock w) = Ok v1 ->
  bme_values env (3 + clock w) = Ok v2 ->
  nth_error v0 0 = Some t ->
  nth_error v1 1 = Some p ->
  nth_error v2 2 = Some h ->
  refresh_weatherData env w =
    (Ok tt,
     mkWorld t p h (stay_in_loop w) (conn w) (4 + clock w)
       (trace w ++ [SensorInit; SensorValues; SensorValues; SensorValues])).
Proof.
  intros Hi H0 H1 H2 Ht Hp Hh. cbn [Nat.add] in H0, H1, H2 |- *.
  unfold refresh_weatherData, sensor_transaction, subscript. unfold_monad.
  rewrite Hi. cbn [temperature pressure humidity stay_in_loop conn clock trace].
  rewrite H0. cbn [temperature pressure humidity stay_in_loop conn clock trace].
  rewrite Ht. cbn [temperature pressure humidity stay_in_loop conn clock trace].
  rewrite H1. cbn [temperature pressure humidity stay_in_loop conn clock trace].
  rewrite Hp. cbn [temperature pressure humidity stay_in_loop conn clock trace].
  rewrite H2. cbn [temperature pressure humidity stay_in_loop conn clock trace].
  rewrite Hh. cbn [temperature pressure humidity stay_in_loop conn clock trace].
  repeat rewrite <- app_assoc. reflexivity.
Qed.

(** A sensor whose readings move between two reads: the Reading Set
    takes each field from its own read. *)
Lemma refresh_stores_three_reads_witness :
  bme_init drifting_env (clock initial_world) = Ok tt /\
  bme_values drifting_env (1 + clock initial_world) = Ok ["21.4C"; "998.1hPa"; "35.2%"] /\
  bme_values drifting_env (2 + clock initial_world) = Ok ["21.5C"; "998.0hPa"; "35.1%"] /\
  bme_values drifting_env (3 + clock initial_world) = Ok ["21.6C"; "997.9hPa"; "35.0%"] /\
  refresh_weatherData drifting_env initial_world =
    (Ok tt,
     mkWorld "21.4C" "998.0hPa" "35.0%" (stay_in_loop initial_world)
       (conn initial_world) (4 + clock initial_world)
       (trace initial_world ++ [SensorInit; SensorValues; SensorValues; SensorValues])).
Proof.
  repeat (split; [reflexivity |]).
  apply (refresh_stores_three_reads drifting_env initial_world
           ["21.4C"; "998.1hPa"; "35.2%"] ["21.5C"; "998.0hPa"; "35.1%"]
           ["21.6C"; "997.9hPa"; "35.0%"]); reflexivity.
Defined.

(** X2.  The sensor transaction completes exactly when the driver object
    is built and the three reads answer with tuples of at least one, two
    and three elements. *)
Theorem sensor_transaction_completes_iff (env : Env) (w : World) :
  (exists w', sensor_transaction env w = (Ok tt, w')) <->
  ((exists u, bme_init env (clock w) = Ok u) /\
   exists v0 v1 v2,
     bme_values env (1 + clock w) = Ok v0 /\
     bme_values env (2 + clock w) = Ok v1 /\
     bme_values env (3 + clock w) = Ok v2 /\
     0 < List.length v0 /\ 1 < List.length v1 /\ 2 < List.length v2).
Proof.
  cbn [Nat.add]. split.
  - intros (w' & Hrun). revert Hrun.
    unfold sensor_transaction, subscript. unfold_monad.
    destruct (bme_init env (clock w)) as [u | e] eqn:Hi;
      cbn [temperature pressure humidity stay_in_loop conn clock trace];
      [| discriminate].
    destruct (bme_values env (S (clock w))) as [v0 | e] eqn:H0;
      cbn [temperature pressure humidity stay_in_loop conn clock trace];
      [| discriminate].
    destruct (nth_error v0 0) as [t |] eqn:Ht;
      cbn [temperature pressure humidity stay_in_loop conn clock trace];
      [| discriminate].
    destruct (bme_values env (S (S (clock w)))) as [v1 | e] eqn:H1;
      cbn [temperature pressure humidity stay_in_loop conn clock trace];
      [| discriminate].
    destruct (nth_error v1 1) as [p |] eqn:Hp;
      cbn [temperature pressure humidity stay_in_loop conn clock trace];
      [| discriminate].
    destruct (bme_values env (S (S (S (clock w))))) as [v2 | e] eqn:H2;
      cbn [temperature pressure humidity stay_in_loop conn clock trace];
      [| discriminate].
    destruct (nth_error v2 2) as [h |] eqn:Hh;
      cbn [temperature pressure humidity stay_in_loop conn clock trace];
      [| discriminate].
    intros _. split; [exists u; reflexivity |].
    exists v0, v1, v2. repeat (split; [reflexivity |]).
    split; [apply nth_error_Some; congruence |].
    split; apply nth_error_Some; congruence.
  - intros ((u & Hi) & v0 & v1 & v2 & H0 & H1 & H2 & L0 & L1 & L2).
    destruct (nth_error v0 0) as [t |] eqn:Ht;
      [| apply nth_error_None in Ht; lia].
    destruct (nth_error v1 1) as [p |] eqn:Hp;
      [| apply nth_error_None in Hp; lia].
    destruct (nth_error v2 2) as [h |] eqn:Hh;
      [| apply nth_error_None in Hh; lia].
    unfold sensor_transaction, subscript. unfold_monad.
    rewrite Hi. cbn [temperature pressure humidity stay_in_loop conn clock trace].
    rewrite H0. cbn [temperature pressure humidity stay_in_loop conn clock trace].
    rewrite Ht. cbn [temperature pressure humidity stay_in_loop conn clock trace].
    rewrite H1. cbn [temperature pressure humidity stay_in_loop conn clock trace].
    rewrite Hp. cbn [temperature pressure humidity stay_in_loop conn clock trace].
    rewrite H2. cbn [temperature pressure humidity stay_in_loop conn clock trace].
    rewrite Hh. cbn [temperature pressure humidity stay_in_loop conn clock trace].
    eexists. reflexivity.
Qed.

(** The sensor calls a refresh makes, and nothing else in its trace. *)
Lemma refresh_weatherData_trace (env : Env) (w : World) :
  exists w' evs,
    refresh_weatherData env w = (Ok tt, w') /\
    trace w' = (trace w ++ evs)%list /\
    forallb sensor_event evs = true /\
    1 <= List.length evs <= 4 /\
    stay_in_loop w' = stay_in_loop w /\
    conn w' = conn w.
Proof.
  unfold refresh_weatherData, sensor_transaction, sensor_unavailable, subscript.
  unfold_monad.
  repeat split_answer;
    do 2 eexists; (split; [reflexivity |]);
    cbn [temperature pressure humidity stay_in_loop conn clock trace];
    (split; [repeat rewrite <- app_assoc; cbn [app]; reflexivity |]);
    (split; [reflexivity |]);
    (split; [cbn [List.length]; lia |]);
    split; reflexivity.
Qed.

(** ** Display *)

(** X3.  A display refresh always returns.  After its console line it
    makes between one and four sensor calls and then exactly three
    [draw_text] calls, at rows 65, 107 and 150 of column 145, whose texts
    are the temperature, pressure and humidity it leaves in the globals,
    each followed by two spaces: the display shows what the page will
    serve. *)
Theorem display_shows_stored_readings (env : Env) (w : World) :
  exists w' evs,
    display_weatherData env w = (Ok tt, w') /\
    trace w' =
      (trace w ++ Print [VStr "updating display..."] :: evs ++
       [ DrawText 65 145 (temperature w' ++ "  ");
         DrawText 107 145 (pressure w' ++ "  ");
         DrawText 150 145 (humidity w' ++ "  ") ])%list /\
    forallb sensor_event evs = true /\
    1 <= List.length evs <= 4 /\
    stay_in_loop w' = stay_in_loop w /\
    conn w' = conn w.
Proof.
  unfold display_weatherData, dprint. unfold_monad.
  match goal with
  | |- context [refresh_weatherData env ?w1] =>
      destruct (refresh_weatherData_trace env w1)
        as (w2 & evs & Hrun & Htr & Hev & Hlen & Hstay & Hconn)
  end.
  rewrite Hrun.
  cbn [temperature pressure humidity stay_in_loop conn clock trace] in *.
  eexists. exists evs.
  split; [reflexivity |].
  cbn [temperature pressure humidity stay_in_loop conn clock trace].
  split.
  { rewrite Htr. repeat rewrite <- app_assoc. reflexivity. }
  repeat split; try assumption; lia.
Qed.

(** ** Network joiner *)

Lemma link_ups_app (a b : list event) : link_ups (a ++ b) = link_ups a + link_ups b.
Proof.
  induction a as [| ev a IH]; simpl; [reflexivity |].
  destruct ev; simpl; try exact IH. destruct up; simpl; rewrite IH; reflexivity.
Qed.

Lemma wait_loop_S (env : Env) (fuel : nat) (wait : Z) :
  wait_loop env (S fuel) wait =
    (s1 <- query (wlan_status env) WlanStatus ;;
     if (s1 >=? 0)%Z then
       s2 <- query (wlan_status env) WlanStatus ;;
       if (s2 <? 3)%Z then
         if (wait <? 10)%Z then
           s3 <- query (wlan_status env) WlanStatus ;;
           print [VStr "waiting for connection... status = "; VInt s3] ;;
           sleep 1 ;;
           wait_loop env fuel (wait + 1)
         else ret tt
       else ret tt
     else ret tt).
Proof. reflexivity. Qed.

(** The wait loop asks for the status only. *)
Lemma wait_loop_quiet (env : Env) (fuel : nat) :
  forall (wait : Z) (w : World),
    exists w' evs,
      wait_loop env fuel wait w = (Ok tt, w') /\
      trace w' = (trace w ++ evs)%list /\
      link_ups evs = 0.
Proof.
  induction fuel as [| fuel IH]; intros wait w.
  - exists w, []. rewrite app_nil_r. repeat split.
  - rewrite wait_loop_S. unfold_monad.
    destruct (wlan_status env (joins (trace w)) (clock w) >=? 0)%Z.
    2:{ do 2 eexists. split; [reflexivity |]. cbn [trace].
        split; reflexivity. }
    simpl. rewrite joins_app. simpl. rewrite app_nil_r.
    destruct (wlan_status env (joins (trace w)) (S (clock w)) <? 3)%Z.
    2:{ do 2 eexists. split; [reflexivity |]. cbn [trace].
        split; [rewrite <- app_assoc; reflexivity | reflexivity]. }
    destruct (wait <? 10)%Z.
    2:{ do 2 eexists. split; [reflexivity |]. cbn [trace].
        split; [rewrite <- app_assoc; reflexivity | reflexivity]. }
    simpl.
    match goal with
    | |- context [wait_loop env fuel (wait + 1) ?w1] =>
        destruct (IH (wait + 1)%Z w1) as (w' & evs & Hrun & Htr & Hq)
    end.
    rewrite Hrun. do 2 eexists. split; [reflexivity |].
    split.
    { rewrite Htr. cbn [trace]. repeat rewrite <- app_assoc. cbn [app]. reflexivity. }
    cbn [link_ups]. exact Hq.
Qed.

(** A try asks [isconnected()] once, and its result is that answer. *)
Lemma connect_attempt_answers (env : Env) (ssid password : string) (w : World) :
  exists w' seg up,
    connect_attempt env ssid password w = (Ok up, w') /\
    trace w' = (trace w ++ seg)%list /\
    link_ups seg = (if up then 1 else 0).
Proof.
  unfold connect_attempt. unfold_monad.
  match goal with
  | |- context [wait_loop env 11 0 ?w1] =>
      destruct (wait_loop_quiet env 11 0 w1) as (w2 & evs & Hrun & Htr & Hq)
  end.
  rewrite Hrun. cbn [temperature pressure humidity stay_in_loop conn clock trace] in *.
  destruct (wlan_isconnected env (joins (trace w2)) (clock w2)) eqn:Hup;
    cbn [temperature pressure humidity stay_in_loop conn clock trace];
    do 3 eexists; (split; [reflexivity |]);
    cbn [temperature pressure humidity stay_in_loop conn clock trace];
    (split; [rewrite Htr; repeat rewrite <- app_assoc; cbn [app]; reflexivity |]);
    cbn [link_ups]; rewrite link_ups_app, Hq; reflexivity.
Qed.

Lemma polls_of_tries (segs : list (list event)) (cs : list (string * string)) :
  Forall2 is_try segs cs -> polls (concat segs) <= 10 * List.length cs.
Proof.
  induction 1 as [| seg c segs cs (_ & Hp & _) _ IH]; simpl; [lia |].
  rewrite polls_app. lia.
Qed.

(** For any radio, the tries made are an initial part of the list given,
    the whole of it when the result is [False]. *)
Lemma run_tries_shape (env : Env) (tries : list (string * string)) :
  forall w,
    exists b w' segs n,
      run_tries env tries w = (Ok b, w') /\
      trace w' = (trace w ++ concat segs)%list /\
      Forall2 is_try segs (firstn n tries) /\
      n <= List.length tries /\
      (b = false -> n = List.length tries) /\
      link_ups (concat segs) = (if b then 1 else 0) /\
      same_data w w'.
Proof.
  induction tries as [| [ssid password] tries IH]; intros w.
  - exists false, w, [], 0. simpl. rewrite app_nil_r.
    repeat split; try reflexivity. constructor.
  - destruct (connect_attempt_spec env ssid password w)
      as (w1 & seg & up & t & Hrun & Htr & Htry & Hd & _ & _).
    destruct (connect_attempt_answers env ssid password w)
      as (w1' & seg' & up' & Hrun' & Htr' & Hups).
    rewrite Hrun in Hrun'. inversion Hrun'; subst up' w1'.
    rewrite Htr in Htr'. apply app_inv_head in Htr'. subst seg'.
    cbn [run_tries]. unfold bind. rewrite Hrun.
    destruct up.
    + exists true, w1, [seg], 1. cbn [firstn concat List.length].
      rewrite app_nil_r.
      split; [reflexivity |]. split; [exact Htr |].
      split; [constructor; [exact Htry | constructor] |].
      split; [lia |]. split; [discriminate |].
      split; [exact Hups | exact Hd].
    + destruct (IH w1) as (b & w' & segs & n & Hrest & Htr2 & Hall & Hn & Hfull & Hu & Hd').
      exists b, w', (seg :: segs), (S n). cbn [firstn concat List.length].
      split; [exact Hrest |].
      split; [rewrite Htr2, Htr, app_assoc; reflexivity |].
      split; [constructor; assumption |].
      split; [lia |].
      split; [intros Hb; rewrite (Hfull Hb); reflexivity |].
      split; [rewrite link_ups_app, Hups, Hu; reflexivity |].
      eapply same_data_trans; eassumption.
Qed.

(** X4.  Whenever [connect_to_wifi] returns, whatever the radio answered
    on the way, the [connect] calls it made are the first [n] entries of
    the schedule (each candidate twice, in order), all of them when the
    result is [False]; it slept at most [1 + 10 * n] seconds, so at most
    [1 + 20] seconds per configured network; the radio answered [True] to
    [isconnected()] exactly once when the result is [True] and never
    otherwise; and the readings and loop locals are untouched. *)
Theorem connect_to_wifi_run_shape
    (env : Env) (nets : list (string * string)) (w w' : World) (b : bool) :
  connect_to_wifi env nets w = (Ok b, w') ->
  exists evs n,
    trace w' = (trace w ++ evs)%list /\
    joins evs = firstn n (schedule nets) /\
    n <= 2 * List.length nets /\
    (b = false -> n = 2 * List.length nets) /\
    polls evs <= 1 + 10 * n /\
    link_ups evs = (if b then 1 else 0) /\
    same_data w w'.
Proof.
  unfold connect_to_wifi. unfold_monad.
  match goal with
  | |- context [for_networks env nets ?w1] =>
      rewrite (for_networks_flat env nets w1);
      destruct (run_tries_shape env (schedule nets) w1)
        as (b0 & w0 & segs & n & Hrun & Htr & Hall & Hn & Hfull & Hu & Hd)
  end.
  rewrite Hrun. intros Heq. inversion Heq; subst b0 w0.
  rewrite schedule_length in Hn, Hfull.
  destruct (joins_of_tries segs _ Hall) as (Hj & Hlen).
  pose proof (polls_of_tries segs _ Hall) as Hp.
  assert (Hfn : List.length (firstn n (schedule nets)) = n).
  { apply firstn_length_le. rewrite schedule_length. exact Hn. }
  rewrite Hfn in Hp.
  exists ([WlanDisconnect; Sleep 1] ++ concat segs)%list, n.
  split.
  { rewrite Htr. cbn [trace]. repeat rewrite <- app_assoc. reflexivity. }
  split; [cbn [app joins]; exact Hj |].
  split; [exact Hn |].
  split; [exact Hfull |].
  split; [cbn [app polls]; lia |].
  split; [cbn [app link_ups]; exact Hu |].
  destruct Hd as (D1 & D2 & D3 & D4 & D5). repeat split; assumption.
Qed.

(** The radio that associates on the fourth [connect] call. *)
Lemma connect_to_wifi_run_shape_witness :
  connect_to_wifi fourth_try_env wifiNetworks initial_world
    = (Ok true, snd (connect_to_wifi fourth_try_env wifiNetworks initial_world)) /\
  exists evs n,
    trace (snd (connect_to_wifi fourth_try_env wifiNetworks initial_world))
      = (trace initial_world ++ evs)%list /\
    joins evs = firstn n (schedule wifiNetworks) /\
    n <= 2 * List.length wifiNetworks /\
    (true = false -> n = 2 * List.length wifiNetworks) /\
    polls evs <= 1 + 10 * n /\
    link_ups evs = 1 /\
    same_data initial_world
      (snd (connect_to_wifi fourth_try_env wifiNetworks initial_world)).
Proof.
  assert (H : connect_to_wifi fourth_try_env wifiNetworks initial_world
              = (Ok true,
                 snd (connect_to_wifi fourth_try_env wifiNetworks initial_world))).
  { vm_compute. reflexivity. }
  split; [exact H |].
  exact (connect_to_wifi_run_shape fourth_try_env wifiNetworks initial_world _ true H).
Defined.

(** While the radio reports a status between 0 and 2 the wait loop runs
    its full course. *)
Lemma wait_loop_full (env : Env) (h : list (string * string)) (fuel : nat) :
  forall (wait : Z) (w : World),
    joins (trace w) = h ->
    (forall t, (0 <= wlan_status env h t < 3)%Z) ->
    (0 <= wait <= 10)%Z ->
    Z.to_nat (10 - wait) < fuel ->
    exists w' evs,
      wait_loop env fuel wait w = (Ok tt, w') /\
      trace w' = (trace w ++ evs)%list /\
      joins evs = [] /\
      polls evs = Z.to_nat (10 - wait) /\
      status_queries evs = 3 * polls evs + 2.
Proof.
  induction fuel as [| fuel IH]; intros wait w Hh Hbusy Hwait Hfuel; [lia |].
  remember (Z.to_nat (10 - wait)) as bound eqn:Hbound.
  rewrite wait_loop_S. unfold_monad. rewrite Hh.
  destruct (Z.geb_spec (wlan_status env h (clock w)) 0) as [_ | Hbad];
    [| specialize (Hbusy (clock w)); lia].
  cbn [temperature pressure humidity stay_in_loop conn clock trace].
  rewrite joins_app, Hh. cbn [joins]. rewrite app_nil_r.
  destruct (Z.ltb_spec (wlan_status env h (S (clock w))) 3) as [_ | Hbad];
    [| specialize (Hbusy (S (clock w))); lia].
  destruct (Z.ltb_spec wait 10) as [Hlt | Hge];
    cbn [temperature pressure humidity stay_in_loop conn clock trace].
  - match goal with
    | |- context [wait_loop env fuel (wait + 1) ?w1] =>
        destruct (IH (wait + 1)%Z w1) as (w' & evs & Hrun & Htr & Hj & Hp & Hs)
    end.
    { cbn [trace]. repeat rewrite joins_app. cbn [joins].
      repeat rewrite app_nil_r. exact Hh. }
    { exact Hbusy. }
    { lia. }
    { lia. }
    rewrite Hrun. do 2 eexists. split; [reflexivity |].
    split.
    { rewrite Htr. cbn [trace]. repeat rewrite <- app_assoc. cbn [app]. reflexivity. }
    cbn [joins polls status_queries].
    split; [exact Hj |]. split; lia.
  - do 2 eexists. split; [reflexivity |]. cbn [trace].
    split; [rewrite <- app_assoc; reflexivity |].
    cbn [app joins polls status_queries]. split; [reflexivity |]. split; lia.
Qed.

(** X5.  A try on a radio that keeps reporting a status between 0 and 2
    (still joining) waits the full ten seconds: exactly 10 polls, and 32
    status queries in the wait loop, whatever the answer to
    [isconnected()] then is. *)
Theorem stalled_try_waits_ten_seconds
    (env : Env) (ssid password : string) (w : World) :
  (forall t,
     (0 <= wlan_status env (joins (trace w) ++ [(ssid, password)])%list t < 3)%Z) ->
  exists w' seg up,
    connect_attempt env ssid password w = (Ok up, w') /\
    trace w' = (trace w ++ seg)%list /\
    joins seg = [(ssid, password)] /\
    polls seg = 10 /\
    status_queries seg = (if up then 32 else 33).
Proof.
  intros Hbusy. unfold connect_attempt. unfold_monad.
  match goal with
  | |- context [wait_loop env 11 0 ?w1] =>
      destruct (wait_loop_full env (joins (trace w) ++ [(ssid, password)])%list
                  11 0 w1)
        as (w2 & evs & Hrun & Htr & Hj & Hp & Hs)
  end.
  { cbn [trace]. repeat rewrite joins_app. cbn [joins].
    rewrite app_nil_r. reflexivity. }
  { exact Hbusy. }
  { lia. }
  { change (Z.to_nat (10 - 0)) with 10. lia. }
  change (Z.to_nat (10 - 0)) with 10 in Hp.
  rewrite Hrun. cbn [temperature pressure humidity stay_in_loop conn clock trace] in *.
  destruct (wlan_isconnected env (joins (trace w2)) (clock w2));
    cbn [temperature pressure humidity stay_in_loop conn clock trace];
    do 3 eexists; (split; [reflexivity |]);
    cbn [temperature pressure humidity stay_in_loop conn clock trace];
    (split; [rewrite Htr; repeat rewrite <- app_assoc; cbn [app]; reflexivity |]);
    cbn [joins polls status_queries];
    rewrite joins_app, polls_app, status_queries_app;
    cbn [joins polls status_queries]; rewrite Hj, Hp, Hs, Hp;
    repeat split; lia.
Qed.

Lemma stalled_try_waits_ten_seconds_witness :
  (forall t,
     (0 <= wlan_status bench_env
             (joins (trace initial_world) ++ [("TLA Student", "yyyy")])%list t < 3)%Z) /\
  exists w' seg up,
    connect_attempt bench_env "TLA Student" "yyyy" initial_world = (Ok up, w') /\
    trace w' = (trace initial_world ++ seg)%list /\
    joins seg = [("TLA Student", "yyyy")] /\
    polls seg = 10 /\
    status_queries seg = (if up then 32 else 33).
Proof.
  assert (H : forall t,
     (0 <= wlan_status bench_env
             (joins (trace initial_world) ++ [("TLA Student", "yyyy")])%list t < 3)%Z).
  { intros t. simpl. lia. }
  split; [exact H |].
  apply (stalled_try_waits_ten_seconds bench_env "TLA Student" "yyyy" initial_world H).
Defined.

(** X6.  A try on a radio whose first status answer is a failure code
    (negative), or whose first answer is non-negative and second answer
    is 3 or more, does not wait at all: no poll, at most three status
    queries, and the result is what [isconnected()] answers right after
    them. *)
Theorem settled_radio_is_not_waited_for
    (env : Env) (ssid password : string) (w : World) :
  ((wlan_status env (joins (trace w) ++ [(ssid, password)])%list (clock w) < 0)%Z \/
   ((0 <= wlan_status env (joins (trace w) ++ [(ssid, password)])%list (clock w))%Z /\
    (3 <= wlan_status env (joins (trace w) ++ [(ssid, password)])%list (1 + clock w))%Z)) ->
  exists w' seg up t,
    connect_attempt env ssid password w = (Ok up, w') /\
    trace w' = (trace w ++ seg)%list /\
    joins seg = [(ssid, password)] /\
    polls seg = 0 /\
    status_queries seg <= 3 /\
    clock w <  t <= 2 + clock w /\
    up = wlan_isconnected env (joins (trace w) ++ [(ssid, password)])%list t.
Proof.
  intros Hsettled. cbn [Nat.add] in Hsettled.
  unfold connect_attempt. unfold_monad.
  change 11 with (S 10). rewrite wait_loop_S. unfold_monad.
  repeat rewrite joins_app. cbn [joins]. repeat rewrite app_nil_r.
  set (h := (joins (trace w) ++ [(ssid, password)])%list) in *.
  destruct (Z.geb_spec (wlan_status env h (clock w)) 0) as [Hge | Hneg];
    cbn [temperature pressure humidity stay_in_loop conn clock trace].
  - repeat rewrite joins_app. cbn [joins]. repeat rewrite app_nil_r. fold h.
    destruct (Z.ltb_spec (wlan_status env h (S (clock w))) 3) as [Hlt | Hfin];
      [lia |].
    cbn [temperature pressure humidity stay_in_loop conn clock trace].
    repeat rewrite joins_app. cbn [joins]. repeat rewrite app_nil_r. fold h.
    destruct (wlan_isconnected env h (S (S (clock w)))) eqn:Hup;
      cbn [temperature pressure humidity stay_in_loop conn clock trace];
      do 3 eexists; exists (S (S (clock w))); (split; [reflexivity |]);
      cbn [temperature pressure humidity stay_in_loop conn clock trace];
      (split; [repeat rewrite <- app_assoc; cbn [app]; reflexivity |]);
      cbn [joins polls status_queries];
      repeat split; try lia; symmetry; exact Hup.
  - repeat rewrite joins_app. cbn [joins]. repeat rewrite app_nil_r. fold h.
    destruct (wlan_isconnected env h (S (clock w))) eqn:Hup;
      cbn [temperature pressure humidity stay_in_loop conn clock trace];
      do 3 eexists; exists (S (clock w)); (split; [reflexivity |]);
      cbn [temperature pressure humidity stay_in_loop conn clock trace];
      (split; [repeat rewrite <- app_assoc; cbn [app]; reflexivity |]);
      cbn [joins polls status_queries];
      repeat split; try lia; symmetry; exact Hup.
Qed.

Lemma settled_radio_is_not_waited_for_witness :
  ((wlan_status refusing_env
      (joins (trace initial_world) ++ [("TLA Student", "yyyy")])%list
      (clock initial_world) < 0)%Z \/
   ((0 <= wlan_status refusing_env
            (joins (trace initial_world) ++ [("TLA Student", "yyyy")])%list
            (clock initial_world))%Z /\
    (3 <= wlan_status refusing_env
            (joins (trace initial_world) ++ [("TLA Student", "yyyy")])%list
            (1 + clock initial_world))%Z)) /\
  exists w' seg up t,
    connect_attempt refusing_env "TLA Student" "yyyy" initial_world = (Ok up, w') /\
    trace w' = (trace initial_world ++ seg)%list /\
    joins seg = [("TLA Student", "yyyy")] /\
    polls seg = 0 /\
    status_queries seg <= 3 /\
    clock initial_world <  t <= 2 + clock initial_world /\
    up = wlan_isconnected refusing_env
           (joins (trace initial_world) ++ [("TLA Student", "yyyy")])%list t.
Proof.
  assert (H : (wlan_status refusing_env
      (joins (trace initial_world) ++ [("TLA Student", "yyyy")])%list
      (clock initial_world) < 0)%Z \/
   ((0 <= wlan_status refusing_env
            (joins (trace initial_world) ++ [("TLA Student", "yyyy")])%list
            (clock initial_world))%Z /\
    (3 <= wlan_status refusing_env
            (joins (trace initial_world) ++ [("TLA Student", "yyyy")])%list
            (1 + clock initial_world))%Z)).
  { left. simpl. lia. }
  split; [exact H |].
  apply (settled_radio_is_not_waited_for refusing_env "TLA Student" "yyyy"
           initial_world H).
Defined.

(** ** Service loop, over many passes *)

Lemma serving_is_loop_event (page : string) (evs : list event) :
  Forall (serving_event page) evs -> forallb loop_event evs = true.
Proof.
  induction 1 as [| ev evs Hev _ IH]; simpl; [reflexivity |].
  rewrite IH. destruct ev; simpl in *; try reflexivity; contradiction.
Qed.

Lemma handler_is_loop_event (evs : list event) :
  forallb handler_event evs = true -> forallb loop_event evs = true.
Proof.
  induction evs as [| ev evs IH]; simpl; [reflexivity |].
  intros H. apply andb_prop in H. destruct H as [H1 H2].
  rewrite (IH H2). destruct ev; simpl in *; try discriminate; reflexivity.
Qed.

Lemma loop_is_running_event (evs : list event) :
  forallb loop_event evs = true -> forallb running_event evs = true.
Proof.
  induction evs as [| ev evs IH]; simpl; [reflexivity |].
  intros H. apply andb_prop in H. destruct H as [H1 H2].
  rewrite (IH H2). destruct ev; simpl in *; try discriminate; reflexivity.
Qed.

(** One pass: its events are loop events, and it clears [stay_in_loop]
    only through the interrupt clause, whose two console lines then end
    the pass. *)
Lemma loop_iteration_pass (env : Env) (w : World) :
  exists r w' evs,
    loop_iteration env w = (r, w') /\
    trace w' = (trace w ++ evs)%list /\
    forallb loop_event evs = true /\
    (stay_in_loop w' = stay_in_loop w \/
     (r = Ok tt /\ stay_in_loop w' = false /\
      exists pre,
        evs = (pre ++ [Print [VStr "KeyboardInterrupt"];
                       Print [VStr "connection closed"]])%list)).
Proof.
  destruct (serve_connection_frame env w)
    as (r1 & w1 & evs1 & Hrun & Htr1 & Hev1 & _ & Hstay1 & _).
  unfold loop_iteration, try_except. rewrite Hrun.
  pose proof (serving_is_loop_event _ _ Hev1) as Hl1.
  destruct r1 as [[] | e].
  - exists (Ok tt), w1, evs1.
    split; [reflexivity |]. split; [exact Htr1 |]. split; [exact Hl1 |].
    left. exact Hstay1.
  - destruct (on_exception_frame env e w1)
      as (r2 & w' & evs2 & Hh & Htr2 & Hev2 & _ & _ & Hkeep & Hki & _).
    exists r2, w', (evs1 ++ evs2)%list.
    split; [exact Hh |].
    split; [rewrite Htr2, Htr1, app_assoc; reflexivity |].
    split; [rewrite forallb_app, Hl1; apply handler_is_loop_event; exact Hev2 |].
    destruct (exn_eq_dec e KeyboardInterrupt) as [-> | Hne].
    + right. destruct (Hki eq_refl) as (-> & Hstop & _ & ->).
      split; [reflexivity |]. split; [exact Hstop |].
      exists evs1. reflexivity.
    + left. rewrite (Hkeep Hne). exact Hstay1.
Qed.

(** The whole loop, by induction on the number of passes. *)
Lemma service_loop_run (env : Env) (fuel : nat) :
  forall w r w',
    stay_in_loop w = true ->
    service_loop env fuel w = Some (r, w') ->
    exists evs,
      trace w' = (trace w ++ evs)%list /\
      forallb loop_event evs = true /\
      (r = Ok tt ->
       stay_in_loop w' = false /\
       exists pre,
         evs = (pre ++ [Print [VStr "KeyboardInterrupt"];
                        Print [VStr "connection closed"]])%list).
Proof.
  induction fuel as [| fuel IH]; intros w r w' Hstay Hrun.
  - cbn [service_loop] in Hrun. rewrite Hstay in Hrun. discriminate Hrun.
  - cbn [service_loop] in Hrun. rewrite Hstay in Hrun.
    destruct (loop_iteration_pass env w)
      as (r1 & w1 & evs1 & Hit & Htr1 & Hev1 & Hcase).
    rewrite Hit in Hrun.
    destruct r1 as [[] | e].
    + destruct Hcase as [Hsame | (_ & Hstop & pre & Hpre)].
      * destruct (IH w1 r w') as (evs & Htr & Hev & Hend).
        { congruence. }
        { exact Hrun. }
        exists (evs1 ++ evs)%list.
        split; [rewrite Htr, Htr1, app_assoc; reflexivity |].
        split; [rewrite forallb_app, Hev1, Hev; reflexivity |].
        intros Hr. destruct (Hend Hr) as (Hs & pre & Hpre).
        split; [exact Hs |].
        exists (evs1 ++ pre)%list. rewrite Hpre, app_assoc. reflexivity.
      * rewrite (service_loop_stopped env fuel w1 Hstop) in Hrun.
        inversion Hrun; subst r w'.
        exists evs1.
        split; [exact Htr1 |]. split; [exact Hev1 |].
        intros _. split; [exact Hstop |]. exists pre. exact Hpre.
    + inversion Hrun; subst r w'.
      exists evs1.
      split; [exact Htr1 |]. split; [exact Hev1 |].
      intros Hr. discriminate Hr.
Qed.

(** X7.  The service loop returns normally only through the interrupt
    clause: when it does, [stay_in_loop] is cleared and the last two
    things in the trace are the console lines "KeyboardInterrupt" and
    "connection closed"; everything before them is console output,
    socket traffic on accepted connections, sensor calls and drawing. *)
Theorem service_loop_ends_on_interrupt_only
    (env : Env) (fuel : nat) (w w' : World) :
  stay_in_loop w = true ->
  service_loop env fuel w = Some (Ok tt, w') ->
  stay_in_loop w' = false /\
  exists pre,
    trace w' = (trace w ++ pre ++ [Print [VStr "KeyboardInterrupt"];
                                    Print [VStr "connection closed"]])%list /\
    forallb loop_event pre = true.
Proof.
  intros Hstay Hrun.
  destruct (service_loop_run env fuel w (Ok tt) w' Hstay Hrun)
    as (evs & Htr & Hev & Hend).
  destruct (Hend eq_refl) as (Hstop & pre & Hpre).
  split; [exact Hstop |].
  exists pre. split; [rewrite Htr, Hpre; reflexivity |].
  rewrite Hpre, forallb_app in Hev. apply andb_prop in Hev. exact (proj1 Hev).
Qed.

Lemma service_loop_ends_on_interrupt_only_witness :
  stay_in_loop serving_world = true /\
  service_loop interrupted_env 1 serving_world
    = Some (Ok tt, snd (loop_iteration interrupted_env serving_world)) /\
  stay_in_loop (snd (loop_iteration interrupted_env serving_world)) = false /\
  exists pre,
    trace (snd (loop_iteration interrupted_env serving_world))
      = (trace serving_world ++ pre ++ [Print [VStr "KeyboardInterrupt"];
                                        Print [VStr "connection closed"]])%list /\
    forallb loop_event pre = true.
Proof.
  split; [reflexivity |].
  split; [vm_compute; reflexivity |].
  apply (service_loop_ends_on_interrupt_only interrupted_env 1 serving_world).
  - reflexivity.
  - vm_compute. reflexivity.
Defined.

Lemma refresh_is_loop_event (evs : list event) :
  forallb refresh_event evs = true -> forallb loop_event evs = true.
Proof.
  intros H. apply handler_is_loop_event, refresh_is_handler_event. exact H.
Qed.

(** The launch: a display refresh, then the listening socket is set up
    and [stay_in_loop] is set. *)
Lemma launch_server_spec (env : Env) (w : World) :
  exists w1 evs,
    launch_server env w = (Ok tt, w1) /\
    trace w1 = (trace w ++ evs)%list /\
    forallb running_event evs = true /\
    In (ServerBind 80) evs /\
    stay_in_loop w1 = true /\
    conn w1 = conn w /\
    refreshed env w1.
Proof.
  unfold launch_server.
  destruct (display_weatherData_spec env w)
    as (w1 & evs & Hrun & Htr & Hev & _ & _ & Hconn).
  assert (Href : refreshed env w1).
  { revert Hrun. unfold display_weatherData, dprint. unfold_monad.
    match goal with
    | |- context [refresh_weatherData env ?w0] =>
        destruct (refresh_weatherData_cases env w0)
          as (w2 & Hr & _ & _ & _ & Hcase)
    end.
    rewrite Hr. intros Heq. inversion Heq; subst w1.
    destruct Hcase as [(_ & Hf) | (e & w3 & _ & Hs)].
    - right. eexists. exact Hf.
    - left. exact Hs. }
  unfold bind at 1. rewrite Hrun. unfold_monad.
  do 2 eexists. split; [reflexivity |].
  cbn [temperature pressure humidity stay_in_loop conn clock trace].
  split.
  { rewrite Htr. repeat rewrite <- app_assoc. cbn [app]. reflexivity. }
  split.
  { cbn [forallb running_event loop_event andb].
    rewrite forallb_app. cbn [forallb running_event loop_event andb].
    rewrite (loop_is_running_event _ (refresh_is_loop_event _ Hev)). reflexivity. }
  split.
  { right. apply in_or_app. right. cbn [In]. tauto. }
  split; [reflexivity |].
  split; [exact Hconn |].
  destruct Href as [(A & B & C) | (w0 & v0 & v1 & v2 & F)].
  - left. repeat split; assumption.
  - right. exists w0, v0, v1, v2. exact F.
Qed.

(** The two ways [run_display_and_webserver] ends. *)
Lemma run_display_and_webserver_trace
    (env : Env) (fuel : nat) (w : World) (r : result unit) (w' : World) :
  run_display_and_webserver env fuel w = Some (r, w') ->
  exists evs,
    forallb running_event evs = true /\
    In (ServerBind 80) evs /\
    match r with
    | Ok _ => trace w' = (trace w ++ evs ++ interrupt_shutdown_events)%list
    | Raise _ => trace w' = (trace w ++ evs)%list
    end.
Proof.
  unfold run_display_and_webserver. intros Hrun.
  destruct (launch_server_spec env w)
    as (w1 & evs1 & Hl & Htr1 & Hev1 & Hbind & Hstay1 & _ & _).
  rewrite Hl in Hrun.
  destruct (service_loop env fuel w1) as [[[[] | e] w2] |] eqn:Hloop;
    [| | discriminate Hrun].
  - destruct (service_loop_run env fuel w1 (Ok tt) w2 Hstay1 Hloop)
      as (evs2 & Htr2 & Hev2 & Hend).
    destruct (Hend eq_refl) as (_ & pre & Hpre).
    rewrite shutdown_spec in Hrun. inversion Hrun; subst r w'.
    exists (evs1 ++ pre)%list. cbn [trace].
    rewrite Hpre, forallb_app in Hev2. apply andb_prop in Hev2.
    split; [rewrite forallb_app, Hev1; apply loop_is_running_event; exact (proj1 Hev2) |].
    split; [apply in_or_app; left; exact Hbind |].
    rewrite Htr2, Htr1, Hpre. unfold interrupt_shutdown_events.
    repeat rewrite <- app_assoc. reflexivity.
  - inversion Hrun; subst r w2.
    destruct (service_loop_run env fuel w1 (Raise e) w' Hstay1 Hloop)
      as (evs2 & Htr2 & Hev2 & _).
    exists (evs1 ++ evs2)%list.
    split; [rewrite forallb_app, Hev1; apply loop_is_running_event; exact Hev2 |].
    split; [apply in_or_app; left; exact Hbind |].
    rewrite Htr2, Htr1, app_assoc. reflexivity.
Qed.

(** X8.  When [run_display_and_webserver] returns normally, its trace is
    the launch and the passes of the loop, in which the listening socket
    is never closed and the radio never touched, followed by exactly the
    interrupt lines and the shutdown steps: the listening socket is
    closed once, then the network is disconnected, then the radio is
    switched off, and nothing is served after that. *)
Theorem webserver_shuts_down_once_at_the_end
    (env : Env) (fuel : nat) (w w' : World) :
  run_display_and_webserver env fuel w = Some (Ok tt, w') ->
  exists evs,
    trace w' = (trace w ++ evs ++ interrupt_shutdown_events)%list /\
    forallb running_event evs = true.
Proof.
  intros Hrun.
  destruct (run_display_and_webserver_trace env fuel w (Ok tt) w' Hrun)
    as (evs & Hev & _ & Htr).
  exists evs. split; assumption.
Qed.

Lemma webserver_shuts_down_once_at_the_end_witness :
  exists w',
    run_display_and_webserver interrupted_env 1 initial_world = Some (Ok tt, w') /\
    exists evs,
      trace w' = (trace initial_world ++ evs ++ interrupt_shutdown_events)%list /\
      forallb running_event evs = true.
Proof.
  eexists. split; [vm_compute; reflexivity |].
  apply (webserver_shuts_down_once_at_the_end interrupted_env 1 initial_world).
  vm_compute. reflexivity.
Defined.

(** X9.  When an exception leaves the service loop,
    [run_display_and_webserver] raises it without running any of its
    shutdown steps: the trace up to there has no close of the listening
    socket, no network disconnect and no radio power-down. *)
Theorem escaping_exception_skips_shutdown
    (env : Env) (fuel : nat) (w w' : World) (e : exn) :
  run_display_and_webserver env fuel w = Some (Raise e, w') ->
  exists evs,
    trace w' = (trace w ++ evs)%list /\
    forallb running_event evs = true /\
    ~ In ServerClose evs /\
    ~ In WlanDisconnect evs /\
    ~ In (WlanActive false) evs.
Proof.
  intros Hrun.
  destruct (run_display_and_webserver_trace env fuel w (Raise e) w' Hrun)
    as (evs & Hall & _ & Htr).
  exists evs.
  split; [exact Htr |].
  split; [exact Hall |].
  rewrite forallb_forall in Hall.
  repeat split; intros Hin; specialize (Hall _ Hin); discriminate Hall.
Qed.

(** The very first [accept] fails for lack of memory. *)
Lemma escaping_exception_skips_shutdown_witness :
  exists w',
    run_display_and_webserver starved_env 1 initial_world
      = Some (Raise (Exception_ "NameError"), w') /\
    exists evs,
      trace w' = (trace initial_world ++ evs)%list /\
      forallb running_event evs = true /\
      ~ In ServerClose evs /\
      ~ In WlanDisconnect evs /\
      ~ In (WlanActive false) evs.
Proof.
  eexists. split; [vm_compute; reflexivity |].
  apply (escaping_exception_skips_shutdown starved_env 1 initial_world _
           (Exception_ "NameError")).
  vm_compute. reflexivity.
Defined.

(** X10.  When [accept] raises an exception that is not an OSError, the
    handler's [conn.close()] acts on whatever [conn] holds.  Before any
    connection was accepted the name is unbound: the pass raises
    NameError in place of the original exception and the loop ends with
    it.  After an earlier connection it is that old connection that is
    closed again. *)
Theorem failed_accept_closes_the_wrong_connection
    (env : Env) (w : World) (name : string) (fuel : nat) :
  stay_in_loop w = true ->
  srv_accept env (clock w) = Raise (Exception_ name) ->
  match conn w with
  | None =>
      exists w',
        loop_iteration env w = (Raise (Exception_ "NameError"), w') /\
        service_loop env (S fuel) w = Some (Raise (Exception_ "NameError"), w') /\
        trace w' =
          (trace w ++
           [ Print [VStr "waiting for connection..."];
             ServerAccept;
             Print [VStr "Exception"; VExn (Exception_ name)] ])%list
  | Some old =>
      conn_close env (1 + clock w) = Ok tt ->
      exists w',
        loop_iteration env w = (Ok tt, w') /\
        trace w' =
          (trace w ++
           [ Print [VStr "waiting for connection..."];
             ServerAccept;
             Print [VStr "Exception"; VExn (Exception_ name)];
             ConnClose old;
             Print [VStr "connection closed"] ])%list
  end.
Proof.
  intros Hstay Hacc.
  destruct (conn w) as [old |] eqn:Hconn.
  - intros Hclose. cbn [Nat.add] in Hclose.
    unfold loop_iteration, serve_connection, on_exception, close_conn.
    unfold_monad. rewrite Hacc.
    cbn [temperature pressure humidity stay_in_loop conn clock trace].
    rewrite Hconn.
    cbn [temperature pressure humidity stay_in_loop conn clock trace].
    rewrite Hclose.
    eexists. split; [reflexivity |].
    cbn [trace]. repeat rewrite <- app_assoc. reflexivity.
  - assert (Hit : exists w',
               loop_iteration env w = (Raise (Exception_ "NameError"), w') /\
               trace w' =
                 (trace w ++
                  [ Print [VStr "waiting for connection..."];
                    ServerAccept;
                    Print [VStr "Exception"; VExn (Exception_ name)] ])%list).
    { unfold loop_iteration, serve_connection, on_exception, close_conn.
      unfold_monad. rewrite Hacc.
      cbn [temperature pressure humidity stay_in_loop conn clock trace].
      rewrite Hconn.
      eexists. split; [reflexivity |].
      cbn [trace]. repeat rewrite <- app_assoc. reflexivity. }
    destruct Hit as (w' & Hit & Htr).
    exists w'. split; [exact Hit |]. split; [| exact Htr].
    cbn [service_loop]. rewrite Hstay, Hit. reflexivity.
Qed.

Lemma failed_accept_closes_the_wrong_connection_witness :
  stay_in_loop serving_world = true /\
  srv_accept starved_env (clock serving_world) = Raise (Exception_ "MemoryError") /\
  exists w',
    loop_iteration starved_env serving_world = (Raise (Exception_ "NameError"), w') /\
    service_loop starved_env 1 serving_world
      = Some (Raise (Exception_ "NameError"), w') /\
    trace w' =
      (trace serving_world ++
       [ Print [VStr "waiting for connection..."];
         ServerAccept;
         Print [VStr "Exception"; VExn (Exception_ "MemoryError")] ])%list.
Proof.
  split; [reflexivity |].
  split; [reflexivity |].
  apply (failed_accept_closes_the_wrong_connection starved_env serving_world
           "MemoryError" 0); reflexivity.
Defined.

Lemma refresh_events_close_nothing (evs : list event) :
  forallb refresh_event evs = true -> existsb is_conn_close evs = false.
Proof.
  induction evs as [| ev evs IH]; simpl; [reflexivity |].
  intros H. apply andb_prop in H. destruct H as [H1 H2].
  rewrite (IH H2). destruct ev; simpl in *; try discriminate; reflexivity.
Qed.

(** X11.  When writing the header on an accepted connection raises an
    OSError, the pass returns normally and the loop goes on, but the
    connection is never closed: the pass has no [close] call at all and
    [conn] still holds the connection.  With errno 110 the pass ends in a
    display refresh, with any other errno in a console line. *)
Theorem oserror_leaves_connection_open
    (env : Env) (w : World) (c : Conn) (addr : string) (errno : Z) :
  srv_accept env (clock w) = Ok (c, addr) ->
  conn_settimeout env (1 + clock w) = Ok tt ->
  conn_send env (3 + clock w) = Raise (OSError errno) ->
  exists w' evs,
    loop_iteration env w = (Ok tt, w') /\
    trace w' = (trace w ++ evs)%list /\
    existsb is_conn_close evs = false /\
    conn w' = Some c /\
    stay_in_loop w' = stay_in_loop w /\
    (errno = 110%Z -> In SensorInit evs) /\
    (errno <> 110%Z -> In (Print [VStr "OSError"; VExn (OSError errno)]) evs).
Proof.
  intros Hacc Hto Hsend. cbn [Nat.add] in Hto, Hsend.
  unfold loop_iteration, serve_connection, receive_request. unfold_monad.
  rewrite Hacc. cbn [temperature pressure humidity stay_in_loop conn clock trace fst snd].
  rewrite Hto. cbn [temperature pressure humidity stay_in_loop conn clock trace fst snd].
  destruct (conn_recv env (S (S (clock w)))) as [request | e];
    cbn [temperature pressure humidity stay_in_loop conn clock trace fst snd];
    rewrite Hsend;
    cbn [temperature pressure humidity stay_in_loop conn clock trace fst snd on_exception];
    (destruct (Z.eqb_spec errno 110) as [-> | Hne];
     [ match goal with
       | |- context [display_weatherData env ?w1] =>
           destruct (display_weatherData_spec env w1)
             as (w' & evs & Hrun & Htr & Hev & Hin & Hstay & Hconn)
       end;
       rewrite Hrun;
       cbn [temperature pressure humidity stay_in_loop conn clock trace] in *;
       do 2 eexists; (split; [reflexivity |]);
       (split;
        [rewrite Htr; repeat rewrite <- app_assoc; cbn [app]; reflexivity |]);
       (split;
        [cbn [existsb is_conn_close orb];
         apply refresh_events_close_nothing; exact Hev |]);
       (split; [exact Hconn |]);
       (split; [exact Hstay |]);
       (split; [intros _; cbn [In]; tauto | intros F; contradiction F; reflexivity])
     | unfold_monad;
       do 2 eexists; (split; [reflexivity |]);
       cbn [temperature pressure humidity stay_in_loop conn clock trace];
       (split; [repeat rewrite <- app_assoc; cbn [app]; reflexivity |]);
       (split; [reflexivity |]);
       (split; [reflexivity |]);
       (split; [reflexivity |]);
       (split; [intros F; contradiction (Hne F) | intros _; cbn [In]; tauto]) ]).
Qed.

Lemma oserror_leaves_connection_open_witness :
  srv_accept reset_env (clock serving_world) = Ok (1, "('192.168.4.2', 51234)") /\
  conn_settimeout reset_env (1 + clock serving_world) = Ok tt /\
  conn_send reset_env (3 + clock serving_world) = Raise (OSError 104) /\
  exists w' evs,
    loop_iteration reset_env serving_world = (Ok tt, w') /\
    trace w' = (trace serving_world ++ evs)%list /\
    existsb is_conn_close evs = false /\
    conn w' = Some 1 /\
    stay_in_loop w' = stay_in_loop serving_world /\
    (104%Z = 110%Z -> In SensorInit evs) /\
    (104%Z <> 110%Z -> In (Print [VStr "OSError"; VExn (OSError 104)]) evs).
Proof.
  repeat (split; [reflexivity |]).
  apply (oserror_leaves_connection_open reset_env serving_world 1
           "('192.168.4.2', 51234)" 104); reflexivity.
Defined.

Lemma refreshed_same_readings (env : Env) (w w' : World) :
  same_readings w w' -> refreshed env w -> refreshed env w'.
Proof.
  intros (Ht & Hp & Hh) [(A & B & C) | (w0 & v0 & v1 & v2 & F1 & F2 & F3 & F4 & F5 & F6)].
  - left. repeat split; congruence.
  - right. exists w0, v0, v1, v2. rewrite Ht, Hp, Hh. repeat split; assumption.
Qed.

Lemma display_weatherData_refreshes (env : Env) (w : World) :
  exists w', display_weatherData env w = (Ok tt, w') /\ refreshed env w'.
Proof.
  unfold display_weatherData, dprint. unfold_monad.
  match goal with
  | |- context [refresh_weatherData env ?w1] =>
      destruct (refresh_weatherData_cases env w1)
        as (w2 & Hrun & _ & _ & _ & [(_ & Hf) | (e & w3 & _ & Hs)])
  end;
    rewrite Hrun; eexists; (split; [reflexivity |]).
  - apply (refreshed_same_readings env w2); [repeat split |].
    right. eexists. exact Hf.
  - apply (refreshed_same_readings env w2); [repeat split |].
    left. exact Hs.
Qed.

Lemma loop_iteration_keeps_refreshed (env : Env) (w : World) (r : result unit) (w' : World) :
  refreshed env w -> loop_iteration env w = (r, w') -> refreshed env w'.
Proof.
  intros Hs Hit. unfold loop_iteration, try_except in Hit.
  destruct (serve_connection_frame env w)
    as (r1 & w1 & evs & Hrun & _ & _ & Hread & _).
  rewrite Hrun in Hit.
  assert (Hs1 : refreshed env w1) by (apply (refreshed_same_readings env w); assumption).
  destruct r1 as [[] | e].
  - inversion Hit; subst. exact Hs1.
  - destruct (exn_eq_dec e (OSError 110)) as [-> | Hne].
    + cbn [on_exception Z.eqb Pos.eqb] in Hit.
      destruct (display_weatherData_refreshes env w1) as (w2 & Hd & Hs2).
      rewrite Hd in Hit. inversion Hit; subst. exact Hs2.
    + destruct (on_exception_frame env e w1)
        as (r2 & w2 & evs2 & Hh & _ & _ & _ & Hkeep & _).
      rewrite Hh in Hit. inversion Hit; subst.
      apply (refreshed_same_readings env w1); [apply (Hkeep Hne) | exact Hs1].
Qed.

(** X12.  [run_display_and_webserver] refreshes the display before it
    opens the listening socket, so in every pass of its loop the Reading
    Set holds what a refresh left (three sentinels or the values of a
    complete transaction), and every page handed to [sendall] in the pass
    is the page of exactly those readings: no page is built from the
    empty strings the globals start with. *)
Theorem served_pages_show_refreshed_readings
    (env : Env) (w0 w1 w : World) :
  launch_server env w0 = (Ok tt, w1) ->
  passes env w1 w ->
  refreshed env w /\
  exists r w' evs,
    loop_iteration env w = (r, w') /\
    trace w' = (trace w ++ evs)%list /\
    forall c data, In (ConnSendAll c data) evs -> data = web_page w.
Proof.
  intros Hl Hp.
  assert (Href : refreshed env w).
  { induction Hp as [| wa wb _ IH Hit].
    - destruct (launch_server_spec env w0) as (w1' & evs & Hl' & _ & _ & _ & _ & _ & Hr).
      rewrite Hl in Hl'. inversion Hl'; subst w1'. exact Hr.
    - exact (loop_iteration_keeps_refreshed env wa (Ok tt) wb IH Hit). }
  split; [exact Href |].
  destruct (serve_connection_frame env w)
    as (r1 & wa & evs1 & Hrun & Htr1 & Hev1 & _).
  destruct (serving_events_facts _ _ Hev1) as (_ & _ & Hpage).
  unfold loop_iteration, try_except. rewrite Hrun.
  destruct r1 as [[] | e].
  - exists (Ok tt), wa, evs1. split; [reflexivity |]. split; [exact Htr1 |].
    exact Hpage.
  - destruct (on_exception_frame env e wa)
      as (r2 & w' & evs2 & Hh & Htr2 & Hev2 & _).
    exists r2, w', (evs1 ++ evs2)%list.
    split; [exact Hh |].
    split; [rewrite Htr2, Htr1, app_assoc; reflexivity |].
    intros c data Hin. apply in_app_or in Hin. destruct Hin as [Hin | Hin].
    + exact (Hpage c data Hin).
    + rewrite forallb_forall in Hev2. specialize (Hev2 _ Hin). discriminate Hev2.
Qed.

(** On the bench, after the launch and one idle timeout. *)
Lemma served_pages_show_refreshed_readings_witness :
  launch_server idle_env initial_world
    = (Ok tt, snd (launch_server idle_env initial_world)) /\
  passes idle_env (snd (launch_server idle_env initial_world))
    (snd (loop_iteration idle_env (snd (launch_server idle_env initial_world)))) /\
  refreshed idle_env
    (snd (loop_iteration idle_env (snd (launch_server idle_env initial_world)))) /\
  exists r w' evs,
    loop_iteration idle_env
      (snd (loop_iteration idle_env (snd (launch_server idle_env initial_world))))
      = (r, w') /\
    trace w' =
      (trace (snd (loop_iteration idle_env (snd (launch_server idle_env initial_world))))
       ++ evs)%list /\
    forall c data,
      In (ConnSendAll c data) evs ->
      data = web_page
               (snd (loop_iteration idle_env (snd (launch_server idle_env initial_world)))).
Proof.
  assert (Hl : launch_server idle_env initial_world
               = (Ok tt, snd (launch_server idle_env initial_world))).
  { vm_compute. reflexivity. }
  assert (Hp : passes idle_env (snd (launch_server idle_env initial_world))
    (snd (loop_iteration idle_env (snd (launch_server idle_env initial_world))))).
  { apply (passes_more idle_env _ (snd (launch_server idle_env initial_world))).
    - apply passes_none.
    - vm_compute. reflexivity. }
  split; [exact Hl |].
  split; [exact Hp |].
  exact (served_pages_show_refreshed_readings idle_env initial_world _ _ Hl Hp).
Defined.

(** ** Display-only loop *)

Lemma refresh_is_display_only_event (evs : list event) :
  forallb refresh_event evs = true -> forallb display_only_event evs = true.
Proof.
  induction evs as [| ev evs IH]; simpl; [reflexivity |].
  intros H. apply andb_prop in H. destruct H as [H1 H2].
  rewrite (IH H2). destruct ev; simpl in *; try discriminate; reflexivity.
Qed.

(** X13.  One pass of the display-only loop is a display refresh followed
    by a 30-second sleep.  When the sleep returns, that is all.  When it
    is interrupted, the pass prints "Keyboard interrupt" and clears
    [stay_in_loop].  When it raises anything else, the exception is
    printed and [stay_in_loop] stays as it was.  In all three cases the
    pass itself returns normally. *)
Theorem display_pass_cases (env : Env) (nap : nat -> result unit) (w : World) :
  exists w1 w',
    display_weatherData env w = (Ok tt, w1) /\
    display_iteration env nap w = (Ok tt, w') /\
    same_readings w1 w' /\
    match nap (clock w1) with
    | Ok _ =>
        trace w' = (trace w1 ++ [Sleep 30])%list /\
        stay_in_loop w' = stay_in_loop w
    | Raise KeyboardInterrupt =>
        trace w' = (trace w1 ++ [Sleep 30; Print [VStr "Keyboard interrupt"]])%list /\
        stay_in_loop w' = false
    | Raise e =>
        trace w' = (trace w1 ++ [Sleep 30; Print [VStr "Exception"; VExn e]])%list /\
        stay_in_loop w' = stay_in_loop w
    end.
Proof.
  destruct (display_weatherData_spec env w)
    as (w1 & evs & Hrun & Htr & Hev & _ & Hstay & _).
  exists w1.
  unfold display_iteration, try_except, bind at 1. rewrite Hrun.
  unfold on_display_exception. unfold_monad.
  destruct (nap (clock w1)) as [[] | [errno | name |]];
    cbn [temperature pressure humidity stay_in_loop conn clock trace];
    eexists; (split; [reflexivity |]); (split; [reflexivity |]);
    cbn [temperature pressure humidity stay_in_loop conn clock trace];
    (split; [repeat split |]);
    (split; [repeat rewrite <- app_assoc; reflexivity |]);
    first [exact Hstay | reflexivity].
Qed.

(** One pass, for the induction over the loop. *)
Lemma display_iteration_pass (env : Env) (nap : nat -> result unit) (w : World) :
  exists w' evs,
    display_iteration env nap w = (Ok tt, w') /\
    trace w' = (trace w ++ evs)%list /\
    forallb display_only_event evs = true /\
    (stay_in_loop w' = stay_in_loop w \/
     (stay_in_loop w' = false /\
      exists pre, evs = (pre ++ [Print [VStr "Keyboard interrupt"]])%list)).
Proof.
  destruct (display_weatherData_spec env w)
    as (w1 & evs & Hrun & Htr & Hev & _ & Hstay & _).
  pose proof (refresh_is_display_only_event _ Hev) as Hd.
  unfold display_iteration, try_except, bind at 1. rewrite Hrun.
  unfold on_display_exception. unfold_monad.
  destruct (nap (clock w1)) as [[] | [errno | name |]];
    cbn [temperature pressure humidity stay_in_loop conn clock trace];
    do 2 eexists; (split; [reflexivity |]);
    cbn [temperature pressure humidity stay_in_loop conn clock trace];
    (split; [rewrite Htr; repeat rewrite <- app_assoc; cbn [app]; reflexivity |]);
    (split;
     [cbn [forallb display_only_event andb]; rewrite forallb_app, Hd; reflexivity |]).
  - left. exact Hstay.
  - left. exact Hstay.
  - left. exact Hstay.
  - right. split; [reflexivity |].
    exists (Print [VStr "updating display..."] :: evs ++ [Sleep 30])%list.
    cbn [app]. rewrite <- app_assoc. reflexivity.
Qed.

Lemma display_loop_stopped (env : Env) (nap : nat -> result unit) (fuel : nat)
    (w : World) :
  stay_in_loop w = false -> display_loop env nap fuel w = Some (Ok tt, w).
Proof. intros H. destruct fuel; simpl; rewrite H; reflexivity. Qed.

Lemma display_loop_run (env : Env) (nap : nat -> result unit) (fuel : nat) :
  forall w r w',
    stay_in_loop w = true ->
    display_loop env nap fuel w = Some (r, w') ->
    r = Ok tt /\
    stay_in_loop w' = false /\
    exists pre,
      trace w' = (trace w ++ pre ++ [Print [VStr "Keyboard interrupt"]])%list /\
      forallb display_only_event pre = true.
Proof.
  induction fuel as [| fuel IH]; intros w r w' Hstay Hrun.
  - cbn [display_loop] in Hrun. rewrite Hstay in Hrun. discriminate Hrun.
  - cbn [display_loop] in Hrun. rewrite Hstay in Hrun.
    destruct (display_iteration_pass env nap w)
      as (w1 & evs1 & Hit & Htr1 & Hev1 & Hcase).
    rewrite Hit in Hrun.
    destruct Hcase as [Hsame | (Hstop & pre & Hpre)].
    + destruct (IH w1 r w') as (Hr & Hs & pre & Htr & Hev).
      { congruence. }
      { exact Hrun. }
      split; [exact Hr |]. split; [exact Hs |].
      exists (evs1 ++ pre)%list.
      split; [rewrite Htr, Htr1; repeat rewrite <- app_assoc; reflexivity |].
      rewrite forallb_app, Hev1, Hev. reflexivity.
    + rewrite (display_loop_stopped env nap fuel w1 Hstop) in Hrun.
      inversion Hrun; subst r w'.
      split; [reflexivity |]. split; [exact Hstop |].
      exists pre. split; [rewrite Htr1, Hpre; reflexivity |].
      rewrite Hpre, forallb_app in Hev1. apply andb_prop in Hev1. exact (proj1 Hev1).
Qed.

Lemma run_display_only_trace
    (env : Env) (nap : nat -> result unit) (fuel : nat) (w : World)
    (r : result unit) (w' : World) :
  run_display_only env nap fuel w = Some (r, w') ->
  r = Ok tt /\
  exists pre,
    trace w' =
      (trace w ++ Print [VStr "launching display loop..."] :: pre ++
       [ Print [VStr "Keyboard interrupt"];
         Print [VStr "display loop ended."] ])%list /\
    forallb display_only_event pre = true.
Proof.
  unfold run_display_only. unfold_monad. intros Hrun.
  match type of Hrun with
  | context [display_loop env nap fuel ?w1] =>
      destruct (display_loop env nap fuel w1) as [[r2 w2] |] eqn:Hloop;
      [destruct (display_loop_run env nap fuel w1 r2 w2 eq_refl Hloop)
         as (-> & _ & pre & Htr & Hev)
      | discriminate Hrun]
  end.
  inversion Hrun; subst r w'.
  split; [reflexivity |].
  exists pre. cbn [trace] in *.
  split; [rewrite Htr; repeat rewrite <- app_assoc; reflexivity | exact Hev].
Qed.

(** X14.  [run_display_only] never raises, and returns only after an
    interrupt: its trace is then the opening console line, passes made of
    console output, sensor calls, drawing and sleeps only (no socket and
    no radio call), and the two closing console lines. *)
Theorem display_only_ends_on_interrupt_only
    (env : Env) (nap : nat -> result unit) (fuel : nat) (w : World)
    (r : result unit) (w' : World) :
  run_display_only env nap fuel w = Some (r, w') ->
  r = Ok tt /\
  exists pre,
    trace w' =
      (trace w ++ Print [VStr "launching display loop..."] :: pre ++
       [ Print [VStr "Keyboard interrupt"];
         Print [VStr "display loop ended."] ])%list /\
    forallb display_only_event pre = true.
Proof.
  intros Hrun.
  exact (run_display_only_trace env nap fuel w r w' Hrun).
Qed.

Lemma display_only_ends_on_interrupt_only_witness :
  exists w',
    run_display_only bench_env third_nap_interrupted 3 initial_world = Some (Ok tt, w') /\
    Ok tt = Ok tt /\
    exists pre,
      trace w' =
        (trace initial_world ++ Print [VStr "launching display loop..."] :: pre ++
         [ Print [VStr "Keyboard interrupt"];
           Print [VStr "display loop ended."] ])%list /\
      forallb display_only_event pre = true.
Proof.
  eexists. split; [vm_compute; reflexivity |].
  apply (display_only_ends_on_interrupt_only bench_env third_nap_interrupted 3
           initial_world).
  vm_compute. reflexivity.
Defined.

(** ** Main sequence *)

Ltac unfold_board :=
  cbn [bindB retB lift on_panel world panel
       bind ret raise try_except call query print sleep emit tick gets
       set_temperature set_pressure set_humidity set_stay_in_loop set_conn
       temperature pressure humidity stay_in_loop conn clock trace fst snd];
  cbv beta iota zeta delta
    [bindB retB lift on_panel
     bind ret raise try_except call query print sleep emit tick gets
     set_temperature set_pressure set_humidity set_stay_in_loop set_conn];
  cbn [world panel temperature pressure humidity stay_in_loop conn clock trace
       fst snd].

Lemma wait_loop_startup (env : Env) (fuel : nat) :
  forall (wait : Z) (w : World),
    exists w' evs,
      wait_loop env fuel wait w = (Ok tt, w') /\
      trace w' = (trace w ++ evs)%list /\
      forallb startup_event evs = true.
Proof.
  induction fuel as [| fuel IH]; intros wait w.
  - exists w, []. rewrite app_nil_r. repeat split.
  - rewrite wait_loop_S. unfold_monad.
    destruct (wlan_status env (joins (trace w)) (clock w) >=? 0)%Z.
    2:{ do 2 eexists. split; [reflexivity |]. cbn [trace].
        split; reflexivity. }
    simpl. rewrite joins_app. simpl. rewrite app_nil_r.
    destruct (wlan_status env (joins (trace w)) (S (clock w)) <? 3)%Z.
    2:{ do 2 eexists. split; [reflexivity |]. cbn [trace].
        split; [rewrite <- app_assoc; reflexivity | reflexivity]. }
    destruct (wait <? 10)%Z.
    2:{ do 2 eexists. split; [reflexivity |]. cbn [trace].
        split; [rewrite <- app_assoc; reflexivity | reflexivity]. }
    simpl.
    match goal with
    | |- context [wait_loop env fuel (wait + 1) ?w1] =>
        destruct (IH (wait + 1)%Z w1) as (w' & evs & Hrun & Htr & Hq)
    end.
    rewrite Hrun. do 2 eexists. split; [reflexivity |].
    split.
    { rewrite Htr. cbn [trace]. repeat rewrite <- app_assoc. cbn [app]. reflexivity. }
    cbn [forallb startup_event andb]. exact Hq.
Qed.

Lemma connect_attempt_startup (env : Env) (ssid password : string) (w : World) :
  exists w' seg up,
    connect_attempt env ssid password w = (Ok up, w') /\
    trace w' = (trace w ++ seg)%list /\
    forallb startup_event seg = true.
Proof.
  unfold connect_attempt. unfold_monad.
  match goal with
  | |- context [wait_loop env 11 0 ?w1] =>
      destruct (wait_loop_startup env 11 0 w1) as (w2 & evs & Hrun & Htr & Hq)
  end.
  rewrite Hrun. cbn [temperature pressure humidity stay_in_loop conn clock trace] in *.
  destruct (wlan_isconnected env (joins (trace w2)) (clock w2)) eqn:Hup;
    cbn [temperature pressure humidity stay_in_loop conn clock trace];
    do 3 eexists; (split; [reflexivity |]);
    cbn [temperature pressure humidity stay_in_loop conn clock trace];
    (split; [rewrite Htr; repeat rewrite <- app_assoc; cbn [app]; reflexivity |]);
    cbn [forallb startup_event andb]; rewrite forallb_app, Hq; reflexivity.
Qed.

Lemma run_tries_startup (env : Env) (tries : list (string * string)) :
  forall w,
    exists b w' evs,
      run_tries env tries w = (Ok b, w') /\
      trace w' = (trace w ++ evs)%list /\
      forallb startup_event evs = true.
Proof.
  induction tries as [| [ssid password] tries IH]; intros w.
  - exists false, w, []. rewrite app_nil_r. repeat split.
  - destruct (connect_attempt_startup env ssid password w)
      as (w1 & seg & up & Hrun & Htr & Hev).
    cbn [run_tries]. unfold bind. rewrite Hrun.
    destruct up.
    + exists true, w1, seg. repeat split; assumption.
    + destruct (IH w1) as (b & w' & evs & Hrest & Htr2 & Hev2).
      exists b, w', (seg ++ evs)%list.
      split; [exact Hrest |].
      split; [rewrite Htr2, Htr, app_assoc; reflexivity |].
      rewrite forallb_app, Hev, Hev2. reflexivity.
Qed.

Lemma connect_to_wifi_startup (env : Env) (nets : list (string * string)) (w : World) :
  exists b w' evs,
    connect_to_wifi env nets w = (Ok b, w') /\
    trace w' = (trace w ++ evs)%list /\
    forallb startup_event evs = true /\
    same_data w w'.
Proof.
  destruct (connect_to_wifi_frame env nets w) as (b & w' & Hrun & Hd).
  exists b, w'.
  revert Hrun. unfold connect_to_wifi. unfold_monad.
  match goal with
  | |- context [for_networks env nets ?w1] =>
      rewrite (for_networks_flat env nets w1);
      destruct (run_tries_startup env (schedule nets) w1)
        as (b2 & w2 & evs & Hrun2 & Htr & Hev)
  end.
  rewrite Hrun2. intros Heq. inversion Heq; subst b2 w2.
  exists ([WlanDisconnect; Sleep 1] ++ evs)%list.
  split; [reflexivity |].
  split; [rewrite Htr; cbn [trace]; repeat rewrite <- app_assoc; reflexivity |].
  split; [cbn [app forallb startup_event andb]; exact Hev | exact Hd].
Qed.

Lemma initialize_display_spec (b : Board) :
  exists b1,
    initialize_display b = (Ok tt, b1) /\
    trace (world b1) =
      (trace (world b) ++
       [ Print [VStr "initializing display..."];
         DrawText 10 (320 - 35) "Evan`s Weather Station";
         DrawText 96 (320 - 54) "Connecting to WIFI";
         DrawText 144 (320 - 90) "Please wait..." ])%list /\
    panel_ops b1 =
      (panel_ops b ++
       [ DisplayClear (Some backgroundColor);
         FillRectangle 0 0 40 320 headerBackground;
         FillRectangle 41 0 1 320 shadowColor ])%list /\
    same_data (world b) (world b1) /\
    clock (world b1) = clock (world b).
Proof.
  unfold initialize_display, dprint. unfold_board.
  eexists. split; [reflexivity |].
  cbn [world panel trace].
  split; [repeat rewrite <- app_assoc; reflexivity |].
  split.
  { unfold panel_ops. cbn [panel]. repeat rewrite map_app. cbn [map snd].
    repeat rewrite <- app_assoc. reflexivity. }
  split; repeat split.
Qed.

(** The second start-up screen: the footer says what the radio answers
    to [isconnected()] at that moment. *)
Lemma setup_display_spec (env : Env)
    (essid : list (string * string) -> nat -> string) (b : Board) :
  exists b1 evs ops,
    setup_display env essid b = (Ok tt, b1) /\
    trace (world b1) = (trace (world b) ++ evs)%list /\
    forallb startup_event evs = true /\
    panel_ops b1 = (panel_ops b ++ ops)%list /\
    forallb startup_panel_op ops = true /\
    same_data (world b) (world b1) /\
    (if wlan_isconnected env (joins (trace (world b))) (clock (world b))
     then exists ip, In (DrawText 221 (320 - 110) ("http://" ++ ip)) evs
     else In (DrawText 215 (320 - 96) "WIFI not available") evs).
Proof.
  unfold setup_display, wlan_config_essid, ask_essid, dprint. unfold_board.
  destruct (wlan_isconnected env (joins (trace (world b))) (clock (world b)));
    unfold_board;
    do 3 eexists; (split; [reflexivity |]);
    cbn [world panel trace];
    (split; [repeat rewrite <- app_assoc; cbn [app]; reflexivity |]);
    (split; [reflexivity |]);
    (split;
     [unfold panel_ops; cbn [panel]; repeat rewrite map_app; cbn [map snd];
      repeat rewrite <- app_assoc; cbn [app]; reflexivity |]);
    (split; [reflexivity |]);
    (split; [repeat split |]).
  - eexists. cbn [In]. do 4 right. left. reflexivity.
  - cbn [In]. right. left. reflexivity.
Qed.

(** The start-up phase always reaches the choice of the loop. *)
Lemma startup_spec (env : Env)
    (essid : list (string * string) -> nat -> string) (b : Board) :
  exists up b1 evs ops w0,
    startup env essid b = (Ok up, b1) /\
    trace (world b1) = (trace (world b) ++ evs)%list /\
    forallb startup_event evs = true /\
    panel_ops b1 = (panel_ops b ++ ops)%list /\
    forallb startup_panel_op ops = true /\
    same_data (world b) (world b1) /\
    (if wlan_isconnected env (joins (trace w0)) (clock w0)
     then exists ip, In (DrawText 221 (320 - 110) ("http://" ++ ip)) evs
     else In (DrawText 215 (320 - 96) "WIFI not available") evs) /\
    (exists h t, up = wlan_isconnected env h t).
Proof.
  unfold startup.
  destruct (initialize_display_spec b) as (b1 & Hi & Htr1 & Hp1 & Hd1 & _).
  unfold bindB at 1. rewrite Hi.
  destruct (connect_to_wifi_startup env wifiNetworks (world b1))
    as (joined & w2 & evs2 & Hj & Htr2 & Hev2 & Hd2).
  unfold bindB at 1, lift at 1. rewrite Hj.
  destruct (setup_display_spec env essid (mkBoard w2 (panel b1)))
    as (b3 & evs3 & ops3 & Hs & Htr3 & Hev3 & Hp3 & Hop3 & Hd3 & Hbanner).
  unfold bindB at 1. rewrite Hs.
  unfold lift. unfold_monad.
  cbn [world panel] in *.
  do 2 eexists.
  exists ([ Print [VStr "initializing display..."];
            DrawText 10 (320 - 35) "Evan`s Weather Station";
            DrawText 96 (320 - 54) "Connecting to WIFI";
            DrawText 144 (320 - 90) "Please wait..." ]
          ++ evs2 ++ evs3
          ++ [WlanIsConnected
                (wlan_isconnected env (joins (trace (world b3))) (clock (world b3)))])%list.
  exists ([ DisplayClear (Some backgroundColor);
            FillRectangle 0 0 40 320 headerBackground;
            FillRectangle 41 0 1 320 shadowColor ] ++ ops3)%list, w2.
  split; [reflexivity |].
  cbn [world panel trace].
  split.
  { rewrite Htr3, Htr2, Htr1. repeat rewrite <- app_assoc. reflexivity. }
  split.
  { cbn [app forallb startup_event andb].
    repeat rewrite forallb_app. rewrite Hev2, Hev3. reflexivity. }
  split.
  { unfold panel_ops in *. cbn [panel] in *. rewrite Hp3, Hp1.
    repeat rewrite <- app_assoc. reflexivity. }
  split; [cbn [app forallb startup_panel_op andb]; exact Hop3 |].
  split.
  { destruct Hd1 as (A1 & A2 & A3 & A4 & A5).
    destruct Hd2 as (B1 & B2 & B3 & B4 & B5).
    destruct Hd3 as (C1 & C2 & C3 & C4 & C5).
    unfold same_data.
    cbn [world temperature pressure humidity stay_in_loop conn] in *.
    repeat split; congruence. }
  split.
  { destruct (wlan_isconnected env (joins (trace w2)) (clock w2)).
    - destruct Hbanner as (ip & Hin). exists ip.
      apply in_or_app. right. apply in_or_app. right.
      apply in_or_app. left. exact Hin.
    - apply in_or_app. right. apply in_or_app. right.
      apply in_or_app. left. exact Hbanner. }
  do 2 eexists. reflexivity.
Qed.

Lemma cleanup_spec (b : Board) :
  exists b',
    cleanup b = (Ok tt, b') /\
    trace (world b') =
      (trace (world b) ++
       [ Print [VStr "clearing display..."];
         Print [VStr "turning off LED..."];
         Print [VStr "done."] ])%list /\
    panel b' =
      (panel b ++
       [ (1 + List.length (trace (world b)), DisplayClear None);
         (2 + List.length (trace (world b)), LedOff) ])%list.
Proof.
  unfold cleanup. unfold_board.
  eexists. split; [reflexivity |].
  cbn [world panel trace].
  split; [repeat rewrite <- app_assoc; reflexivity |].
  repeat rewrite length_app. cbn [List.length].
  repeat rewrite <- app_assoc. cbn [app].
  replace (List.length (trace (world b)) + 1 + 1)
    with (2 + List.length (trace (world b))) by lia.
  replace (List.length (trace (world b)) + 1)
    with (1 + List.length (trace (world b))) by lia.
  reflexivity.
Qed.

Lemma startup_events_open_nothing (evs : list event) :
  forallb startup_event evs = true -> existsb socket_event evs = false.
Proof.
  induction evs as [| ev evs IH]; simpl; [reflexivity |].
  intros H. apply andb_prop in H. destruct H as [H1 H2].
  rewrite (IH H2). destruct ev; simpl in *; try discriminate; reflexivity.
Qed.

Lemma display_only_events_open_nothing (evs : list event) :
  forallb display_only_event evs = true -> existsb socket_event evs = false.
Proof.
  induction evs as [| ev evs IH]; simpl; [reflexivity |].
  intros H. apply andb_prop in H. destruct H as [H1 H2].
  rewrite (IH H2). destruct ev; simpl in *; try discriminate; reflexivity.
Qed.

(** How [main] ends, in one statement for the theorems below. *)
Lemma main_trace (env : Env)
    (essid : list (string * string) -> nat -> string)
    (nap : nat -> result unit) (fuel : nat) (b : Board)
    (r : result unit) (b' : Board) :
  main env essid nap fuel b = Some (r, b') ->
  exists up b1 evs1 ops w0 evs2,
    startup env essid b = (Ok up, b1) /\
    trace (world b1) = (trace (world b) ++ evs1)%list /\
    forallb startup_event evs1 = true /\
    panel_ops b1 = (panel_ops b ++ ops)%list /\
    forallb startup_panel_op ops = true /\
    (if wlan_isconnected env (joins (trace w0)) (clock w0)
     then exists ip, In (DrawText 221 (320 - 110) ("http://" ++ ip)) evs1
     else In (DrawText 215 (320 - 96) "WIFI not available") evs1) /\
    (exists h t, up = wlan_isconnected env h t) /\
    (if up
     then forallb running_event evs2 = true /\ In (ServerBind 80) evs2
     else forallb display_only_event evs2 = true /\ r = Ok tt /\
          In (Print [VStr "launching display loop..."]) evs2) /\
    match r with
    | Ok _ =>
        trace (world b') =
          (trace (world b1) ++ evs2 ++
           (if up then interrupt_shutdown_events
            else [ Print [VStr "Keyboard interrupt"];
                   Print [VStr "display loop ended."] ]) ++
           [ Print [VStr "clearing display..."];
             Print [VStr "turning off LED..."];
             Print [VStr "done."] ])%list /\
        exists n,
          panel b' = (panel b1 ++ [(1 + n, DisplayClear None); (2 + n, LedOff)])%list /\
          3 + n = List.length (trace (world b'))
    | Raise _ =>
        trace (world b') = (trace (world b1) ++ evs2)%list /\
        panel b' = panel b1
    end.
Proof.
  unfold main. intros Hrun.
  destruct (startup_spec env essid b)
    as (up & b1 & evs1 & ops & w0 & Hs & Htr1 & Hev1 & Hp1 & Hop1 & _ & Hbanner & Hup).
  rewrite Hs in Hrun.
  exists up, b1, evs1, ops, w0.
  destruct up.
  - destruct (run_display_and_webserver env fuel (world b1)) as [[r2 w2] |] eqn:Hweb;
      [| discriminate Hrun].
    destruct (run_display_and_webserver_trace env fuel (world b1) r2 w2 Hweb)
      as (evs2 & Hev2 & Hbind & Htr2).
    exists evs2.
    repeat (split; [assumption |]).
    split; [split; assumption |].
    destruct r2 as [[] | e].
    + destruct (cleanup_spec (mkBoard w2 (panel b1))) as (b2 & Hc & Htr3 & Hp3).
      rewrite Hc in Hrun. inversion Hrun; subst r b'.
      cbn [world panel] in *.
      split; [rewrite Htr3, Htr2; repeat rewrite <- app_assoc; reflexivity |].
      exists (List.length (trace w2)).
      split; [exact Hp3 |].
      rewrite Htr3, length_app. cbn [List.length]. lia.
    + inversion Hrun; subst r b'. cbn [world panel]. split; [exact Htr2 | reflexivity].
  - destruct (run_display_only env nap fuel (world b1)) as [[r2 w2] |] eqn:Hdisp;
      [| discriminate Hrun].
    destruct (run_display_only_trace env nap fuel (world b1) r2 w2 Hdisp)
      as (-> & pre & Htr2 & Hev2).
    exists (Print [VStr "launching display loop..."] :: pre).
    repeat (split; [assumption |]).
    destruct (cleanup_spec (mkBoard w2 (panel b1))) as (b2 & Hc & Htr3 & Hp3).
    rewrite Hc in Hrun. inversion Hrun; subst r b'.
    cbn [world panel] in *.
    split.
    { split; [cbn [forallb display_only_event andb]; exact Hev2 |].
      split; [reflexivity | left; reflexivity]. }
    split.
    { rewrite Htr3, Htr2. repeat rewrite <- app_assoc. cbn [app].
      repeat rewrite <- app_assoc. reflexivity. }
    exists (List.length (trace w2)).
    split; [exact Hp3 |].
    rewrite Htr3, length_app. cbn [List.length]. lia.
Qed.

(** X15.  When the main sequence ends normally, the last things it does
    are, in this order: the console line "clearing display...",
    [display.clear()], the console line "turning off LED...",
    [led.off()], the console line "done.".  Before that the display was
    only cleared to the background colour and filled, and the LED never
    switched off; and the loop it ran was ended by an interrupt. *)
Theorem main_cleans_up_on_normal_exit
    (env : Env) (essid : list (string * string) -> nat -> string)
    (nap : nat -> result unit) (fuel : nat) (b b' : Board) :
  main env essid nap fuel b = Some (Ok tt, b') ->
  exists evs pre ops n,
    trace (world b') =
      (trace (world b) ++ evs ++
       [ Print [VStr "clearing display..."];
         Print [VStr "turning off LED..."];
         Print [VStr "done."] ])%list /\
    panel b' = (pre ++ [(1 + n, DisplayClear None); (2 + n, LedOff)])%list /\
    3 + n = List.length (trace (world b')) /\
    map snd pre = (panel_ops b ++ ops)%list /\
    forallb startup_panel_op ops = true /\
    (In (Print [VStr "KeyboardInterrupt"]) evs \/
     In (Print [VStr "Keyboard interrupt"]) evs).
Proof.
  intros Hrun.
  destruct (main_trace env essid nap fuel b (Ok tt) b' Hrun)
    as (up & b1 & evs1 & ops & w0 & evs2 & _ & Htr1 & _ & Hp1 & Hop1 & _ & _ & _
        & Htr & n & Hp & Hn).
  exists (evs1 ++ evs2 ++
          (if up then interrupt_shutdown_events
           else [ Print [VStr "Keyboard interrupt"];
                  Print [VStr "display loop ended."] ]))%list,
         (panel b1), ops, n.
  split; [rewrite Htr, Htr1; repeat rewrite <- app_assoc; reflexivity |].
  split; [exact Hp |].
  split; [exact Hn |].
  split; [exact Hp1 |].
  split; [exact Hop1 |].
  destruct up.
  - left. apply in_or_app. right. apply in_or_app. right.
    unfold interrupt_shutdown_events. left. reflexivity.
  - right. apply in_or_app. right. apply in_or_app. right.
    left. reflexivity.
Qed.

(** Off line on the bench, with Ctrl-C during the first sleep. *)
Lemma main_cleans_up_on_normal_exit_witness :
  exists b',
    main bench_env bench_essid third_nap_interrupted 1 initial_board = Some (Ok tt, b') /\
    exists evs pre ops n,
      trace (world b') =
        (trace (world initial_board) ++ evs ++
         [ Print [VStr "clearing display..."];
           Print [VStr "turning off LED..."];
           Print [VStr "done."] ])%list /\
      panel b' = (pre ++ [(1 + n, DisplayClear None); (2 + n, LedOff)])%list /\
      3 + n = List.length (trace (world b')) /\
      map snd pre = (panel_ops initial_board ++ ops)%list /\
      forallb startup_panel_op ops = true /\
      (In (Print [VStr "KeyboardInterrupt"]) evs \/
       In (Print [VStr "Keyboard interrupt"]) evs).
Proof.
  eexists. split; [vm_compute; reflexivity |].
  apply (main_cleans_up_on_normal_exit bench_env bench_essid third_nap_interrupted
           1 initial_board).
  vm_compute. reflexivity.
Defined.



(** The passes of the display-only loop make no socket call. *)
Lemma display_passes_trace (env : Env) (nap : nat -> result unit) (w0 w : World) :
  display_passes env nap w0 w ->
  exists evs,
    trace w = (trace w0 ++ evs)%list /\
    forallb display_only_event evs = true.
Proof.
  induction 1 as [| wa wb _ (evs & Htr & Hev) Hit].
  - exists []. rewrite app_nil_r. split; reflexivity.
  - destruct (display_iteration_pass env nap wa)
      as (wb' & evs2 & Hit' & Htr2 & Hev2 & _).
    rewrite Hit in Hit'. inversion Hit'; subst wb'.
    exists (evs ++ evs2)%list.
    split; [rewrite Htr2, Htr, app_assoc; reflexivity |].
    rewrite forallb_app, Hev, Hev2. reflexivity.
Qed.

(** The passes of the service loop leave the listening socket open. *)
Lemma passes_trace (env : Env) (w0 w : World) :
  passes env w0 w ->
  exists evs,
    trace w = (trace w0 ++ evs)%list /\
    forallb loop_event evs = true.
Proof.
  induction 1 as [| wa wb _ (evs & Htr & Hev) Hit].
  - exists []. rewrite app_nil_r. split; reflexivity.
  - destruct (loop_iteration_pass env wa)
      as (r & wb' & evs2 & Hit' & Htr2 & Hev2 & _).
    rewrite Hit in Hit'. inversion Hit'; subst r wb'.
    exists (evs ++ evs2)%list.
    split; [rewrite Htr2, Htr, app_assoc; reflexivity |].
    rewrite forallb_app, Hev, Hev2. reflexivity.
Qed.

(** X17.  With a radio that never answers [True] to [isconnected()],
    once the start-up phase has returned it has drawn "WIFI not
    available" in the footer and made no socket call; the main sequence
    goes on with the display-only loop; no state that loop passes through
    has a socket call in its trace, however long the loop runs; and when
    the main sequence ends, its whole trace has none. *)
Theorem main_without_network_opens_no_socket
    (env : Env) (essid : list (string * string) -> nat -> string)
    (b : Board) (up : bool) (b1 : Board) :
  (forall h t, wlan_isconnected env h t = false) ->
  startup env essid b = (Ok up, b1) ->
  up = false /\
  (exists evs,
     trace (world b1) = (trace (world b) ++ evs)%list /\
     In (DrawText 215 224 "WIFI not available") evs /\
     existsb socket_event evs = false) /\
  (forall nap fuel,
     main env essid nap fuel b =
       match run_display_only env nap fuel (world b1) with
       | Some (Ok _, w2) => Some (cleanup (mkBoard w2 (panel b1)))
       | Some (Raise e, w2) => Some (Raise e, mkBoard w2 (panel b1))
       | None => None
       end) /\
  (forall nap w,
     display_passes env nap (display_loop_entry (world b1)) w ->
     exists evs,
       trace w = (trace (world b) ++ evs)%list /\
       In (Print [VStr "launching display loop..."]) evs /\
       existsb socket_event evs = false) /\
  (forall nap fuel r b',
     main env essid nap fuel b = Some (r, b') ->
     exists evs,
       trace (world b') = (trace (world b) ++ evs)%list /\
       existsb socket_event evs = false).
Proof.
  intros Hdown Hs.
  destruct (startup_spec env essid b)
    as (up' & b1' & evs1 & ops & w0 & Hs' & Htr1 & Hev1 & _ & _ & _ & Hbanner
        & (h & t & Hup)).
  rewrite Hs in Hs'.
  assert (up' = up /\ b1' = b1) as (-> & ->) by (split; congruence).
  rewrite Hdown in Hup. subst up. rewrite Hdown in Hbanner.
  pose proof (startup_events_open_nothing _ Hev1) as Hq1.
  split; [reflexivity |].
  split.
  { exists evs1. split; [exact Htr1 |]. split; [exact Hbanner | exact Hq1]. }
  split.
  { intros nap fuel. unfold main. rewrite Hs. reflexivity. }
  split.
  { intros nap w Hp.
    destruct (display_passes_trace env nap _ w Hp) as (evs2 & Htr2 & Hev2).
    exists (evs1 ++ Print [VStr "launching display loop..."] :: evs2)%list.
    split.
    { rewrite Htr2. unfold display_loop_entry. unfold_monad. cbn [trace].
      rewrite Htr1. repeat rewrite <- app_assoc. reflexivity. }
    split; [apply in_or_app; right; left; reflexivity |].
    rewrite existsb_app, Hq1. cbn [existsb socket_event orb].
    exact (display_only_events_open_nothing _ Hev2). }
  intros nap fuel r b' Hrun.
  destruct (main_trace env essid nap fuel b r b' Hrun)
    as (up & b2 & evs1' & ops' & w0' & evs2 & Hs2 & Htr1' & Hev1' & _ & _ & _
        & _ & Hmode & Htr).
  rewrite Hs in Hs2.
  assert (up = false /\ b2 = b1) as (-> & ->) by (split; congruence).
  destruct Hmode as (Hev2 & -> & _).
  destruct Htr as (Htr & _).
  eexists. split; [rewrite Htr, Htr1'; repeat rewrite <- app_assoc; reflexivity |].
  repeat rewrite existsb_app.
  rewrite (startup_events_open_nothing _ Hev1'),
          (display_only_events_open_nothing _ Hev2).
  reflexivity.
Qed.

(** Off line on the bench. *)
Lemma main_without_network_opens_no_socket_witness :
  (forall h t, wlan_isconnected bench_env h t = false) /\
  startup bench_env bench_essid initial_board
    = (Ok false, snd (startup bench_env bench_essid initial_board)) /\
  exists evs,
    trace (world (snd (startup bench_env bench_essid initial_board)))
      = (trace (world initial_board) ++ evs)%list /\
    In (DrawText 215 224 "WIFI not available") evs /\
    existsb socket_event evs = false.
Proof.
  assert (H : forall h t, wlan_isconnected bench_env h t = false).
  { intros h t. reflexivity. }
  assert (Hs : startup bench_env bench_essid initial_board
               = (Ok false, snd (startup bench_env bench_essid initial_board))).
  { vm_compute. reflexivity. }
  split; [exact H |].
  split; [exact Hs |].
  exact (proj1 (proj2 (main_without_network_opens_no_socket bench_env bench_essid
                         initial_board false _ H Hs))).
Defined.



(** * The Reading Set at every program point *)

(** ** Every function of the program stays within the program points *)

Lemma keeps_ret (env : Env) {A : Type} (a : A) : keeps env (ret a).
Proof. intros w r w' Hp Hrun. inversion Hrun; subst. exact Hp. Qed.

Lemma keeps_raise (env : Env) {A : Type} (e : exn) : keeps env (@raise A e).
Proof. intros w r w' Hp Hrun. inversion Hrun; subst. exact Hp. Qed.

Lemma keeps_gets (env : Env) {A : Type} (f : World -> A) : keeps env (gets f).
Proof. intros w r w' Hp Hrun. inversion Hrun; subst. exact Hp. Qed.

Lemma keeps_bind (env : Env) {A C : Type} (m : M A) (k : A -> M C) :
  keeps env m -> (forall a, keeps env (k a)) -> keeps env (bind m k).
Proof.
  intros Hm Hk w r w' Hp Hrun. unfold bind in Hrun.
  destruct (m w) as [[a | e] w1] eqn:E.
  - exact (Hk a w1 r w' (Hm w _ w1 Hp E) Hrun).
  - inversion Hrun; subst. exact (Hm w _ w' Hp E).
Qed.

Lemma keeps_try_except (env : Env) {A : Type} (body : M A) (handler : exn -> M A) :
  keeps env body -> (forall e, keeps env (handler e)) ->
  keeps env (try_except body handler).
Proof.
  intros Hm Hk w r w' Hp Hrun. unfold try_except in Hrun.
  destruct (body w) as [[a | e] w1] eqn:E.
  - inversion Hrun; subst. exact (Hm w _ w' Hp E).
  - exact (Hk e w1 r w' (Hm w _ w1 Hp E) Hrun).
Qed.

Lemma keeps_emit (env : Env) (ev : event) :
  sensor_event ev = false -> keeps env (emit ev).
Proof. intros Hev w r w' Hp Hrun. exact (after_emit env ev w r w' Hp Hev Hrun). Qed.

Lemma keeps_tick (env : Env) : keeps env tick.
Proof. intros w r w' Hp Hrun. exact (after_tick env w r w' Hp Hrun). Qed.

Lemma keeps_set_conn (env : Env) (c : Conn) : keeps env (set_conn c).
Proof. intros w r w' Hp Hrun. exact (after_set_conn env c w r w' Hp Hrun). Qed.

Lemma keeps_set_stay_in_loop (env : Env) (b : bool) :
  keeps env (set_stay_in_loop b).
Proof.
  intros w r w' Hp Hrun. exact (after_set_stay_in_loop env b w r w' Hp Hrun).
Qed.

Lemma keeps_refresh_weatherData (env : Env) : keeps env (refresh_weatherData env).
Proof. intros w r w' Hp Hrun. exact (after_refresh env w r w' Hp Hrun). Qed.

Lemma keeps_call (env : Env) {A : Type} (ev : event) (oracle : nat -> result A) :
  sensor_event ev = false -> keeps env (call ev oracle).
Proof.
  intros Hev. unfold call.
  apply keeps_bind; [apply keeps_emit; exact Hev | intros _].
  apply keeps_bind; [apply keeps_tick | intros t].
  destruct (oracle t); [apply keeps_ret | apply keeps_raise].
Qed.

Lemma keeps_query (env : Env) {A : Type}
    (oracle : list (string * string) -> nat -> A) (ev : A -> event) :
  (forall a, sensor_event (ev a) = false) -> keeps env (query oracle ev).
Proof.
  intros Hev. unfold query.
  apply keeps_bind; [apply keeps_gets | intros h].
  apply keeps_bind; [apply keeps_tick | intros t].
  apply keeps_bind; [apply keeps_emit; apply Hev | intros _].
  apply keeps_ret.
Qed.

(** Takes a computation apart along its binds, handlers and branches. *)
Ltac keeps_step :=
  lazymatch goal with
  | |- keeps _ (ret _) => apply keeps_ret
  | |- keeps _ (raise _) => apply keeps_raise
  | |- keeps _ (gets _) => apply keeps_gets
  | |- keeps _ tick => apply keeps_tick
  | |- keeps _ (set_conn _) => apply keeps_set_conn
  | |- keeps _ (set_stay_in_loop _) => apply keeps_set_stay_in_loop
  | |- keeps _ (refresh_weatherData _) => apply keeps_refresh_weatherData
  | |- keeps _ (emit _) => apply keeps_emit; reflexivity
  | |- keeps _ (call _ _) => apply keeps_call; reflexivity
  | |- keeps _ (query _ _) => apply keeps_query; intros; reflexivity
  | |- keeps _ (bind _ _) => apply keeps_bind; [| intros ?]
  | |- keeps _ (try_except _ _) => apply keeps_try_except; [| intros ?]
  | |- keeps _ (if ?b then _ else _) => destruct b
  | |- keeps _ (match ?x with _ => _ end) => destruct x
  end.

Lemma keeps_wait_loop (env : Env) (fuel : nat) :
  forall wait, keeps env (wait_loop env fuel wait).
Proof.
  induction fuel as [| fuel IH]; intros wait.
  - apply keeps_ret.
  - rewrite wait_loop_S. unfold print, sleep. repeat keeps_step. apply IH.
Qed.

Lemma keeps_connect_attempt (env : Env) (ssid password : string) :
  keeps env (connect_attempt env ssid password).
Proof.
  unfold connect_attempt, print. repeat keeps_step. apply keeps_wait_loop.
Qed.

Lemma keeps_for_range (env : Env) (n : nat) (body : M bool) :
  keeps env body -> keeps env (for_range n body).
Proof.
  intros Hb. induction n as [| n IH]; cbn [for_range]; repeat keeps_step; assumption.
Qed.

Lemma keeps_for_networks (env : Env) (nets : list (string * string)) :
  keeps env (for_networks env nets).
Proof.
  induction nets as [| [ssid password] rest IH]; cbn [for_networks];
    repeat keeps_step; [| exact IH].
  apply keeps_for_range, keeps_connect_attempt.
Qed.

Lemma keeps_connect_to_wifi (env : Env) (nets : list (string * string)) :
  keeps env (connect_to_wifi env nets).
Proof.
  unfold connect_to_wifi, sleep. repeat keeps_step. apply keeps_for_networks.
Qed.

Lemma keeps_display_weatherData (env : Env) : keeps env (display_weatherData env).
Proof. unfold display_weatherData, dprint, print. repeat keeps_step. Qed.

Lemma keeps_close_conn (env : Env) : keeps env (close_conn env).
Proof. unfold close_conn. repeat keeps_step. Qed.

Lemma keeps_receive_request (env : Env) (c : Conn) :
  keeps env (receive_request env c).
Proof. unfold receive_request, print. repeat keeps_step. Qed.

Lemma keeps_serve_connection (env : Env) : keeps env (serve_connection env).
Proof.
  unfold serve_connection, print. repeat keeps_step. apply keeps_receive_request.
Qed.

Lemma keeps_on_exception (env : Env) (e : exn) : keeps env (on_exception env e).
Proof.
  unfold on_exception, print. repeat keeps_step.
  - apply keeps_display_weatherData.
  - apply keeps_close_conn.
Qed.

Lemma keeps_loop_iteration (env : Env) : keeps env (loop_iteration env).
Proof.
  unfold loop_iteration. apply keeps_try_except.
  - apply keeps_serve_connection.
  - intros e. apply keeps_on_exception.
Qed.

Lemma keeps_launch_server (env : Env) : keeps env (launch_server env).
Proof.
  unfold launch_server, print. repeat keeps_step. apply keeps_display_weatherData.
Qed.

Lemma keeps_shutdown (env : Env) : keeps env shutdown.
Proof. unfold shutdown, print, sleep. repeat keeps_step. Qed.

Lemma some_eq {A : Type} (a b : A) : Some a = Some b -> a = b.
Proof. intros H. injection H as H. exact H. Qed.

Lemma keeps_service_loop (env : Env) (fuel : nat) :
  keeps_run env (service_loop env fuel).
Proof.
  induction fuel as [| fuel IH]; intros w r w' Hp Hrun;
    cbn [service_loop] in Hrun;
    (destruct (stay_in_loop w); [| inversion Hrun; subst; exact Hp]).
  - discriminate Hrun.
  - destruct (loop_iteration env w) as [[[] | e] w1] eqn:E.
    + exact (IH w1 r w' (keeps_loop_iteration env w _ w1 Hp E) Hrun).
    + inversion Hrun; subst. exact (keeps_loop_iteration env w _ w' Hp E).
Qed.

Lemma keeps_run_display_and_webserver (env : Env) (fuel : nat) :
  keeps_run env (run_display_and_webserver env fuel).
Proof.
  intros w r w' Hp Hrun. unfold run_display_and_webserver in Hrun.
  destruct (launch_server env w) as [[[] | e] w1] eqn:El.
  2:{ inversion Hrun; subst. exact (keeps_launch_server env w _ w' Hp El). }
  pose proof (keeps_launch_server env w _ w1 Hp El) as Hp1.
  destruct (service_loop env fuel w1) as [[[[] | e] w2] |] eqn:Es;
    [| | discriminate Hrun].
  - pose proof (keeps_service_loop env fuel w1 _ w2 Hp1 Es) as Hp2.
    apply some_eq in Hrun.
    exact (keeps_shutdown env w2 r w' Hp2 Hrun).
  - inversion Hrun; subst. exact (keeps_service_loop env fuel w1 _ w' Hp1 Es).
Qed.

Lemma keeps_display_iteration (env : Env) (nap : nat -> result unit) :
  keeps env (display_iteration env nap).
Proof.
  unfold display_iteration, on_display_exception, print. repeat keeps_step.
  apply keeps_display_weatherData.
Qed.

Lemma keeps_display_loop (env : Env) (nap : nat -> result unit) (fuel : nat) :
  keeps_run env (display_loop env nap fuel).
Proof.
  induction fuel as [| fuel IH]; intros w r w' Hp Hrun;
    cbn [display_loop] in Hrun;
    (destruct (stay_in_loop w); [| inversion Hrun; subst; exact Hp]).
  - discriminate Hrun.
  - destruct (display_iteration env nap w) as [[[] | e] w1] eqn:E.
    + exact (IH w1 r w' (keeps_display_iteration env nap w _ w1 Hp E) Hrun).
    + inversion Hrun; subst. exact (keeps_display_iteration env nap w _ w' Hp E).
Qed.

Lemma keeps_display_loop_entry (env : Env) :
  keeps env (print [VStr "launching display loop..."] ;; set_stay_in_loop true).
Proof. unfold print. repeat keeps_step. Qed.

Lemma keeps_run_display_only (env : Env) (nap : nat -> result unit) (fuel : nat) :
  keeps_run env (run_display_only env nap fuel).
Proof.
  intros w r w' Hp Hrun. unfold run_display_only in Hrun.
  destruct ((print [VStr "launching display loop..."] ;; set_stay_in_loop true) w)
    as [[[] | e] w1] eqn:El.
  2:{ inversion Hrun; subst. exact (keeps_display_loop_entry env w _ w' Hp El). }
  pose proof (keeps_display_loop_entry env w _ w1 Hp El) as Hp1.
  destruct (display_loop env nap fuel w1) as [[[[] | e] w2] |] eqn:Es;
    [| | discriminate Hrun].
  - pose proof (keeps_display_loop env nap fuel w1 _ w2 Hp1 Es) as Hp2.
    apply some_eq in Hrun.
    assert (Hk : keeps env (print [VStr "display loop ended."]))
      by (unfold print; keeps_step).
    exact (Hk w2 r w' Hp2 Hrun).
  - inversion Hrun; subst. exact (keeps_display_loop env nap fuel w1 _ w' Hp1 Es).
Qed.

(** The calls logged beside the trace leave the world alone. *)
Lemma keeps_board_ret (env : Env) {A : Type} (a : A) : keeps_board env (retB a).
Proof. intros b r b' Hp Hrun. inversion Hrun; subst. exact Hp. Qed.

Lemma keeps_board_bind (env : Env) {A C : Type} (m : B A) (k : A -> B C) :
  keeps_board env m -> (forall a, keeps_board env (k a)) ->
  keeps_board env (bindB m k).
Proof.
  intros Hm Hk b r b' Hp Hrun. unfold bindB in Hrun.
  destruct (m b) as [[a | e] b1] eqn:E.
  - exact (Hk a b1 r b' (Hm b _ b1 Hp E) Hrun).
  - inversion Hrun; subst. exact (Hm b _ b' Hp E).
Qed.

Lemma keeps_board_lift (env : Env) {A : Type} (m : M A) :
  keeps env m -> keeps_board env (lift m).
Proof.
  intros Hm b r b' Hp Hrun. unfold lift in Hrun.
  destruct (m (world b)) as [r1 w1] eqn:E.
  inversion Hrun; subst. cbn [world]. exact (Hm (world b) r w1 Hp E).
Qed.

Lemma keeps_board_on_panel (env : Env) (op : panel_op) :
  keeps_board env (on_panel op).
Proof. intros b r b' Hp Hrun. inversion Hrun; subst. exact Hp. Qed.

Ltac keeps_board_step :=
  lazymatch goal with
  | |- keeps_board _ (retB _) => apply keeps_board_ret
  | |- keeps_board _ (on_panel _) => apply keeps_board_on_panel
  | |- keeps_board _ (lift _) => apply keeps_board_lift
  | |- keeps_board _ (bindB _ _) => apply keeps_board_bind; [| intros ?]
  | |- keeps_board _ (if ?b then _ else _) => destruct b
  | |- keeps _ _ => keeps_step
  end.

Lemma keeps_initialize_display (env : Env) : keeps_board env initialize_display.
Proof. unfold initialize_display, dprint, print. repeat keeps_board_step. Qed.

Lemma keeps_setup_display (env : Env)
    (essid : list (string * string) -> nat -> string) :
  keeps_board env (setup_display env essid).
Proof.
  unfold setup_display, wlan_config_essid, ask_essid, dprint.
  repeat keeps_board_step.
Qed.

Lemma keeps_startup (env : Env)
    (essid : list (string * string) -> nat -> string) :
  keeps_board env (startup env essid).
Proof.
  unfold startup. repeat keeps_board_step.
  - apply keeps_initialize_display.
  - apply keeps_connect_to_wifi.
  - apply keeps_setup_display.
Qed.

Lemma keeps_cleanup (env : Env) : keeps_board env cleanup.
Proof. unfold cleanup, print. repeat keeps_board_step. Qed.

Lemma keeps_main (env : Env)
    (essid : list (string * string) -> nat -> string)
    (nap : nat -> result unit) (fuel : nat) (b : Board)
    (r : result unit) (b' : Board) :
  program_point env (world b) ->
  main env essid nap fuel b = Some (r, b') ->
  program_point env (world b').
Proof.
  unfold main. intros Hp Hrun.
  destruct (startup_spec env essid b) as (up & b1 & evs1 & ops & w0 & Es & _).
  rewrite Es in Hrun.
  pose proof (keeps_startup env essid b _ b1 Hp Es) as Hp1.
  destruct up.
  - destruct (run_display_and_webserver env fuel (world b1)) as [[r2 w2] |] eqn:Er;
      [| discriminate Hrun].
    pose proof (keeps_run_display_and_webserver env fuel (world b1) r2 w2 Hp1 Er)
      as Hp2.
    destruct r2 as [[] | e].
    + apply (keeps_cleanup env (mkBoard w2 (panel b1)) r b'); [exact Hp2 |].
      apply some_eq. exact Hrun.
    + apply some_eq in Hrun. inversion Hrun; subst. exact Hp2.
  - destruct (run_display_only env nap fuel (world b1)) as [[r2 w2] |] eqn:Er;
      [| discriminate Hrun].
    pose proof (keeps_run_display_only env nap fuel (world b1) r2 w2 Hp1 Er) as Hp2.
    destruct r2 as [[] | e].
    + apply (keeps_cleanup env (mkBoard w2 (panel b1)) r b'); [exact Hp2 |].
      apply some_eq. exact Hrun.
    + apply some_eq in Hrun. inversion Hrun; subst. exact Hp2.
Qed.

(** ** What the Reading Set holds at a program point *)

Lemma sensor_events_app (a b : list event) :
  existsb sensor_event (a ++ b) = existsb sensor_event a || existsb sensor_event b.
Proof. apply existsb_app. Qed.

(** Until a sensor call is in the trace the three fields are empty; from
    then on they hold what a refresh left. *)
Lemma program_point_readings (env : Env) (w : World) :
  program_point env w ->
  (existsb sensor_event (trace w) = false /\ all_empty w) \/
  (existsb sensor_event (trace w) = true /\ refreshed env w).
Proof.
  induction 1 as
    [ | ev w r w' _ IH Hev Hrun | w r w' _ IH Hrun | c w r w' _ IH Hrun
      | b w r w' _ IH Hrun | w r w' _ IH Hrun ].
  - left. split; [reflexivity | repeat split].
  - unfold emit in Hrun. inversion Hrun; subst. cbn [trace].
    rewrite sensor_events_app. cbn [existsb]. rewrite Hev, orb_false_r.
    destruct IH as [(Hq & He) | (Hq & Hr)].
    + left. split; [exact Hq | exact He].
    + right. split; [exact Hq |].
      apply (refreshed_same_readings env w); [repeat split | exact Hr].
  - unfold tick in Hrun. inversion Hrun; subst. cbn [trace].
    destruct IH as [(Hq & He) | (Hq & Hr)].
    + left. split; [exact Hq | exact He].
    + right. split; [exact Hq |].
      apply (refreshed_same_readings env w); [repeat split | exact Hr].
  - unfold set_conn in Hrun. inversion Hrun; subst. cbn [trace].
    destruct IH as [(Hq & He) | (Hq & Hr)].
    + left. split; [exact Hq | exact He].
    + right. split; [exact Hq |].
      apply (refreshed_same_readings env w); [repeat split | exact Hr].
  - unfold set_stay_in_loop in Hrun. inversion Hrun; subst. cbn [trace].
    destruct IH as [(Hq & He) | (Hq & Hr)].
    + left. split; [exact Hq | exact He].
    + right. split; [exact Hq |].
      apply (refreshed_same_readings env w); [repeat split | exact Hr].
  - destruct (refresh_weatherData_cases env w)
      as (w2 & Hr & _ & _ & (evs & Htr & _ & Hin) & Hcase).
    rewrite Hr in Hrun. inversion Hrun; subst r w2.
    right. split.
    + rewrite Htr, sensor_events_app.
      assert (Hs : existsb sensor_event evs = true).
      { apply existsb_exists. exists SensorInit. split; [exact Hin | reflexivity]. }
      rewrite Hs. apply orb_true_r.
    + destruct Hcase as [(_ & Hf) | (e & w3 & _ & Hs)].
      * right. exists w. exact Hf.
      * left. exact Hs.
Qed.

(** Before the first transaction that completes, the fields are empty
    up to the first refresh and hold the sentinel after it. *)
Lemma before_first_read_readings (env : Env) (w : World) :
  before_first_read env w ->
  program_point env w /\
  ((existsb sensor_event (trace w) = false /\ all_empty w) \/
   (existsb sensor_event (trace w) = true /\ all_sentinel w)).
Proof.
  induction 1 as
    [ | ev w r w' _ (Hp & IH) Hev Hrun | w r w' _ (Hp & IH) Hrun
      | c w r w' _ (Hp & IH) Hrun | b w r w' _ (Hp & IH) Hrun
      | w e w1 r w' _ (Hp & IH) Hfail Hrun ].
  - split; [apply at_start |]. left. split; [reflexivity | repeat split].
  - split; [exact (after_emit env ev w r w' Hp Hev Hrun) |].
    unfold emit in Hrun. inversion Hrun; subst. cbn [trace].
    rewrite sensor_events_app. cbn [existsb]. rewrite Hev, orb_false_r.
    exact IH.
  - split; [exact (after_tick env w r w' Hp Hrun) |].
    unfold tick in Hrun. inversion Hrun; subst. exact IH.
  - split; [exact (after_set_conn env c w r w' Hp Hrun) |].
    unfold set_conn in Hrun. inversion Hrun; subst. exact IH.
  - split; [exact (after_set_stay_in_loop env b w r w' Hp Hrun) |].
    unfold set_stay_in_loop in Hrun. inversion Hrun; subst. exact IH.
  - split; [exact (after_refresh env w r w' Hp Hrun) |].
    destruct (refresh_weatherData_cases env w)
      as (w2 & Hr & _ & _ & (evs & Htr & _ & Hin) & Hcase).
    rewrite Hr in Hrun. inversion Hrun; subst r w2.
    right. split.
    + rewrite Htr, sensor_events_app.
      assert (Hs : existsb sensor_event evs = true).
      { apply existsb_exists. exists SensorInit. split; [exact Hin | reflexivity]. }
      rewrite Hs. apply orb_true_r.
    + destruct Hcase as [(Hok & _) | (e' & w3 & _ & Hs)].
      * rewrite Hok in Hfail. discriminate Hfail.
      * exact Hs.
Qed.

Lemma refreshed_settled (env : Env) (w : World) : refreshed env w -> settled env w.
Proof.
  intros [Hs | (w0 & Hf)].
  - apply settled_sentinel. exact Hs.
  - apply (settled_fresh env w w0). exact Hf.
Qed.



